(** * dcrd start-up path: wire constants, configuration loading, shutdown

    A shallow embedding of the Go sources of this repository:

    - package [wire] (protocol versions, [ServiceFlag], [CurrencyNet]);
    - package [main]: [config.go] ([minUint32], [removeDuplicateAddresses],
      [normalizeAddress], [normalizeAddresses], [loadConfig]),
      [signal.go] ([shutdownRequested]), [log.go] ([fatalf]) and
      [dcrd.go] ([dcrdMain]).

    Unsigned machine integers are [Z] with the wrap-around written out,
    Go strings are [string] (bytes), Go maps are [gmap]/[gset].  Calls that
    leave the program (the flags parser, the file system, the resolver, the
    block database, the server) are fields of a [World] record: one field
    per call site, giving the value the call returns. *)

From Stdlib Require Import ZArith String Ascii Lia.
From stdpp Require Import gmap strings list.

Local Open Scope string_scope.
Local Open Scope list_scope.
Local Open Scope Z_scope.

(** ** Go standard library: the pieces of [strings], [strconv], [fmt] used *)

Module GoStrings.

(** [strings.IndexByte(s, c) >= 0], as a boolean. *)
Fixpoint hasByte (c : ascii) (s : string) : bool :=
  match s with
  | EmptyString => false
  | String x s' => if Ascii.eqb x c then true else hasByte c s'
  end.

(** [strings.TrimLeft(s, cutset)]: drop every leading byte of [s] that
    occurs in [cutset]. *)
Fixpoint TrimLeft (s cutset : string) : string :=
  match s with
  | EmptyString => EmptyString
  | String c s' => if hasByte c cutset then TrimLeft s' cutset else s
  end.

(** [strings.TrimRight(s, cutset)]: drop every trailing byte of [s] that
    occurs in [cutset]. *)
Fixpoint TrimRight (s cutset : string) : string :=
  match s with
  | EmptyString => EmptyString
  | String c s' =>
      match TrimRight s' cutset with
      | EmptyString => if hasByte c cutset then EmptyString else String c EmptyString
      | r => String c r
      end
  end.

(** [strings.HasPrefix]. *)
Definition HasPrefix (s pre : string) : bool := String.prefix pre s.

(** [len(s)]. *)
Definition len (s : string) : Z := Z.of_nat (String.length s).

(** Slices of a string: [s[n:]] is [dropBytes n s], [s[:n]] is
    [takeBytes n s]. *)
Fixpoint dropBytes (n : nat) (s : string) : string :=
  match n, s with
  | O, _ => s
  | S k, EmptyString => EmptyString
  | S k, String _ s' => dropBytes k s'
  end.

Fixpoint takeBytes (n : nat) (s : string) : string :=
  match n, s with
  | O, _ => EmptyString
  | S k, EmptyString => EmptyString
  | S k, String c s' => String c (takeBytes k s')
  end.

(** [s[j:]] and [s[j:k]] with Go's [int] indices. *)
Definition sliceFrom (s : string) (j : Z) : string := dropBytes (Z.to_nat j) s.

Definition slice (s : string) (j k : Z) : string :=
  takeBytes (Z.to_nat (k - j)) (dropBytes (Z.to_nat j) s).

(** [bytealg.IndexByteString(s, c)]: the first index of [c], or -1. *)
Fixpoint IndexByteString (s : string) (c : ascii) : Z :=
  match s with
  | EmptyString => -1
  | String x s' =>
      if Ascii.eqb x c then 0
      else let r := IndexByteString s' c in if r <? 0 then -1 else r + 1
  end.

(** [last(s, c)] of package net: the last index of [c], or -1. *)
Fixpoint last (s : string) (c : ascii) : Z :=
  match s with
  | EmptyString => -1
  | String x s' =>
      let r := last s' c in
      if 0 <=? r then r + 1 else if Ascii.eqb x c then 0 else -1
  end.

(** [strings.IndexAny(s, chars)]: the first index of a byte of [chars]. *)
Fixpoint IndexAny (s chars : string) : Z :=
  match s with
  | EmptyString => -1
  | String x s' =>
      if hasByte x chars then 0
      else let r := IndexAny s' chars in if r <? 0 then -1 else r + 1
  end.

(** The digit table of [strconv]. *)
Definition digits : string := "0123456789abcdefghijklmnopqrstuvwxyz".

Definition digit (d : Z) : ascii :=
  match String.get (Z.to_nat d) digits with
  | Some c => c
  | None => "?"%char
  end.

(** The loop of [strconv.formatBits]: the digits of [u] in base [b] are
    produced from the least significant one.  A 64-bit value has at most
    64 digits, which bounds the loop. *)
Fixpoint formatBits (fuel : nat) (u b : Z) (acc : string) : string :=
  match fuel with
  | O => acc
  | S k =>
      if u <? b then String (digit u) acc
      else formatBits k (u / b) b (String (digit (u mod b)) acc)
  end.

(** [strconv.FormatUint(i, base)] for a [uint64] [i]. *)
Definition FormatUint (i base : Z) : string := formatBits 64 i base "".

(** [strings.Contains(s, substr)]. *)
Fixpoint Contains (s substr : string) : bool :=
  if String.prefix substr s then true
  else match s with
       | EmptyString => false
       | String _ s' => Contains s' substr
       end.

(** [strings.HasSuffix(s, suffix)]. *)
Definition HasSuffix (s suffix : string) : bool :=
  (len suffix <=? len s)
  && String.eqb (sliceFrom s (len s - len suffix)) suffix.

End GoStrings.

(** ** Package wire *)

Module Wire.
Import GoStrings.

(** Protocol versions ([uint32] constants). *)
Definition InitialProcotolVersion : Z := 1.
Definition ProtocolVersion : Z := 6.
Definition NodeBloomVersion : Z := 2.
Definition SendHeadersVersion : Z := 3.
Definition MaxBlockSizeVersion : Z := 4.
Definition FeeFilterVersion : Z := 5.
Definition NodeCFVersion : Z := 6.

(** [type ServiceFlag uint64]. *)
Definition ServiceFlag : Type := Z.
Definition uint64_modulus : Z := 2 ^ 64.
Definition is_uint64 (x : Z) : Prop := 0 <= x < uint64_modulus.

(** [1 << iota] for iota = 0, 1, 2. *)
Definition SFNodeNetwork : ServiceFlag := Z.shiftl 1 0.
Definition SFNodeBloom : ServiceFlag := Z.shiftl 1 1.
Definition SFNodeCF : ServiceFlag := Z.shiftl 1 2.

Definition sfStrings : gmap Z string :=
  <[SFNodeNetwork := "SFNodeNetwork"]>
    (<[SFNodeBloom := "SFNodeBloom"]>
       (<[SFNodeCF := "SFNodeCF"]> ∅)).

Definition orderedSFStrings : list ServiceFlag :=
  [SFNodeNetwork; SFNodeBloom; SFNodeCF].

(** Indexing a Go map at an absent key gives the zero value. *)
Definition sfName (flag : ServiceFlag) : string :=
  match sfStrings !! flag with
  | Some s => s
  | None => ""
  end.

(** One iteration of the loop of [String]: the state is [(s, f)]. *)
Definition sfStep (st : string * ServiceFlag) (flag : ServiceFlag)
  : string * ServiceFlag :=
  let '(s, f) := st in
  if Z.land f flag =? flag
  then (s +:+ sfName flag +:+ "|", (f - flag) mod uint64_modulus)
  else (s, f).

(** [func (f ServiceFlag) String() string]. *)
Definition ServiceFlag_String (f : ServiceFlag) : string :=
  if f =? 0 then "0x0"
  else
    let '(s, f) := foldl sfStep ("", f) orderedSFStrings in
    let s := TrimRight s "|" in
    let s := if negb (f =? 0) then s +:+ "|0x" +:+ FormatUint f 16 else s in
    TrimLeft s "|".

(** The reading of [String] in words: the names of the recognised flags
    whose bit is set, in the fixed order, then the residue in hex. *)
Definition sfBit (flag : ServiceFlag) : Z := Z.log2 flag.

Definition sfRecognised : ServiceFlag :=
  Z.lor (Z.lor SFNodeNetwork SFNodeBloom) SFNodeCF.

Definition sfResidue (f : ServiceFlag) : ServiceFlag := Z.ldiff f sfRecognised.

Definition sfSetNames (f : ServiceFlag) : list string :=
  sfName <$> List.filter (λ flag, Z.testbit f (sfBit flag)) orderedSFStrings.

Definition sfResidueText (f : ServiceFlag) : list string :=
  if sfResidue f =? 0 then [] else ["0x" +:+ FormatUint (sfResidue f) 16].

(** The three recognised flags are the values 1, 2 and 4. *)
Definition lowFlag (flag : ServiceFlag) : Prop := flag = 1 ∨ flag = 2 ∨ flag = 4.

(** [type CurrencyNet uint32]. *)
Definition CurrencyNet : Type := Z.
Definition uint32_modulus : Z := 2 ^ 32.
Definition is_uint32 (x : Z) : Prop := 0 <= x < uint32_modulus.

Definition MainNet : CurrencyNet := 0xd9b400f9.

Definition bnStrings : gmap Z string := <[MainNet := "MainNet"]> ∅.

(** [func (n CurrencyNet) String() string]; [%d] of a [uint32] is its
    decimal text. *)
Definition CurrencyNet_String (n : CurrencyNet) : string :=
  match bnStrings !! n with
  | Some s => s
  | None => "Unknown CurrencyNet (" +:+ FormatUint n 10 +:+ ")"
  end.

End Wire.

(** ** Go standard library: [net.SplitHostPort] and [net.JoinHostPort] *)

Module GoNet.
Import GoStrings.

(** The [Err] text of the [*net.AddrError] that [SplitHostPort] returns. *)
Inductive AddrError : Type :=
| MissingPort
| TooManyColons
| MissingCloseBracket
| UnexpectedOpenBracket
| UnexpectedCloseBracket.

Definition firstByteIs (s : string) (c : ascii) : bool :=
  match s with
  | EmptyString => false
  | String x _ => Ascii.eqb x c
  end.

(** The two checks that end [SplitHostPort]: no '[' from index [j] on, no
    ']' from index [k] on; then the port is what follows the last colon. *)
Definition splitTail (hostport host : string) (i j k : Z)
  : (string * string) + AddrError :=
  if 0 <=? IndexByteString (sliceFrom hostport j) "["
  then inr UnexpectedOpenBracket
  else if 0 <=? IndexByteString (sliceFrom hostport k) "]"
  then inr UnexpectedCloseBracket
  else inl (host, sliceFrom hostport (i + 1)).

(** [func SplitHostPort(hostport string) (host, port string, err error)]. *)
Definition SplitHostPort (hostport : string) : (string * string) + AddrError :=
  let i := last hostport ":" in
  if i <? 0 then inr MissingPort
  else if firstByteIs hostport "["
  then
    let end_ := IndexByteString hostport "]" in
    if end_ <? 0 then inr MissingCloseBracket
    else if end_ + 1 =? len hostport then inr MissingPort
    else if end_ + 1 =? i
    then splitTail hostport (slice hostport 1 end_) i 1 (end_ + 1)
    else if firstByteIs (sliceFrom hostport (end_ + 1)) ":"
    then inr TooManyColons
    else inr MissingPort
  else
    let host := slice hostport 0 i in
    if 0 <=? IndexByteString host ":" then inr TooManyColons
    else splitTail hostport host i 0 0.

(** [func JoinHostPort(host, port string) string]. *)
Definition JoinHostPort (host port : string) : string :=
  if 0 <=? IndexByteString host ":"
  then "[" +:+ host +:+ "]:" +:+ port
  else host +:+ ":" +:+ port.

(** An address that [SplitHostPort] accepts; an address without square
    bracket; a port without colon or square bracket (as "9108"). *)
Definition parses (addr : string) : Prop :=
  ∃ hp : string * string, SplitHostPort addr = inl hp.

Definition bracketFree (addr : string) : Prop :=
  hasByte "[" addr = false ∧ hasByte "]" addr = false.

Definition plainPort (port : string) : Prop :=
  hasByte ":" port = false ∧ hasByte "[" port = false
  ∧ hasByte "]" port = false.

End GoNet.

(** ** Processes: a trace of visible actions and the way the run ends *)

Module Proc.

Inductive stream : Type := Stdout | Stderr.

Inductive level : Type := LvlInfo | LvlWarn | LvlError.

(** What a run does that is visible from outside.  Log lines and prints
    carry their format string. *)
Inductive event : Type :=
| EvPrint (to : stream) (format : string)
| EvLog (logger : string) (lvl : level) (format : string)
| EvStdoutSync
| EvLogRotatorClose
| EvRunServiceCommand (command : string)
| EvShutdownListener
| EvNewLifetimeEventServer
| EvGo (goroutine : string)
| EvLoadBlockDB
| EvDbClose
| EvDropIndex (index : string)
| EvNotifyStartupEvent
| EvNewServer
| EvServerStart
| EvServerStop
| EvServerWaitForShutdown
| EvNotifyShutdownEvent
| EvNotifyStartupComplete
| EvServiceStartOfDay
| EvAwaitDone.

#[global] Instance stream_eq_dec : EqDecision stream.
Proof. solve_decision. Defined.

#[global] Instance level_eq_dec : EqDecision level.
Proof. solve_decision. Defined.

#[global] Instance event_eq_dec : EqDecision event.
Proof. solve_decision. Defined.

(** How a run of a function ends: it returns, the process exits
    ([os.Exit]), the goroutine panics, or it blocks for ever. *)
Inductive outcome (A : Type) : Type :=
| Returned (a : A)
| Exited (code : Z)
| Panicked
| Blocked.
Arguments Returned {A} a.
Arguments Exited {A} code.
Arguments Panicked {A}.
Arguments Blocked {A}.

Definition proc (A : Type) : Type := list event * outcome A.

Definition ret {A} (a : A) : proc A := ([], Returned a).

Definition bind {A B} (m : proc A) (f : A → proc B) : proc B :=
  match m with
  | (t, Returned a) => let '(t', o) := f a in (t ++ t', o)
  | (t, Exited c) => (t, Exited c)
  | (t, Panicked) => (t, Panicked)
  | (t, Blocked) => (t, Blocked)
  end.

Definition emit (e : event) : proc unit := ([e], Returned tt).
Definition os_Exit {A} (code : Z) : proc A := ([], Exited code).
Definition panic {A} : proc A := ([], Panicked).
Definition block {A} : proc A := ([], Blocked).

(** [when b m]: an [if] without [else]. *)
Definition when (b : bool) (m : proc unit) : proc unit :=
  if b then m else ret tt.

Definition trace {A} (m : proc A) : list event := fst m.
Definition result {A} (m : proc A) : outcome A := snd m.

End Proc.

#[global] Instance proc_ret : MRet Proc.proc := @Proc.ret.
#[global] Instance proc_bind : MBind Proc.proc := λ A B f m, Proc.bind m f.

(** ** Package main: configuration ([config.go]) *)

Module Config.
Import GoStrings GoNet Proc.

(** [time.Duration]: an [int64] count of nanoseconds. *)
Definition Duration : Type := Z.
Definition time_Second : Duration := 1000000000.
Definition time_Hour : Duration := 3600 * time_Second.

(** A [float64], kept as its IEEE-754 bit pattern: this code only copies
    such values and hands them to [dcrutil.NewAmount]. *)
Record float64 : Type := Float64 { float64bits : Z }.

(** [dcrutil.Amount] ([int64] atoms) and [dcrutil.Address]. *)
Definition Amount : Type := Z.
Record Address : Type := MkAddress { addressText : string }.

(** The function values stored in [config.dial] and [config.lookup]. *)
Inductive dialFunc : Type := dialNil | net_Dial.
Inductive lookupFunc : Type := lookupNil | net_LookupIP.

(** [dcrjson.NetworksResult], the fields used here. *)
Record NetworksResult : Type := MkNetworksResult {
  nrName : string;
  nrLimited : bool;
  nrReachable : bool;
  nrProxy : string
}.

Definition uint32_wrap (x : Z) : Z := x mod 2 ^ 32.

Definition defaultConfigFilename : string := "dcrd.conf".
Definition defaultDataDirname : string := "data".
Definition defaultLogLevel : string := "info".
Definition defaultLogDirname : string := "logs".
Definition defaultLogFilename : string := "dcrd.log".
Definition defaultMaxSameIP : Z := 5.
Definition defaultMaxPeers : Z := 125.
Definition defaultBanDuration : Duration := time_Hour * 24.
Definition defaultBanThreshold : Z := 100.
Definition defaultMaxRPCClients : Z := 10.
Definition defaultMaxRPCWebsockets : Z := 25.
Definition defaultMaxRPCConcurrentReqs : Z := 20.
Definition defaultDbType : string := "ffldb".
Definition defaultFreeTxRelayLimit : float64 := Float64 0x402E000000000000.
Definition defaultBlockMinSize : Z := 0.
Definition defaultBlockMaxSize : Z := 375000.
Definition blockMaxSizeMin : Z := 1000.
Definition defaultAddrIndex : bool := false.
Definition defaultGenerate : bool := false.
Definition defaultNoMiningStateSync : bool := false.
Definition defaultAllowOldVotes : bool := false.
Definition defaultMaxOrphanTransactions : Z := 1000.
Definition defaultMaxOrphanTxSize : Z := 5000.
Definition defaultSigCacheMaxSize : Z := 100000.
Definition defaultTxIndex : bool := false.
Definition defaultNoExistsAddrIndex : bool := false.
Definition defaultNoCFilters : bool := false.
Definition defaultAltDNSNames : list string := [].

(** [func minUint32(a, b uint32) uint32]. *)
Definition minUint32 (a b : Z) : Z := if a <? b then a else b.

(** [type config struct]: every field of the declaration, in its order,
    then [AddPeers], [ConnectPeers], [Proxy] and [onionNetInfo], which
    [loadConfig], [parseNetworkInterfaces] and [generateNetworkInfo] use.
    The field [lookup] is [cfg_lookup] here. *)
#[projections(primitive)] Record config : Type := Build_config {
  HomeDir : string;
  ShowVersion : bool;
  ConfigFile : string;
  DataDir : string;
  LogDir : string;
  NoFileLogging : bool;
  DisableListen : bool;
  Listeners : list string;
  MaxSameIP : Z;
  MaxPeers : Z;
  DisableBanning : bool;
  BanDuration : Duration;
  BanThreshold : Z;
  RPCUser : string;
  RPCPass : string;
  RPCListeners : list string;
  RPCCert : string;
  RPCKey : string;
  RPCMaxClients : Z;
  RPCMaxWebsockets : Z;
  RPCMaxConcurrentReqs : Z;
  DisableRPC : bool;
  DisableTLS : bool;
  DisableDNSSeed : bool;
  ExternalIPs : list string;
  TestNet : bool;
  DisableCheckpoints : bool;
  DbType : string;
  DumpBlockchain : string;
  MiningTimeOffset : Z;
  DebugLevel : string;
  Upnp : bool;
  MinRelayTxFee : float64;
  FreeTxRelayLimit : float64;
  NoRelayPriority : bool;
  MaxOrphanTxs : Z;
  Generate : bool;
  MiningAddrs : list string;
  BlockMinSize : Z;
  BlockMaxSize : Z;
  BlockPrioritySize : Z;
  SigCacheMaxSize : Z;
  NonAggressive : bool;
  NoMiningStateSync : bool;
  AllowOldVotes : bool;
  BlocksOnly : bool;
  AcceptNonStd : bool;
  RejectNonStd : bool;
  TxIndex : bool;
  DropTxIndex : bool;
  AddrIndex : bool;
  DropAddrIndex : bool;
  NoExistsAddrIndex : bool;
  DropExistsAddrIndex : bool;
  NoCFilters : bool;
  DropCFIndex : bool;
  PipeRx : Z;
  PipeTx : Z;
  LifetimeEvents : bool;
  AltDNSNames : list string;
  onionlookup : lookupFunc;
  cfg_lookup : lookupFunc;
  oniondial : dialFunc;
  dial : dialFunc;
  miningAddrs : list Address;
  minRelayTxFee : Amount;
  whitelists : list string;
  ipv4NetInfo : NetworksResult;
  ipv6NetInfo : NetworksResult;
  AddPeers : list string;
  ConnectPeers : list string;
  Proxy : string;
  onionNetInfo : NetworksResult
}.

Definition set_AcceptNonStd (v : bool) (c : config) : config :=
  let 'Build_config x0 x1 x2 x3 x4 x5 x6 x7 x8 x9 x10 x11 x12 x13 x14 x15
    x16 x17 x18 x19 x20 x21 x22 x23 x24 x25 x26 x27 x28 x29 x30 x31 x32 x33
    x34 x35 x36 x37 x38 x39 x40 x41 x42 x43 x44 x45 _ x47 x48 x49 x50 x51
    x52 x53 x54 x55 x56 x57 x58 x59 x60 x61 x62 x63 x64 x65 x66 x67 x68 x69
    x70 x71 x72
    := c in
  Build_config x0 x1 x2 x3 x4 x5 x6 x7 x8 x9 x10 x11 x12 x13 x14 x15 x16 x17
    x18 x19 x20 x21 x22 x23 x24 x25 x26 x27 x28 x29 x30 x31 x32 x33 x34 x35
    x36 x37 x38 x39 x40 x41 x42 x43 x44 x45 v x47 x48 x49 x50 x51 x52 x53
    x54 x55 x56 x57 x58 x59 x60 x61 x62 x63 x64 x65 x66 x67 x68 x69 x70 x71
    x72.

Definition set_DataDir (v : string) (c : config) : config :=
  let 'Build_config x0 x1 x2 _ x4 x5 x6 x7 x8 x9 x10 x11 x12 x13 x14 x15 x16
    x17 x18 x19 x20 x21 x22 x23 x24 x25 x26 x27 x28 x29 x30 x31 x32 x33 x34
    x35 x36 x37 x38 x39 x40 x41 x42 x43 x44 x45 x46 x47 x48 x49 x50 x51 x52
    x53 x54 x55 x56 x57 x58 x59 x60 x61 x62 x63 x64 x65 x66 x67 x68 x69 x70
    x71 x72
    := c in
  Build_config x0 x1 x2 v x4 x5 x6 x7 x8 x9 x10 x11 x12 x13 x14 x15 x16 x17
    x18 x19 x20 x21 x22 x23 x24 x25 x26 x27 x28 x29 x30 x31 x32 x33 x34 x35
    x36 x37 x38 x39 x40 x41 x42 x43 x44 x45 x46 x47 x48 x49 x50 x51 x52 x53
    x54 x55 x56 x57 x58 x59 x60 x61 x62 x63 x64 x65 x66 x67 x68 x69 x70 x71
    x72.

Definition set_Listeners (v : list string) (c : config) : config :=
  let 'Build_config x0 x1 x2 x3 x4 x5 x6 _ x8 x9 x10 x11 x12 x13 x14 x15 x16
    x17 x18 x19 x20 x21 x22 x23 x24 x25 x26 x27 x28 x29 x30 x31 x32 x33 x34
    x35 x36 x37 x38 x39 x40 x41 x42 x43 x44 x45 x46 x47 x48 x49 x50 x51 x52
    x53 x54 x55 x56 x57 x58 x59 x60 x61 x62 x63 x64 x65 x66 x67 x68 x69 x70
    x71 x72
    := c in
  Build_config x0 x1 x2 x3 x4 x5 x6 v x8 x9 x10 x11 x12 x13 x14 x15 x16 x17
    x18 x19 x20 x21 x22 x23 x24 x25 x26 x27 x28 x29 x30 x31 x32 x33 x34 x35
    x36 x37 x38 x39 x40 x41 x42 x43 x44 x45 x46 x47 x48 x49 x50 x51 x52 x53
    x54 x55 x56 x57 x58 x59 x60 x61 x62 x63 x64 x65 x66 x67 x68 x69 x70 x71
    x72.

Definition set_DisableRPC (v : bool) (c : config) : config :=
  let 'Build_config x0 x1 x2 x3 x4 x5 x6 x7 x8 x9 x10 x11 x12 x13 x14 x15
    x16 x17 x18 x19 x20 _ x22 x23 x24 x25 x26 x27 x28 x29 x30 x31 x32 x33
    x34 x35 x36 x37 x38 x39 x40 x41 x42 x43 x44 x45 x46 x47 x48 x49 x50 x51
    x52 x53 x54 x55 x56 x57 x58 x59 x60 x61 x62 x63 x64 x65 x66 x67 x68 x69
    x70 x71 x72
    := c in
  Build_config x0 x1 x2 x3 x4 x5 x6 x7 x8 x9 x10 x11 x12 x13 x14 x15 x16 x17
    x18 x19 x20 v x22 x23 x24 x25 x26 x27 x28 x29 x30 x31 x32 x33 x34 x35
    x36 x37 x38 x39 x40 x41 x42 x43 x44 x45 x46 x47 x48 x49 x50 x51 x52 x53
    x54 x55 x56 x57 x58 x59 x60 x61 x62 x63 x64 x65 x66 x67 x68 x69 x70 x71
    x72.

Definition set_RPCListeners (v : list string) (c : config) : config :=
  let 'Build_config x0 x1 x2 x3 x4 x5 x6 x7 x8 x9 x10 x11 x12 x13 x14 _ x16
    x17 x18 x19 x20 x21 x22 x23 x24 x25 x26 x27 x28 x29 x30 x31 x32 x33 x34
    x35 x36 x37 x38 x39 x40 x41 x42 x43 x44 x45 x46 x47 x48 x49 x50 x51 x52
    x53 x54 x55 x56 x57 x58 x59 x60 x61 x62 x63 x64 x65 x66 x67 x68 x69 x70
    x71 x72
    := c in
  Build_config x0 x1 x2 x3 x4 x5 x6 x7 x8 x9 x10 x11 x12 x13 x14 v x16 x17
    x18 x19 x20 x21 x22 x23 x24 x25 x26 x27 x28 x29 x30 x31 x32 x33 x34 x35
    x36 x37 x38 x39 x40 x41 x42 x43 x44 x45 x46 x47 x48 x49 x50 x51 x52 x53
    x54 x55 x56 x57 x58 x59 x60 x61 x62 x63 x64 x65 x66 x67 x68 x69 x70 x71
    x72.

Definition set_minRelayTxFee (v : Amount) (c : config) : config :=
  let 'Build_config x0 x1 x2 x3 x4 x5 x6 x7 x8 x9 x10 x11 x12 x13 x14 x15
    x16 x17 x18 x19 x20 x21 x22 x23 x24 x25 x26 x27 x28 x29 x30 x31 x32 x33
    x34 x35 x36 x37 x38 x39 x40 x41 x42 x43 x44 x45 x46 x47 x48 x49 x50 x51
    x52 x53 x54 x55 x56 x57 x58 x59 x60 x61 x62 x63 x64 _ x66 x67 x68 x69
    x70 x71 x72
    := c in
  Build_config x0 x1 x2 x3 x4 x5 x6 x7 x8 x9 x10 x11 x12 x13 x14 x15 x16 x17
    x18 x19 x20 x21 x22 x23 x24 x25 x26 x27 x28 x29 x30 x31 x32 x33 x34 x35
    x36 x37 x38 x39 x40 x41 x42 x43 x44 x45 x46 x47 x48 x49 x50 x51 x52 x53
    x54 x55 x56 x57 x58 x59 x60 x61 x62 x63 x64 v x66 x67 x68 x69 x70 x71
    x72.

Definition set_BlockPrioritySize (v : Z) (c : config) : config :=
  let 'Build_config x0 x1 x2 x3 x4 x5 x6 x7 x8 x9 x10 x11 x12 x13 x14 x15
    x16 x17 x18 x19 x20 x21 x22 x23 x24 x25 x26 x27 x28 x29 x30 x31 x32 x33
    x34 x35 x36 x37 x38 x39 _ x41 x42 x43 x44 x45 x46 x47 x48 x49 x50 x51
    x52 x53 x54 x55 x56 x57 x58 x59 x60 x61 x62 x63 x64 x65 x66 x67 x68 x69
    x70 x71 x72
    := c in
  Build_config x0 x1 x2 x3 x4 x5 x6 x7 x8 x9 x10 x11 x12 x13 x14 x15 x16 x17
    x18 x19 x20 x21 x22 x23 x24 x25 x26 x27 x28 x29 x30 x31 x32 x33 x34 x35
    x36 x37 x38 x39 v x41 x42 x43 x44 x45 x46 x47 x48 x49 x50 x51 x52 x53
    x54 x55 x56 x57 x58 x59 x60 x61 x62 x63 x64 x65 x66 x67 x68 x69 x70 x71
    x72.

Definition set_BlockMinSize (v : Z) (c : config) : config :=
  let 'Build_config x0 x1 x2 x3 x4 x5 x6 x7 x8 x9 x10 x11 x12 x13 x14 x15
    x16 x17 x18 x19 x20 x21 x22 x23 x24 x25 x26 x27 x28 x29 x30 x31 x32 x33
    x34 x35 x36 x37 _ x39 x40 x41 x42 x43 x44 x45 x46 x47 x48 x49 x50 x51
    x52 x53 x54 x55 x56 x57 x58 x59 x60 x61 x62 x63 x64 x65 x66 x67 x68 x69
    x70 x71 x72
    := c in
  Build_config x0 x1 x2 x3 x4 x5 x6 x7 x8 x9 x10 x11 x12 x13 x14 x15 x16 x17
    x18 x19 x20 x21 x22 x23 x24 x25 x26 x27 x28 x29 x30 x31 x32 x33 x34 x35
    x36 x37 v x39 x40 x41 x42 x43 x44 x45 x46 x47 x48 x49 x50 x51 x52 x53
    x54 x55 x56 x57 x58 x59 x60 x61 x62 x63 x64 x65 x66 x67 x68 x69 x70 x71
    x72.

Definition set_miningAddrs (v : list Address) (c : config) : config :=
  let 'Build_config x0 x1 x2 x3 x4 x5 x6 x7 x8 x9 x10 x11 x12 x13 x14 x15
    x16 x17 x18 x19 x20 x21 x22 x23 x24 x25 x26 x27 x28 x29 x30 x31 x32 x33
    x34 x35 x36 x37 x38 x39 x40 x41 x42 x43 x44 x45 x46 x47 x48 x49 x50 x51
    x52 x53 x54 x55 x56 x57 x58 x59 x60 x61 x62 x63 _ x65 x66 x67 x68 x69
    x70 x71 x72
    := c in
  Build_config x0 x1 x2 x3 x4 x5 x6 x7 x8 x9 x10 x11 x12 x13 x14 x15 x16 x17
    x18 x19 x20 x21 x22 x23 x24 x25 x26 x27 x28 x29 x30 x31 x32 x33 x34 x35
    x36 x37 x38 x39 x40 x41 x42 x43 x44 x45 x46 x47 x48 x49 x50 x51 x52 x53
    x54 x55 x56 x57 x58 x59 x60 x61 x62 x63 v x65 x66 x67 x68 x69 x70 x71
    x72.

Definition set_AddPeers (v : list string) (c : config) : config :=
  let 'Build_config x0 x1 x2 x3 x4 x5 x6 x7 x8 x9 x10 x11 x12 x13 x14 x15
    x16 x17 x18 x19 x20 x21 x22 x23 x24 x25 x26 x27 x28 x29 x30 x31 x32 x33
    x34 x35 x36 x37 x38 x39 x40 x41 x42 x43 x44 x45 x46 x47 x48 x49 x50 x51
    x52 x53 x54 x55 x56 x57 x58 x59 x60 x61 x62 x63 x64 x65 x66 x67 x68 _
    x70 x71 x72
    := c in
  Build_config x0 x1 x2 x3 x4 x5 x6 x7 x8 x9 x10 x11 x12 x13 x14 x15 x16 x17
    x18 x19 x20 x21 x22 x23 x24 x25 x26 x27 x28 x29 x30 x31 x32 x33 x34 x35
    x36 x37 x38 x39 x40 x41 x42 x43 x44 x45 x46 x47 x48 x49 x50 x51 x52 x53
    x54 x55 x56 x57 x58 x59 x60 x61 x62 x63 x64 x65 x66 x67 x68 v x70 x71
    x72.

Definition set_ConnectPeers (v : list string) (c : config) : config :=
  let 'Build_config x0 x1 x2 x3 x4 x5 x6 x7 x8 x9 x10 x11 x12 x13 x14 x15
    x16 x17 x18 x19 x20 x21 x22 x23 x24 x25 x26 x27 x28 x29 x30 x31 x32 x33
    x34 x35 x36 x37 x38 x39 x40 x41 x42 x43 x44 x45 x46 x47 x48 x49 x50 x51
    x52 x53 x54 x55 x56 x57 x58 x59 x60 x61 x62 x63 x64 x65 x66 x67 x68 x69
    _ x71 x72
    := c in
  Build_config x0 x1 x2 x3 x4 x5 x6 x7 x8 x9 x10 x11 x12 x13 x14 x15 x16 x17
    x18 x19 x20 x21 x22 x23 x24 x25 x26 x27 x28 x29 x30 x31 x32 x33 x34 x35
    x36 x37 x38 x39 x40 x41 x42 x43 x44 x45 x46 x47 x48 x49 x50 x51 x52 x53
    x54 x55 x56 x57 x58 x59 x60 x61 x62 x63 x64 x65 x66 x67 x68 x69 v x71
    x72.

Definition set_dial (v : dialFunc) (c : config) : config :=
  let 'Build_config x0 x1 x2 x3 x4 x5 x6 x7 x8 x9 x10 x11 x12 x13 x14 x15
    x16 x17 x18 x19 x20 x21 x22 x23 x24 x25 x26 x27 x28 x29 x30 x31 x32 x33
    x34 x35 x36 x37 x38 x39 x40 x41 x42 x43 x44 x45 x46 x47 x48 x49 x50 x51
    x52 x53 x54 x55 x56 x57 x58 x59 x60 x61 x62 _ x64 x65 x66 x67 x68 x69
    x70 x71 x72
    := c in
  Build_config x0 x1 x2 x3 x4 x5 x6 x7 x8 x9 x10 x11 x12 x13 x14 x15 x16 x17
    x18 x19 x20 x21 x22 x23 x24 x25 x26 x27 x28 x29 x30 x31 x32 x33 x34 x35
    x36 x37 x38 x39 x40 x41 x42 x43 x44 x45 x46 x47 x48 x49 x50 x51 x52 x53
    x54 x55 x56 x57 x58 x59 x60 x61 x62 v x64 x65 x66 x67 x68 x69 x70 x71
    x72.

Definition set_cfg_lookup (v : lookupFunc) (c : config) : config :=
  let 'Build_config x0 x1 x2 x3 x4 x5 x6 x7 x8 x9 x10 x11 x12 x13 x14 x15
    x16 x17 x18 x19 x20 x21 x22 x23 x24 x25 x26 x27 x28 x29 x30 x31 x32 x33
    x34 x35 x36 x37 x38 x39 x40 x41 x42 x43 x44 x45 x46 x47 x48 x49 x50 x51
    x52 x53 x54 x55 x56 x57 x58 x59 x60 _ x62 x63 x64 x65 x66 x67 x68 x69
    x70 x71 x72
    := c in
  Build_config x0 x1 x2 x3 x4 x5 x6 x7 x8 x9 x10 x11 x12 x13 x14 x15 x16 x17
    x18 x19 x20 x21 x22 x23 x24 x25 x26 x27 x28 x29 x30 x31 x32 x33 x34 x35
    x36 x37 x38 x39 x40 x41 x42 x43 x44 x45 x46 x47 x48 x49 x50 x51 x52 x53
    x54 x55 x56 x57 x58 x59 x60 v x62 x63 x64 x65 x66 x67 x68 x69 x70 x71
    x72.

Definition set_ipv4NetInfo (v : NetworksResult) (c : config) : config :=
  let 'Build_config x0 x1 x2 x3 x4 x5 x6 x7 x8 x9 x10 x11 x12 x13 x14 x15
    x16 x17 x18 x19 x20 x21 x22 x23 x24 x25 x26 x27 x28 x29 x30 x31 x32 x33
    x34 x35 x36 x37 x38 x39 x40 x41 x42 x43 x44 x45 x46 x47 x48 x49 x50 x51
    x52 x53 x54 x55 x56 x57 x58 x59 x60 x61 x62 x63 x64 x65 x66 _ x68 x69
    x70 x71 x72
    := c in
  Build_config x0 x1 x2 x3 x4 x5 x6 x7 x8 x9 x10 x11 x12 x13 x14 x15 x16 x17
    x18 x19 x20 x21 x22 x23 x24 x25 x26 x27 x28 x29 x30 x31 x32 x33 x34 x35
    x36 x37 x38 x39 x40 x41 x42 x43 x44 x45 x46 x47 x48 x49 x50 x51 x52 x53
    x54 x55 x56 x57 x58 x59 x60 x61 x62 x63 x64 x65 x66 v x68 x69 x70 x71
    x72.

Definition set_ipv6NetInfo (v : NetworksResult) (c : config) : config :=
  let 'Build_config x0 x1 x2 x3 x4 x5 x6 x7 x8 x9 x10 x11 x12 x13 x14 x15
    x16 x17 x18 x19 x20 x21 x22 x23 x24 x25 x26 x27 x28 x29 x30 x31 x32 x33
    x34 x35 x36 x37 x38 x39 x40 x41 x42 x43 x44 x45 x46 x47 x48 x49 x50 x51
    x52 x53 x54 x55 x56 x57 x58 x59 x60 x61 x62 x63 x64 x65 x66 x67 _ x69
    x70 x71 x72
    := c in
  Build_config x0 x1 x2 x3 x4 x5 x6 x7 x8 x9 x10 x11 x12 x13 x14 x15 x16 x17
    x18 x19 x20 x21 x22 x23 x24 x25 x26 x27 x28 x29 x30 x31 x32 x33 x34 x35
    x36 x37 x38 x39 x40 x41 x42 x43 x44 x45 x46 x47 x48 x49 x50 x51 x52 x53
    x54 x55 x56 x57 x58 x59 x60 x61 x62 x63 x64 x65 x66 x67 v x69 x70 x71
    x72.

Definition set_ConfigFile (v : string) (c : config) : config :=
  let 'Build_config x0 x1 _ x3 x4 x5 x6 x7 x8 x9 x10 x11 x12 x13 x14 x15 x16
    x17 x18 x19 x20 x21 x22 x23 x24 x25 x26 x27 x28 x29 x30 x31 x32 x33 x34
    x35 x36 x37 x38 x39 x40 x41 x42 x43 x44 x45 x46 x47 x48 x49 x50 x51 x52
    x53 x54 x55 x56 x57 x58 x59 x60 x61 x62 x63 x64 x65 x66 x67 x68 x69 x70
    x71 x72
    := c in
  Build_config x0 x1 v x3 x4 x5 x6 x7 x8 x9 x10 x11 x12 x13 x14 x15 x16 x17
    x18 x19 x20 x21 x22 x23 x24 x25 x26 x27 x28 x29 x30 x31 x32 x33 x34 x35
    x36 x37 x38 x39 x40 x41 x42 x43 x44 x45 x46 x47 x48 x49 x50 x51 x52 x53
    x54 x55 x56 x57 x58 x59 x60 x61 x62 x63 x64 x65 x66 x67 x68 x69 x70 x71
    x72.

Definition set_BanDuration (v : Duration) (c : config) : config :=
  let 'Build_config x0 x1 x2 x3 x4 x5 x6 x7 x8 x9 x10 _ x12 x13 x14 x15 x16
    x17 x18 x19 x20 x21 x22 x23 x24 x25 x26 x27 x28 x29 x30 x31 x32 x33 x34
    x35 x36 x37 x38 x39 x40 x41 x42 x43 x44 x45 x46 x47 x48 x49 x50 x51 x52
    x53 x54 x55 x56 x57 x58 x59 x60 x61 x62 x63 x64 x65 x66 x67 x68 x69 x70
    x71 x72
    := c in
  Build_config x0 x1 x2 x3 x4 x5 x6 x7 x8 x9 x10 v x12 x13 x14 x15 x16 x17
    x18 x19 x20 x21 x22 x23 x24 x25 x26 x27 x28 x29 x30 x31 x32 x33 x34 x35
    x36 x37 x38 x39 x40 x41 x42 x43 x44 x45 x46 x47 x48 x49 x50 x51 x52 x53
    x54 x55 x56 x57 x58 x59 x60 x61 x62 x63 x64 x65 x66 x67 x68 x69 x70 x71
    x72.

Definition set_MaxPeers (v : Z) (c : config) : config :=
  let 'Build_config x0 x1 x2 x3 x4 x5 x6 x7 x8 _ x10 x11 x12 x13 x14 x15 x16
    x17 x18 x19 x20 x21 x22 x23 x24 x25 x26 x27 x28 x29 x30 x31 x32 x33 x34
    x35 x36 x37 x38 x39 x40 x41 x42 x43 x44 x45 x46 x47 x48 x49 x50 x51 x52
    x53 x54 x55 x56 x57 x58 x59 x60 x61 x62 x63 x64 x65 x66 x67 x68 x69 x70
    x71 x72
    := c in
  Build_config x0 x1 x2 x3 x4 x5 x6 x7 x8 v x10 x11 x12 x13 x14 x15 x16 x17
    x18 x19 x20 x21 x22 x23 x24 x25 x26 x27 x28 x29 x30 x31 x32 x33 x34 x35
    x36 x37 x38 x39 x40 x41 x42 x43 x44 x45 x46 x47 x48 x49 x50 x51 x52 x53
    x54 x55 x56 x57 x58 x59 x60 x61 x62 x63 x64 x65 x66 x67 x68 x69 x70 x71
    x72.

Definition set_DropTxIndex (v : bool) (c : config) : config :=
  let 'Build_config x0 x1 x2 x3 x4 x5 x6 x7 x8 x9 x10 x11 x12 x13 x14 x15 x16
    x17 x18 x19 x20 x21 x22 x23 x24 x25 x26 x27 x28 x29 x30 x31 x32 x33 x34
    x35 x36 x37 x38 x39 x40 x41 x42 x43 x44 x45 x46 x47 x48 _ x50 x51 x52 x53
    x54 x55 x56 x57 x58 x59 x60 x61 x62 x63 x64 x65 x66 x67 x68 x69 x70 x71
    x72
    := c in
  Build_config x0 x1 x2 x3 x4 x5 x6 x7 x8 x9 x10 x11 x12 x13 x14 x15 x16 x17
    x18 x19 x20 x21 x22 x23 x24 x25 x26 x27 x28 x29 x30 x31 x32 x33 x34 x35
    x36 x37 x38 x39 x40 x41 x42 x43 x44 x45 x46 x47 x48 v x50 x51 x52 x53 x54
    x55 x56 x57 x58 x59 x60 x61 x62 x63 x64 x65 x66 x67 x68 x69 x70 x71 x72.

Definition set_DropAddrIndex (v : bool) (c : config) : config :=
  let 'Build_config x0 x1 x2 x3 x4 x5 x6 x7 x8 x9 x10 x11 x12 x13 x14 x15 x16
    x17 x18 x19 x20 x21 x22 x23 x24 x25 x26 x27 x28 x29 x30 x31 x32 x33 x34
    x35 x36 x37 x38 x39 x40 x41 x42 x43 x44 x45 x46 x47 x48 x49 x50 _ x52 x53
    x54 x55 x56 x57 x58 x59 x60 x61 x62 x63 x64 x65 x66 x67 x68 x69 x70 x71
    x72
    := c in
  Build_config x0 x1 x2 x3 x4 x5 x6 x7 x8 x9 x10 x11 x12 x13 x14 x15 x16 x17
    x18 x19 x20 x21 x22 x23 x24 x25 x26 x27 x28 x29 x30 x31 x32 x33 x34 x35
    x36 x37 x38 x39 x40 x41 x42 x43 x44 x45 x46 x47 x48 x49 x50 v x52 x53 x54
    x55 x56 x57 x58 x59 x60 x61 x62 x63 x64 x65 x66 x67 x68 x69 x70 x71 x72.

Definition set_RPCUser (v : string) (c : config) : config :=
  let 'Build_config x0 x1 x2 x3 x4 x5 x6 x7 x8 x9 x10 x11 x12 _ x14 x15 x16
    x17 x18 x19 x20 x21 x22 x23 x24 x25 x26 x27 x28 x29 x30 x31 x32 x33 x34
    x35 x36 x37 x38 x39 x40 x41 x42 x43 x44 x45 x46 x47 x48 x49 x50 x51 x52
    x53 x54 x55 x56 x57 x58 x59 x60 x61 x62 x63 x64 x65 x66 x67 x68 x69 x70
    x71 x72
    := c in
  Build_config x0 x1 x2 x3 x4 x5 x6 x7 x8 x9 x10 x11 x12 v x14 x15 x16 x17 x18
    x19 x20 x21 x22 x23 x24 x25 x26 x27 x28 x29 x30 x31 x32 x33 x34 x35 x36
    x37 x38 x39 x40 x41 x42 x43 x44 x45 x46 x47 x48 x49 x50 x51 x52 x53 x54
    x55 x56 x57 x58 x59 x60 x61 x62 x63 x64 x65 x66 x67 x68 x69 x70 x71 x72.

Definition set_RPCPass (v : string) (c : config) : config :=
  let 'Build_config x0 x1 x2 x3 x4 x5 x6 x7 x8 x9 x10 x11 x12 x13 _ x15 x16
    x17 x18 x19 x20 x21 x22 x23 x24 x25 x26 x27 x28 x29 x30 x31 x32 x33 x34
    x35 x36 x37 x38 x39 x40 x41 x42 x43 x44 x45 x46 x47 x48 x49 x50 x51 x52
    x53 x54 x55 x56 x57 x58 x59 x60 x61 x62 x63 x64 x65 x66 x67 x68 x69 x70
    x71 x72
    := c in
  Build_config x0 x1 x2 x3 x4 x5 x6 x7 x8 x9 x10 x11 x12 x13 v x15 x16 x17 x18
    x19 x20 x21 x22 x23 x24 x25 x26 x27 x28 x29 x30 x31 x32 x33 x34 x35 x36
    x37 x38 x39 x40 x41 x42 x43 x44 x45 x46 x47 x48 x49 x50 x51 x52 x53 x54
    x55 x56 x57 x58 x59 x60 x61 x62 x63 x64 x65 x66 x67 x68 x69 x70 x71 x72.

Definition set_Generate (v : bool) (c : config) : config :=
  let 'Build_config x0 x1 x2 x3 x4 x5 x6 x7 x8 x9 x10 x11 x12 x13 x14 x15 x16
    x17 x18 x19 x20 x21 x22 x23 x24 x25 x26 x27 x28 x29 x30 x31 x32 x33 x34
    x35 _ x37 x38 x39 x40 x41 x42 x43 x44 x45 x46 x47 x48 x49 x50 x51 x52 x53
    x54 x55 x56 x57 x58 x59 x60 x61 x62 x63 x64 x65 x66 x67 x68 x69 x70 x71
    x72
    := c in
  Build_config x0 x1 x2 x3 x4 x5 x6 x7 x8 x9 x10 x11 x12 x13 x14 x15 x16 x17
    x18 x19 x20 x21 x22 x23 x24 x25 x26 x27 x28 x29 x30 x31 x32 x33 x34 x35 v
    x37 x38 x39 x40 x41 x42 x43 x44 x45 x46 x47 x48 x49 x50 x51 x52 x53 x54
    x55 x56 x57 x58 x59 x60 x61 x62 x63 x64 x65 x66 x67 x68 x69 x70 x71 x72.

Definition set_MiningAddrs (v : list string) (c : config) : config :=
  let 'Build_config x0 x1 x2 x3 x4 x5 x6 x7 x8 x9 x10 x11 x12 x13 x14 x15 x16
    x17 x18 x19 x20 x21 x22 x23 x24 x25 x26 x27 x28 x29 x30 x31 x32 x33 x34
    x35 x36 _ x38 x39 x40 x41 x42 x43 x44 x45 x46 x47 x48 x49 x50 x51 x52 x53
    x54 x55 x56 x57 x58 x59 x60 x61 x62 x63 x64 x65 x66 x67 x68 x69 x70 x71
    x72
    := c in
  Build_config x0 x1 x2 x3 x4 x5 x6 x7 x8 x9 x10 x11 x12 x13 x14 x15 x16 x17
    x18 x19 x20 x21 x22 x23 x24 x25 x26 x27 x28 x29 x30 x31 x32 x33 x34 x35
    x36 v x38 x39 x40 x41 x42 x43 x44 x45 x46 x47 x48 x49 x50 x51 x52 x53 x54
    x55 x56 x57 x58 x59 x60 x61 x62 x63 x64 x65 x66 x67 x68 x69 x70 x71 x72.


(** [type serviceOptions struct]. *)
Record serviceOptions : Type := MkServiceOptions { ServiceCommand : string }.

(** [flags.ErrorType] of go-flags. *)
Inductive ErrorType : Type :=
| ErrUnknown | ErrExpectedArgument | ErrUnknownFlag | ErrUnknownGroup
| ErrMarshal | ErrHelp | ErrNoArgumentForBool | ErrRequired
| ErrShortNameTooLong | ErrDuplicatedFlag | ErrTag | ErrCommandRequired
| ErrUnknownCommand | ErrInvalidChoice | ErrInvalidTag.

Definition isErrHelp (t : ErrorType) : bool :=
  match t with ErrHelp => true | _ => false end.

(** The error of [Parser.Parse]: a [*flags.Error] or some other error. *)
Inductive parseError : Type :=
| FlagsError (t : ErrorType)
| OtherParseError.

(** The error of [IniParser.ParseFile]: a [*os.PathError] or another one. *)
Inductive iniError : Type := IniPathError | IniOtherError.

(** The error of [os.Stat]: [os.IsNotExist] holds of it or not. *)
Inductive statError : Type := StatNotExist | StatOther.

(** The error of [os.MkdirAll], as far as [loadConfig] inspects it: is it
    a [*os.PathError], does [os.IsExist] hold of it, and its [Path]. *)
Record mkdirError : Type := MkMkdirError {
  isPathError : bool;
  isExist : bool;
  errPath : string
}.

(** The error values this program returns. *)
Inductive error : Type :=
| ErrIniParse
| ErrCreateHomeDir (symlink : option (string * string))
| ErrInvalidDbType (dbType : string)
| ErrBanDuration (parsed : Duration)
| ErrLookupHost
| ErrMinRelayTxFee
| ErrBlockMaxSize (lo hi parsed : Z)
| ErrMaxOrphanTx (parsed : Z)
| ErrMiningAddrDecode (addr : string)
| ErrMiningAddrWrongNet (addr : string)
| ErrGenerateNoMiningAddr
| ErrRPCListenInvalid (addr : string) (why : AddrError)
| ErrNoTLSNonLocal (addr : string)
| ErrParseListeners
| ErrCreateDefaultConfigFile
| ErrServiceCommand
| ErrLoadBlockDB
| ErrDropIndex (index : string)
| ErrNewServer
| ErrSetLimits.

(** [type params struct] with the fields of the embedded
    [*chaincfg.Params] that are read here. *)
Record params : Type := MkParams {
  Name : string;
  DefaultPort : string;
  AcceptNonStdTxs : bool;
  MaximumBlockSizes : list Z;
  rpcPort : string
}.

(** The three points at which [dcrdMain] polls the shutdown context. *)
Inductive checkpoint : Type :=
| BeforeLoadBlockDB | AfterLoadBlockDB | AfterServerStart.

(** Everything outside the program text: one field per call that leaves
    it, giving what the call returns, and the package-level values that
    are set elsewhere. *)
Record World : Type := MkWorld {
  (* package-level values *)
  activeNetParams : params;
  defaultHomeDir : string;             (* dcrutil.AppDataDir("dcrd", false) *)
  knownDbTypes : list string;          (* database.SupportedDrivers() *)
  runServiceCommand : option (string → option error);
  DefaultMinRelayTxFeeCoin : float64;  (* mempool.DefaultMinRelayTxFee.ToCoin() *)
  DefaultBlockPrioritySize : Z;        (* mempool.DefaultBlockPrioritySize *)
  remainingArgs : list string;
  logRotatorSet : bool;                (* logRotator != nil *)
  (* go-flags *)
  preParse : config → config * option parseError;
  iniParseFile : string → config → config * option iniError;
  (* os, path/filepath, os/user, runtime *)
  os_Stat : string → option statError;
  os_MkdirAll : string → option mkdirError;
  os_Readlink : string → option string;
  os_ExpandEnv : string → string;
  os_PathSeparator : ascii;
  goosWindows : bool;
  filepath_Clean : string → string;
  filepath_Join : list string → string;
  user_Current : option string;
  user_Lookup : string → option string;
  createDefaultConfigFileResult : string → option error;
  (* net, dcrutil *)
  net_LookupHost : string → option (list string);
  dcrutil_NewAmount : float64 → option Amount;
  dcrutil_DecodeAddress : string → option Address;
  IsForNet : Address → bool;
  parseListeners : list string → option (list string * list string);
  (* dcrd.go *)
  ctxCanceledAt : checkpoint → bool;
  ctxEventuallyCanceled : bool;
  loadBlockDB : option error;
  indexers_Drop : string → option error;
  newServer : list string → string → option error;
  limits_SetLimits : option error
}.

Definition defaultConfigFile (w : World) : string :=
  filepath_Join w [defaultHomeDir w; defaultConfigFilename].
Definition defaultDataDir (w : World) : string :=
  filepath_Join w [defaultHomeDir w; defaultDataDirname].
Definition defaultRPCKeyFile (w : World) : string :=
  filepath_Join w [defaultHomeDir w; "rpc.key"].
Definition defaultRPCCertFile (w : World) : string :=
  filepath_Join w [defaultHomeDir w; "rpc.cert"].
Definition defaultLogDir (w : World) : string :=
  filepath_Join w [defaultHomeDir w; defaultLogDirname].

(** [func cleanAndExpandPath(path string) string]. *)
Definition cleanAndExpandPath (w : World) (path : string) : string :=
  if String.eqb path "" then path
  else
    let path := os_ExpandEnv w path in
    if negb (HasPrefix path "~") then filepath_Clean w path
    else
      let path := sliceFrom path 1 in
      let pathSeparators :=
        if goosWindows w
        then String (os_PathSeparator w) "" +:+ "/"
        else String (os_PathSeparator w) "" in
      let i := IndexAny path pathSeparators in
      let '(userName, path) :=
        if negb (i =? -1) then (slice path 0 i, sliceFrom path i)
        else ("", path) in
      let u := if String.eqb userName "" then user_Current w
               else user_Lookup w userName in
      let homeDir := match u with Some h => h | None => "" end in
      let homeDir := if String.eqb homeDir "" then "." else homeDir in
      filepath_Join w [homeDir; path].

(** The bytes [cleanAndExpandPath] takes for path separators, and the home
    directory it uses for the answer of a user lookup. *)
Definition pathSeparators (w : World) : string :=
  if goosWindows w
  then String (os_PathSeparator w) "" +:+ "/"
  else String (os_PathSeparator w) "".

Definition homeDirOf (u : option string) : string :=
  match u with
  | Some homeDir => if String.eqb homeDir "" then "." else homeDir
  | None => "."
  end.

(** [func validDbType(dbType string) bool], over [knownDbTypes]. *)
Fixpoint validDbTypeIn (known : list string) (dbType : string) : bool :=
  match known with
  | [] => false
  | knownType :: rest =>
      if String.eqb dbType knownType then true else validDbTypeIn rest dbType
  end.

Definition validDbType (w : World) (dbType : string) : bool :=
  validDbTypeIn (knownDbTypes w) dbType.

(** One iteration of the loop of [removeDuplicateAddresses]; the state is
    [(result, seen)]. *)
Definition dedupStep (st : list string * gset string) (val : string)
  : list string * gset string :=
  let '(result, seen) := st in
  if decide (val ∈ seen) then (result, seen)
  else (result ++ [val], {[val]} ∪ seen).

(** [func removeDuplicateAddresses(addrs []string) []string]. *)
Definition removeDuplicateAddresses (addrs : list string) : list string :=
  fst (foldl dedupStep ([], ∅) addrs).

(** What the loop of [removeDuplicateAddresses] keeps true: after the
    prefix [pre] of the input, [seen] holds the elements of [result], which
    has no repetition, holds the elements of [pre], and lists them by first
    occurrence in [pre]. *)
Definition dedupInv (pre : list string) (st : list string * gset string) : Prop :=
  let '(result, seen) := st in
  (∀ x, x ∈ seen ↔ x ∈ result)
  ∧ NoDup result
  ∧ (∀ x, x ∈ result ↔ x ∈ pre)
  ∧ (∀ (i j : nat) x y,
       result !! i = Some x → result !! j = Some y → (i < j)%nat →
       ∃ p : nat, pre !! p = Some x ∧ y ∉ take p pre).

(** [func normalizeAddress(addr, defaultPort string) string]. *)
Definition normalizeAddress (addr defaultPort : string) : string :=
  match SplitHostPort addr with
  | inr _ => JoinHostPort addr defaultPort
  | inl _ => addr
  end.

(** The loop of [normalizeAddresses] stores into the slice it ranges
    over: [addrs[i] = normalizeAddress(addr, defaultPort)]. *)
Definition normalizeInPlace (defaultPort : string) (addrs : list string)
  : list string :=
  foldl (λ (acc : list string) (i : nat),
           match acc !! i with
           | Some addr => <[i := normalizeAddress addr defaultPort]> acc
           | None => acc
           end)
        addrs (seq 0 (length addrs)).

(** [func normalizeAddresses(addrs []string, defaultPort string) []string]. *)
Definition normalizeAddresses (addrs : list string) (defaultPort : string)
  : list string :=
  removeDuplicateAddresses (normalizeInPlace defaultPort addrs).

(** [func fileExists(name string) bool]. *)
Definition fileExists (w : World) (name : string) : bool :=
  match os_Stat w name with
  | Some StatNotExist => false
  | Some StatOther => true
  | None => true
  end.

(** [func createDefaultConfigFile(destPath string) error]: directory
    creation, random bytes and a file write; here, the error it returns. *)
Definition createDefaultConfigFile (w : World) (destPath : string)
  : option error :=
  createDefaultConfigFileResult w destPath.

(** [func (cfg *config) generateNetworkInfo() []dcrjson.NetworksResult]. *)
Definition generateNetworkInfo (cfg : config) : list NetworksResult :=
  [ipv4NetInfo cfg; ipv6NetInfo cfg; onionNetInfo cfg].

(** [func parseNetworkInterfaces(cfg *config) error]: the configuration
    after the call and the error. *)
Definition parseNetworkInterfaces (w : World) (cfg : config)
  : config * option error :=
  match parseListeners w (Listeners cfg) with
  | None => (cfg, Some ErrParseListeners)
  | Some (v4Addrs, v6Addrs) =>
      let cfg :=
        if (0 <? Z.of_nat (length v4Addrs))
        then set_ipv4NetInfo
               {| nrName := nrName (ipv4NetInfo cfg);
                  nrLimited := Z.of_nat (length v6Addrs) =? 0;
                  nrReachable := negb (DisableListen cfg);
                  nrProxy := Proxy cfg |} cfg
        else cfg in
      let cfg :=
        if (0 <? Z.of_nat (length v6Addrs))
        then set_ipv6NetInfo
               {| nrName := nrName (ipv6NetInfo cfg);
                  nrLimited := Z.of_nat (length v4Addrs) =? 0;
                  nrReachable := negb (DisableListen cfg);
                  nrProxy := Proxy cfg |} cfg
        else cfg in
      (cfg, None)
  end.

(** The default config, the first statement of [loadConfig]. *)
Definition defaultConfig (w : World) : config :=
  {| HomeDir := defaultHomeDir w;
     ShowVersion := false;
     ConfigFile := defaultConfigFile w;
     DataDir := defaultDataDir w;
     LogDir := defaultLogDir w;
     NoFileLogging := false;
     DisableListen := false;
     Listeners := [];
     MaxSameIP := defaultMaxSameIP;
     MaxPeers := defaultMaxPeers;
     DisableBanning := false;
     BanDuration := defaultBanDuration;
     BanThreshold := defaultBanThreshold;
     RPCUser := "";
     RPCPass := "";
     RPCListeners := [];
     RPCCert := defaultRPCCertFile w;
     RPCKey := defaultRPCKeyFile w;
     RPCMaxClients := defaultMaxRPCClients;
     RPCMaxWebsockets := defaultMaxRPCWebsockets;
     RPCMaxConcurrentReqs := defaultMaxRPCConcurrentReqs;
     DisableRPC := false;
     DisableTLS := false;
     DisableDNSSeed := false;
     ExternalIPs := [];
     TestNet := false;
     DisableCheckpoints := false;
     DbType := defaultDbType;
     DumpBlockchain := "";
     MiningTimeOffset := 0;
     DebugLevel := defaultLogLevel;
     Upnp := false;
     MinRelayTxFee := DefaultMinRelayTxFeeCoin w;
     FreeTxRelayLimit := defaultFreeTxRelayLimit;
     NoRelayPriority := false;
     MaxOrphanTxs := defaultMaxOrphanTransactions;
     Generate := defaultGenerate;
     MiningAddrs := [];
     BlockMinSize := defaultBlockMinSize;
     BlockMaxSize := defaultBlockMaxSize;
     BlockPrioritySize := DefaultBlockPrioritySize w;
     SigCacheMaxSize := defaultSigCacheMaxSize;
     NonAggressive := false;
     NoMiningStateSync := defaultNoMiningStateSync;
     AllowOldVotes := defaultAllowOldVotes;
     BlocksOnly := false;
     AcceptNonStd := false;
     RejectNonStd := false;
     TxIndex := defaultTxIndex;
     DropTxIndex := false;
     AddrIndex := defaultAddrIndex;
     DropAddrIndex := false;
     NoExistsAddrIndex := defaultNoExistsAddrIndex;
     DropExistsAddrIndex := false;
     NoCFilters := defaultNoCFilters;
     DropCFIndex := false;
     PipeRx := 0;
     PipeTx := 0;
     LifetimeEvents := false;
     AltDNSNames := defaultAltDNSNames;
     onionlookup := lookupNil;
     cfg_lookup := lookupNil;
     oniondial := dialNil;
     dial := dialNil;
     miningAddrs := [];
     minRelayTxFee := 0;
     whitelists := [];
     ipv4NetInfo := {| nrName := "IPV4"; nrLimited := false;
                       nrReachable := false; nrProxy := "" |};
     ipv6NetInfo := {| nrName := "IPV6"; nrLimited := false;
                       nrReachable := false; nrProxy := "" |};
     AddPeers := [];
     ConnectPeers := [];
     Proxy := "";
     onionNetInfo := {| nrName := ""; nrLimited := false;
                        nrReachable := false; nrProxy := "" |} |}.

(** What [loadConfig] returns: a [*config], a [[]string] and an [error]. *)
Definition loadResult : Type := option config * list string * option error.

(** [return nil, nil, err]. *)
Definition failWith (err : error) : proc loadResult := mret (None, [], Some err).

(** [loadConfig], "Load additional config from file": the file is parsed
    into [cfg] only when another file than the default one was named. *)
Definition parseConfigFile (w : World) (preCfg cfg : config)
  : config * option iniError :=
  if negb (String.eqb (ConfigFile preCfg) (defaultConfigFile w))
  then iniParseFile w (ConfigFile preCfg) cfg
  else (cfg, None).

(** The loop of [loadConfig] that fills [cfg.RPCListeners] from the
    addresses of localhost. *)
Definition localhostRPCListeners (w : World) (addrs : list string)
  : list string :=
  foldl (λ (acc : list string) (addr : string),
           acc ++ [JoinHostPort addr (rpcPort (activeNetParams w))])
        [] addrs.

(** The loop of [loadConfig] over [cfg.MiningAddrs]: the decoded
    addresses, or the error of the first address that fails. *)
Fixpoint decodeMiningAddrs (w : World) (strs : list string)
  (acc : list Address) : list Address + error :=
  match strs with
  | [] => inl acc
  | strAddr :: rest =>
      match dcrutil_DecodeAddress w strAddr with
      | None => inr (ErrMiningAddrDecode strAddr)
      | Some addr =>
          if negb (IsForNet w addr) then inr (ErrMiningAddrWrongNet strAddr)
          else decodeMiningAddrs w rest (acc ++ [addr])
      end
  end.

Definition allowedTLSListeners : gset string :=
  {[ "localhost"; "127.0.0.1"; "::1" ]}.

(** The loop of [loadConfig] over [cfg.RPCListeners] when TLS is disabled:
    the error of the first listener that is not a localhost one. *)
Fixpoint checkTLSListeners (addrs : list string) : option error :=
  match addrs with
  | [] => None
  | addr :: rest =>
      match SplitHostPort addr with
      | inr why => Some (ErrRPCListenInvalid addr why)
      | inl (host, _) =>
          if decide (host ∈ allowedTLSListeners) then checkTLSListeners rest
          else Some (ErrNoTLSNonLocal addr)
      end
  end.

(** [func loadConfig()], returning a [*config], a [[]string] and an [error]. *)
Definition loadConfig (w : World) : proc loadResult :=
  let net := activeNetParams w in
  (* Default config. *)
  let cfg := defaultConfig w in
  let serviceOpts := {| ServiceCommand := "" |} in
  (* Pre-parse the command line; the parser is built over preCfg alone. *)
  let preCfg := cfg in
  let '(preCfg, err) := preParse w preCfg in
  _ ← match err with
      | Some (FlagsError t) =>
          if negb (isErrHelp t)
          then emit (EvPrint Stderr "%v\n");; os_Exit 1
          else emit (EvPrint Stdout "%v\n");; os_Exit 0
      | Some OtherParseError => mret tt
      | None => mret tt
      end;
  (* appName is computed here and not used. *)
  (* Perform service command and exit if specified. *)
  _ ← match runServiceCommand w with
      | Some run =>
          if negb (String.eqb (ServiceCommand serviceOpts) "")
          then
            emit (EvRunServiceCommand (ServiceCommand serviceOpts));;
            match run (ServiceCommand serviceOpts) with
            | Some _ => emit (EvPrint Stderr "%v\n")
            | None => mret tt
            end;;
            os_Exit 0
          else mret tt
      | None => mret tt
      end;
  (* Create a default config file when one does not exist. *)
  _ ← when (String.eqb (ConfigFile preCfg) (defaultConfigFile w)
            && negb (fileExists w (ConfigFile preCfg)))
        match createDefaultConfigFile w (ConfigFile preCfg) with
        | Some _ =>
            emit (EvPrint Stderr "Error creating a default config file: %v\n")
        | None => mret tt
        end;
  (* Load additional config from file. *)
  let '(cfg, ferr) := parseConfigFile w preCfg cfg in
  match ferr with
  | Some IniOtherError =>
      emit (EvPrint Stderr "Error parsing config file: %v\n");;
      failWith ErrIniParse
  | _ =>
  _ ← match ferr with
      | Some _ => emit (EvLog "DCRD" LvlWarn "%v")
      | None => mret tt
      end;
  (* Create the home directory if it doesn't already exist. *)
  match os_MkdirAll w (HomeDir cfg) with
  | Some e =>
      failWith
        (ErrCreateHomeDir
           (if isPathError e && isExist e
            then match os_Readlink w (errPath e) with
                 | Some link => Some (errPath e, link)
                 | None => None
                 end
            else None))
  | None =>
  let cfg := set_AcceptNonStd (AcceptNonStdTxs net) cfg in
  let cfg := set_DataDir (cleanAndExpandPath w (DataDir cfg)) cfg in
  let cfg := set_DataDir (filepath_Join w [DataDir cfg; Name net]) cfg in
  (* Validate database type. *)
  if negb (validDbType w (DbType cfg))
  then failWith (ErrInvalidDbType (DbType cfg))
  (* Don't allow ban durations that are too short. *)
  else if BanDuration cfg <? time_Second
  then failWith (ErrBanDuration (BanDuration cfg))
  else
  (* Add the default listener if none were specified. *)
  let cfg :=
    if Z.of_nat (length (Listeners cfg)) =? 0
    then set_Listeners [JoinHostPort "" (DefaultPort net)] cfg
    else cfg in
  (* The RPC server is disabled if no username or password is provided. *)
  let cfg :=
    if String.eqb (RPCUser cfg) "" || String.eqb (RPCPass cfg) ""
    then set_DisableRPC true cfg
    else cfg in
  (* Default RPC to listen on localhost only. *)
  match
    (if negb (DisableRPC cfg) && (Z.of_nat (length (RPCListeners cfg)) =? 0)
     then match net_LookupHost w "localhost" with
          | None => inr ErrLookupHost
          | Some addrs => inl (set_RPCListeners (localhostRPCListeners w addrs) cfg)
          end
     else inl cfg)
  with
  | inr e => failWith e
  | inl cfg =>
  (* Validate the minrelaytxfee. *)
  match dcrutil_NewAmount w (MinRelayTxFee cfg) with
  | None => failWith ErrMinRelayTxFee
  | Some amount =>
  let cfg := set_minRelayTxFee amount cfg in
  (* Ensure the specified max block size is not larger than the network
     will allow. *)
  match MaximumBlockSizes net with
  | [] => panic
  | size0 :: _ =>
  let blockMaxSizeMax := uint32_wrap (uint32_wrap size0 - 1000) in
  if (BlockMaxSize cfg <? blockMaxSizeMin)
     || (blockMaxSizeMax <? BlockMaxSize cfg)
  then failWith (ErrBlockMaxSize blockMaxSizeMin blockMaxSizeMax (BlockMaxSize cfg))
  (* Limit the max orphan count to a sane value. *)
  else if MaxOrphanTxs cfg <? 0
  then failWith (ErrMaxOrphanTx (MaxOrphanTxs cfg))
  else
  (* Limit the block priority and minimum block sizes to max block size. *)
  let cfg :=
    set_BlockPrioritySize
      (minUint32 (BlockPrioritySize cfg) (BlockMaxSize cfg)) cfg in
  let cfg :=
    set_BlockMinSize (minUint32 (BlockMinSize cfg) (BlockMaxSize cfg)) cfg in
  (* Check mining addresses are valid and saved parsed versions. *)
  match decodeMiningAddrs w (MiningAddrs cfg) [] with
  | inr e => failWith e
  | inl addrs =>
  let cfg := set_miningAddrs addrs cfg in
  (* Ensure there is at least one mining address when the generate flag
     is set. *)
  if Generate cfg && (Z.of_nat (length (MiningAddrs cfg)) =? 0)
  then failWith ErrGenerateNoMiningAddr
  else
  (* Add default port to all listener addresses if needed and remove
     duplicate addresses. *)
  let cfg :=
    set_Listeners (normalizeAddresses (Listeners cfg) (DefaultPort net)) cfg in
  let cfg :=
    set_RPCListeners (normalizeAddresses (RPCListeners cfg) (rpcPort net)) cfg in
  (* Only allow TLS to be disabled if the RPC is bound to localhost. *)
  match
    (if negb (DisableRPC cfg) && DisableTLS cfg
     then checkTLSListeners (RPCListeners cfg)
     else None)
  with
  | Some e => failWith e
  | None =>
  (* Add default port to all added peer addresses if needed and remove
     duplicate addresses. *)
  let cfg :=
    set_AddPeers (normalizeAddresses (AddPeers cfg) (DefaultPort net)) cfg in
  let cfg :=
    set_ConnectPeers
      (normalizeAddresses (ConnectPeers cfg) (DefaultPort net)) cfg in
  let cfg := set_dial net_Dial cfg in
  let cfg := set_cfg_lookup net_LookupIP cfg in
  (* Parse information regarding the state of the supported network
     interfaces. *)
  let '(cfg, nerr) := parseNetworkInterfaces w cfg in
  match nerr with
  | Some e => failWith e
  | None => mret (Some cfg, remainingArgs w, None)
  end end end end end end end end.

(** The configuration [loadConfig] validates: [cfg] as it stands after the
    command line was pre-parsed and the configuration file was read. *)
Definition loadedConfig (w : World) : config :=
  fst (parseConfigFile w (fst (preParse w (defaultConfig w))) (defaultConfig w)).

(** The actions [loadConfig] performs: prints, log lines and the service
    command. *)
Definition configEvent (e : event) : Prop :=
  match e with
  | EvPrint _ _ | EvLog _ _ _ | EvRunServiceCommand _ => True
  | _ => False
  end.

Definition configOnly {A : Type} (m : proc A) : Prop :=
  Forall configEvent (trace m).

(** The error of the command-line pre-parse. *)
Definition preParseError (w : World) : option parseError :=
  snd (preParse w (defaultConfig w)).

(** [loadConfig] leaves through [os.Exit] on this pre-parse result. *)
Definition preParseExits (w : World) : Prop :=
  ∃ t : ErrorType, preParseError w = Some (FlagsError t).

(** The four limits of the peer-to-peer layer. *)
Definition peerLimits (cfg : config) : Z * Z * Duration * Z :=
  (MaxPeers cfg, MaxSameIP cfg, BanDuration cfg, BanThreshold cfg).

(** The configuration file overrides none of the four limits. *)
Definition keepsPeerLimits (w : World) : Prop :=
  ∀ path cfg, peerLimits (fst (iniParseFile w path cfg)) = peerLimits cfg.

(** What each way of ending a run of [loadConfig] tells about the run. *)
Definition loadConfigPost (w : World) (o : outcome loadResult) : Prop :=
  match o with
  | Exited code =>
      ∃ t : ErrorType,
        preParseError w = Some (FlagsError t)
        ∧ code = (if isErrHelp t then 0 else 1)
  | Returned (Some cfg, args, None) =>
      ¬ preParseExits w
      ∧ args = remainingArgs w
      ∧ time_Second <= BanDuration (loadedConfig w)
      ∧ peerLimits cfg = peerLimits (loadedConfig w)
      ∧ (∃ l, Listeners cfg = normalizeAddresses l (DefaultPort (activeNetParams w)))
      ∧ (∃ l, RPCListeners cfg = normalizeAddresses l (rpcPort (activeNetParams w)))
      ∧ (∃ l, AddPeers cfg = normalizeAddresses l (DefaultPort (activeNetParams w)))
      ∧ (∃ l, ConnectPeers cfg = normalizeAddresses l (DefaultPort (activeNetParams w)))
  | Returned (None, [], Some _) => ¬ preParseExits w
  | Returned _ => False
  | Panicked =>
      ¬ preParseExits w
      ∧ time_Second <= BanDuration (loadedConfig w)
      ∧ MaximumBlockSizes (activeNetParams w) = []
  | Blocked => False
  end.

(** [func dcrdDial(network, addr string) (net.Conn, error)], over the
    package variable [cfg] (nil until [dcrdMain] sets it); [netDial] is
    what [net.Dial] answers.  Calling a nil function value panics. *)
Definition dcrdDial {Conn : Type} (netDial : string → string → Conn)
  (cfg : option config) (network addr : string) : outcome Conn :=
  match cfg with
  | None => Panicked
  | Some cfg =>
      match (if Contains addr ".onion:" then oniondial cfg else dial cfg) with
      | dialNil => Panicked
      | net_Dial => Returned (netDial network addr)
      end
  end.

(** [func dcrdLookup(host string) ([]net.IP, error)]. *)
Definition dcrdLookup {IPs : Type} (netLookupIP : string → IPs)
  (cfg : option config) (host : string) : outcome IPs :=
  match cfg with
  | None => Panicked
  | Some cfg =>
      match (if HasSuffix host ".onion" then onionlookup cfg
             else cfg_lookup cfg) with
      | lookupNil => Panicked
      | net_LookupIP => Returned (netLookupIP host)
      end
  end.

(** An RPC listener bound to this machine. *)
Definition localTLSHost (addr : string) : Prop :=
  ∃ host port, SplitHostPort addr = inl (host, port)
               ∧ host ∈ allowedTLSListeners.

(** What [loadConfig] has checked or set in a configuration it returns. *)
Definition checkedConfig (w : World) (cfg : config) : Prop :=
  let net := activeNetParams w in
  (Listeners cfg ≠ [])
  ∧ (DbType cfg ∈ knownDbTypes w)
  ∧ (∃ size0 rest,
       MaximumBlockSizes net = size0 :: rest
       ∧ blockMaxSizeMin <= BlockMaxSize cfg
                         <= uint32_wrap (uint32_wrap size0 - 1000))
  ∧ BlockPrioritySize cfg <= BlockMaxSize cfg
  ∧ BlockMinSize cfg <= BlockMaxSize cfg
  ∧ 0 <= MaxOrphanTxs cfg
  ∧ (RPCUser cfg = "" ∨ RPCPass cfg = "" → DisableRPC cfg = true)
  ∧ (DisableRPC cfg = false → DisableTLS cfg = true →
     Forall localTLSHost (RPCListeners cfg))
  ∧ Forall2 (λ s a, dcrutil_DecodeAddress w s = Some a ∧ IsForNet w a = true)
      (MiningAddrs cfg) (miningAddrs cfg)
  ∧ (Generate cfg = true → MiningAddrs cfg ≠ [])
  ∧ dial cfg = net_Dial
  ∧ cfg_lookup cfg = net_LookupIP
  ∧ dcrutil_NewAmount w (MinRelayTxFee cfg) = Some (minRelayTxFee cfg).

(** The options [loadConfig] returns as the configuration read has them,
    and the ones it caps or derives. *)
Definition keptOptions (w : World) (cfg : config) : Prop :=
  let loaded := loadedConfig w in
  let net := activeNetParams w in
  HomeDir cfg = HomeDir loaded
  ∧ DbType cfg = DbType loaded
  ∧ RPCUser cfg = RPCUser loaded
  ∧ RPCPass cfg = RPCPass loaded
  ∧ DisableTLS cfg = DisableTLS loaded
  ∧ DisableListen cfg = DisableListen loaded
  ∧ BlockMaxSize cfg = BlockMaxSize loaded
  ∧ MaxOrphanTxs cfg = MaxOrphanTxs loaded
  ∧ MinRelayTxFee cfg = MinRelayTxFee loaded
  ∧ Generate cfg = Generate loaded
  ∧ MiningAddrs cfg = MiningAddrs loaded
  ∧ oniondial cfg = oniondial loaded
  ∧ onionlookup cfg = onionlookup loaded
  ∧ BlockPrioritySize cfg
    = minUint32 (BlockPrioritySize loaded) (BlockMaxSize loaded)
  ∧ BlockMinSize cfg = minUint32 (BlockMinSize loaded) (BlockMaxSize loaded)
  ∧ DisableRPC cfg
    = (DisableRPC loaded
       || String.eqb (RPCUser loaded) "" || String.eqb (RPCPass loaded) "")
  ∧ AcceptNonStd cfg = AcceptNonStdTxs net
  ∧ DataDir cfg
    = filepath_Join w [cleanAndExpandPath w (DataDir loaded); Name net]
  ∧ AddPeers cfg = normalizeAddresses (AddPeers loaded) (DefaultPort net)
  ∧ ConnectPeers cfg
    = normalizeAddresses (ConnectPeers loaded) (DefaultPort net)
  ∧ Listeners cfg
    = normalizeAddresses
        (if Z.of_nat (length (Listeners loaded)) =? 0
         then [JoinHostPort "" (DefaultPort net)]
         else Listeners loaded)
        (DefaultPort net).

(** The RPC listeners [loadConfig] returns: the ones read or, when the RPC
    server is enabled and none was read, the addresses of localhost with
    the RPC port of the network; normalized. *)
Definition rpcListenersSet (w : World) (cfg : config) : Prop :=
  let loaded := loadedConfig w in
  let net := activeNetParams w in
  if negb (DisableRPC cfg) && (Z.of_nat (length (RPCListeners loaded)) =? 0)
  then ∃ addrs, net_LookupHost w "localhost" = Some addrs
                ∧ RPCListeners cfg
                  = normalizeAddresses (localhostRPCListeners w addrs)
                      (rpcPort net)
  else RPCListeners cfg = normalizeAddresses (RPCListeners loaded) (rpcPort net).

(** The fields [loadConfig] assigns: the configuration it returns is the
    configuration read with these fields set, so every other option is
    returned as it was read. *)
Definition onlyAssigned (cfg loaded : config) : Prop :=
  cfg
  = set_AcceptNonStd (AcceptNonStd cfg)
      (set_DataDir (DataDir cfg)
         (set_Listeners (Listeners cfg)
            (set_DisableRPC (DisableRPC cfg)
               (set_RPCListeners (RPCListeners cfg)
                  (set_minRelayTxFee (minRelayTxFee cfg)
                     (set_BlockPrioritySize (BlockPrioritySize cfg)
                        (set_BlockMinSize (BlockMinSize cfg)
                           (set_miningAddrs (miningAddrs cfg)
                              (set_AddPeers (AddPeers cfg)
                                 (set_ConnectPeers (ConnectPeers cfg)
                                    (set_dial (dial cfg)
                                       (set_cfg_lookup (cfg_lookup cfg)
                                          (set_ipv4NetInfo (ipv4NetInfo cfg)
                                             (set_ipv6NetInfo (ipv6NetInfo cfg)
                                                loaded)))))))))))))).

(** The error of reading the configuration file. *)
Definition configFileError (w : World) : option iniError :=
  snd (parseConfigFile w (fst (preParse w (defaultConfig w))) (defaultConfig w)).

(** The RPC server is enabled in the configuration read: not disabled,
    and with a user name and a password. *)
Definition rpcEnabled (w : World) : bool :=
  let loaded := loadedConfig w in
  negb (DisableRPC loaded
        || String.eqb (RPCUser loaded) "" || String.eqb (RPCPass loaded) "").

(** The RPC listeners [loadConfig] works with after normalizing them, if
    the lookup of localhost it may need succeeds. *)
Definition effectiveRPCListeners (w : World) : option (list string) :=
  let loaded := loadedConfig w in
  let net := activeNetParams w in
  if rpcEnabled w && (Z.of_nat (length (RPCListeners loaded)) =? 0)
  then match net_LookupHost w "localhost" with
       | Some addrs =>
           Some (normalizeAddresses (localhostRPCListeners w addrs) (rpcPort net))
       | None => None
       end
  else Some (normalizeAddresses (RPCListeners loaded) (rpcPort net)).

(** The listeners [loadConfig] hands to [parseNetworkInterfaces]. *)
Definition effectiveListeners (w : World) : list string :=
  let loaded := loadedConfig w in
  let net := activeNetParams w in
  normalizeAddresses
    (if Z.of_nat (length (Listeners loaded)) =? 0
     then [JoinHostPort "" (DefaultPort net)]
     else Listeners loaded)
    (DefaultPort net).

(** The calls of [loadConfig] that must succeed for it to return a
    configuration. *)
Definition callsSucceeded (w : World) : Prop :=
  configFileError w ≠ Some IniOtherError
  ∧ os_MkdirAll w (HomeDir (loadedConfig w)) = None
  ∧ parseListeners w (effectiveListeners w) ≠ None.

(** Everything [loadConfig] checks, stated on the command line, the
    configuration read and the answers of the system. *)
Definition loadable (w : World) : Prop :=
  let loaded := loadedConfig w in
  let net := activeNetParams w in
  ¬ preParseExits w
  ∧ callsSucceeded w
  ∧ (DbType loaded ∈ knownDbTypes w)
  ∧ time_Second <= BanDuration loaded
  ∧ (∃ rpcListeners,
       effectiveRPCListeners w = Some rpcListeners
       ∧ (rpcEnabled w = true → DisableTLS loaded = true →
          Forall localTLSHost rpcListeners))
  ∧ dcrutil_NewAmount w (MinRelayTxFee loaded) ≠ None
  ∧ (∃ size0 rest,
       MaximumBlockSizes net = size0 :: rest
       ∧ blockMaxSizeMin <= BlockMaxSize loaded
                         <= uint32_wrap (uint32_wrap size0 - 1000))
  ∧ 0 <= MaxOrphanTxs loaded
  ∧ Forall (λ s, ∃ a, dcrutil_DecodeAddress w s = Some a ∧ IsForNet w a = true)
      (MiningAddrs loaded)
  ∧ (Generate loaded = true → MiningAddrs loaded ≠ []).

(** What [loadConfig] prints or logs, from the command line, the files and
    the answers of the system. *)
Definition loadConfigOutput (w : World) : list event :=
  let preCfg := fst (preParse w (defaultConfig w)) in
  match preParseError w with
  | Some (FlagsError t) =>
      [EvPrint (if isErrHelp t then Stdout else Stderr) "%v\n"]
  | _ =>
      if String.eqb (ConfigFile preCfg) (defaultConfigFile w)
      then
        if fileExists w (ConfigFile preCfg) then []
        else match createDefaultConfigFile w (ConfigFile preCfg) with
             | Some _ =>
                 [EvPrint Stderr "Error creating a default config file: %v\n"]
             | None => []
             end
      else
        match configFileError w with
        | Some IniOtherError =>
            [EvPrint Stderr "Error parsing config file: %v\n"]
        | Some IniPathError => [EvLog "DCRD" LvlWarn "%v"]
        | None => []
        end
  end.

(** What an error returned by [loadConfig] reports. *)
Definition errorJustified (w : World) (e : error) : Prop :=
  let loaded := loadedConfig w in
  let net := activeNetParams w in
  match e with
  | ErrIniParse => configFileError w = Some IniOtherError
  | ErrCreateHomeDir _ => os_MkdirAll w (HomeDir loaded) ≠ None
  | ErrInvalidDbType dbType =>
      dbType = DbType loaded ∧ dbType ∉ knownDbTypes w
  | ErrBanDuration parsed =>
      parsed = BanDuration loaded ∧ parsed < time_Second
  | ErrLookupHost =>
      net_LookupHost w "localhost" = None
      ∧ RPCUser loaded ≠ "" ∧ RPCPass loaded ≠ ""
      ∧ DisableRPC loaded = false ∧ RPCListeners loaded = []
  | ErrMinRelayTxFee => dcrutil_NewAmount w (MinRelayTxFee loaded) = None
  | ErrBlockMaxSize lo hi parsed =>
      lo = blockMaxSizeMin
      ∧ (∃ size0 rest, MaximumBlockSizes net = size0 :: rest
                       ∧ hi = uint32_wrap (uint32_wrap size0 - 1000))
      ∧ parsed = BlockMaxSize loaded
      ∧ (parsed < lo ∨ hi < parsed)
  | ErrMaxOrphanTx parsed => parsed = MaxOrphanTxs loaded ∧ parsed < 0
  | ErrMiningAddrDecode addr =>
      addr ∈ MiningAddrs loaded ∧ dcrutil_DecodeAddress w addr = None
  | ErrMiningAddrWrongNet addr =>
      addr ∈ MiningAddrs loaded
      ∧ ∃ a, dcrutil_DecodeAddress w addr = Some a ∧ IsForNet w a = false
  | ErrGenerateNoMiningAddr =>
      Generate loaded = true ∧ MiningAddrs loaded = []
  | ErrRPCListenInvalid addr why =>
      rpcEnabled w = true ∧ DisableTLS loaded = true
      ∧ (∃ rpcListeners, effectiveRPCListeners w = Some rpcListeners
                         ∧ addr ∈ rpcListeners)
      ∧ SplitHostPort addr = inr why
  | ErrNoTLSNonLocal addr =>
      rpcEnabled w = true ∧ DisableTLS loaded = true
      ∧ (∃ rpcListeners, effectiveRPCListeners w = Some rpcListeners
                         ∧ addr ∈ rpcListeners)
      ∧ ∃ host port, SplitHostPort addr = inl (host, port)
                     ∧ host ∉ allowedTLSListeners
  | ErrParseListeners => parseListeners w (effectiveListeners w) = None
  | ErrCreateDefaultConfigFile | ErrServiceCommand | ErrLoadBlockDB
  | ErrDropIndex _ | ErrNewServer | ErrSetLimits => False
  end.

(** What a run of [loadConfig] that returns tells. *)
Definition loadConfigReturns (w : World) (o : outcome loadResult) : Prop :=
  match o with
  | Returned (Some cfg, _, None) =>
      (checkedConfig w cfg ∧ keptOptions w cfg)
      ∧ (rpcListenersSet w cfg ∧ onlyAssigned cfg (loadedConfig w))
      ∧ callsSucceeded w
  | Returned (None, _, Some e) => errorJustified w e
  | _ => True
  end.

End Config.

(** ** Package main: shutdown ([signal.go]), logging ([log.go]) and
    [dcrdMain] ([dcrd.go]) *)

Module Main.
Import GoStrings GoNet Proc Config.

(** A Go channel on which nothing is ever sent, such as [ctx.Done()]: a
    receive is ready exactly when the channel is closed. *)
Inductive chanState : Type := ChanOpen | ChanClosed.

(** The [context.Context] returned by [shutdownListener]; the goroutine
    started there calls [cancel]. *)
Record Context : Type := MkContext { canceled : bool }.

(** [ctx.Done()]. *)
Definition Done (ctx : Context) : chanState :=
  if canceled ctx then ChanClosed else ChanOpen.

(** [func shutdownRequested(ctx context.Context) bool]: a [select] with one
    receive case and a [default]. *)
Definition shutdownRequested (ctx : Context) : bool :=
  match Done ctx with
  | ChanClosed => true
  | ChanOpen => false
  end.

(** The shutdown context as [dcrdMain] finds it at one of its polls. *)
Definition ctxAt (w : World) (cp : checkpoint) : Context :=
  {| canceled := ctxCanceledAt w cp |}.

(** [func fatalf(str string)]. *)
Definition fatalf (w : World) (str : string) : proc unit :=
  emit (EvLog "DCRD" LvlError "Unable to create profiler: %v");;
  emit EvStdoutSync;;
  when (logRotatorSet w) (emit EvLogRotatorClose);;
  os_Exit 1.

(** The deferred calls of [dcrdMain], in the order they run: the ones
    registered before the block database is loaded ... *)
Definition deferredBase (w : World) : proc unit :=
  emit (EvLog "DCRD" LvlInfo "Shutdown complete");;
  when (logRotatorSet w) (emit EvLogRotatorClose).

(** ... the one that closes the database, then the ones above ... *)
Definition deferredDb (w : World) : proc unit :=
  emit (EvLog "DCRD" LvlInfo "Gracefully shutting down the database...");;
  emit EvDbClose;;
  deferredBase w.

(** ... and the one that stops the server, then the ones above. *)
Definition deferredServer (w : World) : proc unit :=
  emit EvNotifyShutdownEvent;;
  emit (EvLog "DCRD" LvlInfo "Gracefully shutting down the server...");;
  emit EvServerStop;;
  emit EvServerWaitForShutdown;;
  emit (EvLog "SRVR" LvlInfo "Server shutdown complete");;
  deferredDb w.

(** One of the four "drop index and exit" branches of [dcrdMain]. *)
Definition dropIndex (w : World) (index : string) : proc (option error) :=
  emit (EvDropIndex index);;
  match indexers_Drop w index with
  | Some e =>
      emit (EvLog "DCRD" LvlError "%v");; deferredDb w;; mret (Some e)
  | None => deferredDb w;; mret None
  end.

(** [func dcrdMain() error]. *)
Definition dcrdMain (w : World) : proc (option error) :=
  '(tcfg, _, err) ← loadConfig w;
  match err with
  | Some e => mret (Some e)
  | None =>
  match tcfg with
  | None => panic
  | Some cfg =>
  emit EvShutdownListener;;
  when (NoFileLogging cfg) (emit (EvLog "DCRD" LvlInfo "File logging disabled"));;
  when (LifetimeEvents cfg) (emit EvNewLifetimeEventServer);;
  when (negb (PipeRx cfg =? 0)) (emit (EvGo "serviceControlPipeRx"));;
  (if negb (PipeTx cfg =? 0)
   then emit (EvGo "serviceControlPipeTx")
   else emit (EvGo "drainOutgoingPipeMessages"));;
  (* Return now if a shutdown signal was triggered. *)
  if shutdownRequested (ctxAt w BeforeLoadBlockDB)
  then deferredBase w;; mret None
  else
  (* Load the block database. *)
  emit EvLoadBlockDB;;
  match loadBlockDB w with
  | Some e => emit (EvLog "DCRD" LvlError "%v");; deferredBase w;; mret (Some e)
  | None =>
  (* Return now if a shutdown signal was triggered. *)
  if shutdownRequested (ctxAt w AfterLoadBlockDB)
  then deferredDb w;; mret None
  (* Drop indexes and exit if requested. *)
  else if DropAddrIndex cfg then dropIndex w "DropAddrIndex"
  else if DropTxIndex cfg then dropIndex w "DropTxIndex"
  else if DropExistsAddrIndex cfg then dropIndex w "DropExistsAddrIndex"
  else if DropCFIndex cfg then dropIndex w "DropCfIndex"
  else
  (* Create server and start it. *)
  emit EvNotifyStartupEvent;;
  emit EvNewServer;;
  match newServer w (Listeners cfg) (DataDir cfg) with
  | Some e =>
      emit (EvLog "DCRD" LvlError "Unable to start server on %v: %v");;
      deferredDb w;; mret (Some e)
  | None =>
  emit EvServerStart;;
  if shutdownRequested (ctxAt w AfterServerStart)
  then deferredServer w;; mret None
  else
  emit EvNotifyStartupComplete;;
  emit EvServiceStartOfDay;;
  (* Wait until the shutdown context is canceled. *)
  emit EvAwaitDone;;
  if ctxEventuallyCanceled w
  then deferredServer w;; mret None
  else block
  end end end end.

(** [func main()]; the calls that tune the runtime leave no trace here. *)
Definition main (w : World) : proc unit :=
  match limits_SetLimits w with
  | Some _ => emit (EvPrint Stderr "failed to set limits: %v\n");; os_Exit 1
  | None =>
      err ← dcrdMain w;
      match err with
      | Some _ => os_Exit 1
      | None => mret tt
      end
  end.

(** What the goroutine started by [shutdownListener] receives in one of its
    [select]s: a signal on [interruptChannel] or a request on
    [shutdownRequestChannel]. *)
Inductive shutdownInput : Type :=
| Signal (sig : string)
| ShutdownRequest.

(** What the goroutine does: a line logged, or the call of [cancel]. *)
Inductive listenerAction : Type :=
| ListenerLog (format : string)
| ListenerCancel.

#[global] Instance listenerAction_eq_dec : EqDecision listenerAction.
Proof. solve_decision. Defined.

(** The initial [select] of the goroutine. *)
Definition shuttingDown (input : shutdownInput) : listenerAction :=
  match input with
  | Signal _ => ListenerLog "Received signal (%s).  Shutting down..."
  | ShutdownRequest => ListenerLog "Shutdown requested.  Shutting down..."
  end.

(** The [select] in the [for] loop that follows. *)
Definition alreadyShuttingDown (input : shutdownInput) : listenerAction :=
  match input with
  | Signal _ => ListenerLog "Received signal (%s).  Already shutting down..."
  | ShutdownRequest =>
      ListenerLog "Shutdown requested.  Already shutting down..."
  end.

(** The goroutine of [shutdownListener] on the inputs it has received so
    far: the first [select], [cancel()], then the loop. *)
Definition shutdownListenerActions (inputs : list shutdownInput)
  : list listenerAction :=
  match inputs with
  | [] => []
  | first :: later =>
      shuttingDown first :: ListenerCancel :: map alreadyShuttingDown later
  end.

(** [func shutdownListener() context.Context]: the context returned, as
    it is once the goroutine has received [inputs]. *)
Definition shutdownListener (inputs : list shutdownInput) : Context :=
  {| canceled := bool_decide (ListenerCancel ∈ shutdownListenerActions inputs) |}.

(** [func setLogLevel(subsystemID string, logLevel string)], over the
    package map [subsystemLoggers] and [slog.LevelFromString]; the state
    is the level of each logger, so that a logger two subsystems share
    is one key.  [logger.SetLevel(level)] stores the level. *)
Definition setLogLevel `{Countable Logger} {Level : Type}
  (subsystemLoggers : gmap string Logger)
  (LevelFromString : string → Level * bool)
  (subsystemID logLevel : string) (levels : gmap Logger Level)
  : gmap Logger Level :=
  (* Ignore invalid subsystems. *)
  match subsystemLoggers !! subsystemID with
  | None => levels
  | Some logger =>
      let '(level, _) := LevelFromString logLevel in
      <[logger := level]> levels
  end.

(** The events of a run that acquire or release the block database or the
    server, or drop an index; used to state in which order [dcrdMain] does
    these. *)
Definition resourceEvent (e : event) : bool :=
  match e with
  | EvLoadBlockDB | EvDbClose | EvDropIndex _ | EvNewServer | EvServerStart
  | EvServerStop | EvServerWaitForShutdown => true
  | _ => false
  end.

Definition resources (t : list event) : list event :=
  List.filter resourceEvent t.

(** The index the "drop index" flags of a configuration select: the
    first one set, in the order in which [dcrdMain] tests them. *)
Definition droppedIndex (cfg : config) : option string :=
  if DropAddrIndex cfg then Some "DropAddrIndex"
  else if DropTxIndex cfg then Some "DropTxIndex"
  else if DropExistsAddrIndex cfg then Some "DropExistsAddrIndex"
  else if DropCFIndex cfg then Some "DropCfIndex"
  else None.

(** What a run did to the database and the server, and how it ended. *)
Definition resourceRun {A : Type} (m : proc A) : list event * outcome A :=
  (resources (trace m), result m).

(** [dcrdMain] gets past its two early polls of the shutdown context with
    the block database loaded. *)
Definition databaseLoaded (w : World) : Prop :=
  shutdownRequested (ctxAt w BeforeLoadBlockDB) = false
  ∧ loadBlockDB w = None
  ∧ shutdownRequested (ctxAt w AfterLoadBlockDB) = false.

(** The runs of [dcrdMain] once [loadConfig] returned [cfg]: what it did
    to the database and the server, in order, and how it ended. *)
Definition dcrdMainRun (w : World) (cfg : config)
  (run : list event * outcome (option error)) : Prop :=
  (shutdownRequested (ctxAt w BeforeLoadBlockDB) = true
   ∧ run = ([], Returned None))
  ∨ (shutdownRequested (ctxAt w BeforeLoadBlockDB) = false
     ∧ ∃ e, loadBlockDB w = Some e
            ∧ run = ([EvLoadBlockDB], Returned (Some e)))
  ∨ (shutdownRequested (ctxAt w BeforeLoadBlockDB) = false
     ∧ loadBlockDB w = None
     ∧ shutdownRequested (ctxAt w AfterLoadBlockDB) = true
     ∧ run = ([EvLoadBlockDB; EvDbClose], Returned None))
  ∨ (databaseLoaded w
     ∧ ∃ index, droppedIndex cfg = Some index
                ∧ run = ([EvLoadBlockDB; EvDropIndex index; EvDbClose],
                         Returned (indexers_Drop w index)))
  ∨ (databaseLoaded w ∧ droppedIndex cfg = None
     ∧ ∃ e, newServer w (Listeners cfg) (DataDir cfg) = Some e
            ∧ run = ([EvLoadBlockDB; EvNewServer; EvDbClose],
                     Returned (Some e)))
  ∨ (databaseLoaded w ∧ droppedIndex cfg = None
     ∧ newServer w (Listeners cfg) (DataDir cfg) = None
     ∧ (shutdownRequested (ctxAt w AfterServerStart) = true
        ∨ ctxEventuallyCanceled w = true)
     ∧ run = ([EvLoadBlockDB; EvNewServer; EvServerStart; EvServerStop;
               EvServerWaitForShutdown; EvDbClose], Returned None))
  ∨ (databaseLoaded w ∧ droppedIndex cfg = None
     ∧ newServer w (Listeners cfg) (DataDir cfg) = None
     ∧ shutdownRequested (ctxAt w AfterServerStart) = false
     ∧ ctxEventuallyCanceled w = false
     ∧ run = ([EvLoadBlockDB; EvNewServer; EvServerStart], Blocked)).

(** A run that blocks for ever, or ends with the deferred calls that
    [dcrdMain] registers first: "Shutdown complete" is logged and the log
    rotator, if any, is closed. *)
Definition endsWithShutdown {A : Type} (w : World) (m : proc A) : Prop :=
  result m = Blocked ∨ trace (deferredBase w) `suffix_of` trace m.

(** The run of [dcrdMainRun], computed from the answers of the world;
    [drop] is the index to drop, if any. *)
Definition lifecycle (w : World) (cfg : config) (drop : option string)
  : list event * outcome (option error) :=
  if shutdownRequested (ctxAt w BeforeLoadBlockDB) then ([], Returned None)
  else match loadBlockDB w with
  | Some e => ([EvLoadBlockDB], Returned (Some e))
  | None =>
  if shutdownRequested (ctxAt w AfterLoadBlockDB)
  then ([EvLoadBlockDB; EvDbClose], Returned None)
  else match drop with
  | Some index =>
      ([EvLoadBlockDB; EvDropIndex index; EvDbClose],
       Returned (indexers_Drop w index))
  | None =>
  match newServer w (Listeners cfg) (DataDir cfg) with
  | Some e => ([EvLoadBlockDB; EvNewServer; EvDbClose], Returned (Some e))
  | None =>
  if shutdownRequested (ctxAt w AfterServerStart) || ctxEventuallyCanceled w
  then ([EvLoadBlockDB; EvNewServer; EvServerStart; EvServerStop;
         EvServerWaitForShutdown; EvDbClose], Returned None)
  else ([EvLoadBlockDB; EvNewServer; EvServerStart], Blocked)
  end end end.

End Main.

(** ** The second [dcrdMain] of the sources, without service pipes,
    lifetime events and index drops ([sampleconfig/doc.go]) *)

Module SampleConfig.
Import GoStrings GoNet Proc Config Main.

(** The deferred call that stops the server, then the ones registered
    before it. *)
Definition deferredServer (w : World) : proc unit :=
  emit (EvLog "DCRD" LvlInfo "Gracefully shutting down the server...");;
  emit EvServerStop;;
  emit EvServerWaitForShutdown;;
  emit (EvLog "SRVR" LvlInfo "Server shutdown complete");;
  deferredDb w.

(** [func dcrdMain() error]; [cfg] is first dereferenced in the call of
    [newServer]. *)
Definition dcrdMain (w : World) : proc (option error) :=
  '(tcfg, _, err) ← loadConfig w;
  match err with
  | Some e => mret (Some e)
  | None =>
  emit EvShutdownListener;;
  (* Return now if a shutdown signal was triggered. *)
  if shutdownRequested (ctxAt w BeforeLoadBlockDB)
  then deferredBase w;; mret None
  else
  (* Load the block database. *)
  emit EvLoadBlockDB;;
  match loadBlockDB w with
  | Some e => emit (EvLog "DCRD" LvlError "%v");; deferredBase w;; mret (Some e)
  | None =>
  (* Return now if a shutdown signal was triggered. *)
  if shutdownRequested (ctxAt w AfterLoadBlockDB)
  then deferredDb w;; mret None
  else
  (* Create server and start it. *)
  match tcfg with
  | None => deferredDb w;; panic
  | Some cfg =>
  emit EvNewServer;;
  match newServer w (Listeners cfg) (DataDir cfg) with
  | Some e =>
      emit (EvLog "DCRD" LvlError "Unable to start server on %v: %v");;
      deferredDb w;; mret (Some e)
  | None =>
  emit EvServerStart;;
  if shutdownRequested (ctxAt w AfterServerStart)
  then deferredServer w;; mret None
  else
  emit EvServiceStartOfDay;;
  (* Wait until the shutdown context is canceled. *)
  emit EvAwaitDone;;
  if ctxEventuallyCanceled w
  then deferredServer w;; mret None
  else block
  end end end end.

(** [func main()]. *)
Definition main (w : World) : proc unit :=
  match limits_SetLimits w with
  | Some _ => emit (EvPrint Stderr "failed to set limits: %v\n");; os_Exit 1
  | None =>
      err ← dcrdMain w;
      match err with
      | Some _ => os_Exit 1
      | None => mret tt
      end
  end.

End SampleConfig.

(** ** The version step of the peer handshake *)

Module Handshake.

(** Modelled from the spec: the reasons of a disconnection that the peer
    protocol state machine reports ("protocol mismatch, handshake
    timeout, stale peer, misbehavior threshold, local shutdown, remote
    close"); the state machine is not under [src/]. *)
Inductive disconnectReason : Type :=
| ProtocolMismatch
| HandshakeTimeout
| StalePeer
| MisbehaviorThreshold
| LocalShutdown
| RemoteClose.

(** Modelled from the spec: the states of the peer protocol state machine,
    "Connecting, HandshakeSent, HandshakeAwait, Established,
    Disconnecting, Closed", which is not under [src/]; from the receipt of
    the remote's version announcement on, the state holds the negotiated
    protocol version. *)
Inductive peerState : Type :=
| Connecting
| HandshakeSent
| HandshakeAwait (negotiated : Z)
| Established (negotiated : Z)
| Disconnecting (reason : disconnectReason)
| Closed.

(** Modelled from the spec: transition 1 of the handshake, missing from
    [src/]: "on connection open the local side sends its own version
    announcement, Connecting to HandshakeSent". *)
Definition onOpen (st : peerState) : peerState :=
  match st with
  | Connecting => HandshakeSent
  | _ => st
  end.

(** Modelled from the spec: transition 2 of the handshake, missing from
    [src/]: "on receipt of the remote's version announcement, the
    negotiated protocol version is min(local, remote).  If the remote's
    announced version is below the oldest version this node still
    interoperates with, the state machine transitions directly to
    Disconnecting with a protocol-mismatch reason.  Otherwise send
    acknowledgment, to HandshakeAwait".  [floor] is that oldest
    version. *)
Definition onVersion (floor local remote : Z) (st : peerState) : peerState :=
  match st with
  | HandshakeSent =>
      if remote <? floor then Disconnecting ProtocolMismatch
      else HandshakeAwait (Z.min local remote)
  | _ => st
  end.

(** Modelled from the spec: transition 3 of the handshake, missing from
    [src/]: "on receipt of the remote's acknowledgment, to
    Established". *)
Definition onVerAck (st : peerState) : peerState :=
  match st with
  | HandshakeAwait negotiated => Established negotiated
  | _ => st
  end.

(** Modelled from the spec: a handshake that runs its three transitions
    without timeout or connection error; the handshake is not under
    [src/]. *)
Definition handshake (floor local remote : Z) : peerState :=
  onVerAck (onVersion floor local remote (onOpen Connecting)).

End Handshake.

(** ** Concrete worlds, used to run the definitions *)

Module Worlds.
Import GoStrings GoNet Proc Config Main.

(** The main network, with the values the source quotes next to their
    uses: port 9108, RPC port 9109, largest block 393216 bytes. *)
Definition mainNetParams : params :=
  {| Name := "mainnet";
     DefaultPort := "9108";
     AcceptNonStdTxs := false;
     MaximumBlockSizes := [393216];
     rpcPort := "9109" |}.

(** A start with no command-line argument and no configuration file on a
    machine where every call succeeds. *)
Definition quietWorld : World :=
  {| activeNetParams := mainNetParams;
     defaultHomeDir := "/home/dcrd/.dcrd";
     knownDbTypes := ["ffldb"];
     runServiceCommand := None;
     DefaultMinRelayTxFeeCoin := Float64 0x3F1A36E2EB1C432D;
     DefaultBlockPrioritySize := 20000;
     remainingArgs := [];
     logRotatorSet := true;
     preParse := λ c, (c, None);
     iniParseFile := λ _ c, (c, None);
     os_Stat := λ _, None;
     os_MkdirAll := λ _, None;
     os_Readlink := λ _, None;
     os_ExpandEnv := λ p, p;
     os_PathSeparator := "/"%char;
     goosWindows := false;
     filepath_Clean := λ p, p;
     filepath_Join := λ l, String.concat "/" l;
     user_Current := Some "/home/dcrd";
     user_Lookup := λ _, None;
     createDefaultConfigFileResult := λ _, None;
     net_LookupHost := λ _, Some ["127.0.0.1"; "::1"];
     dcrutil_NewAmount := λ _, Some 10000;
     dcrutil_DecodeAddress := λ s, Some (MkAddress s);
     IsForNet := λ _, true;
     parseListeners := λ l, Some (l, l);
     ctxCanceledAt := λ _, false;
     ctxEventuallyCanceled := true;
     loadBlockDB := None;
     indexers_Drop := λ _, None;
     newServer := λ _ _, None;
     limits_SetLimits := None |}.

(** [with_preParse f w]: the world [w] with another command line. *)
Definition with_preParse (f : config → config * option parseError)
  (w : World) : World :=
  {| activeNetParams := activeNetParams w;
     defaultHomeDir := defaultHomeDir w;
     knownDbTypes := knownDbTypes w;
     runServiceCommand := runServiceCommand w;
     DefaultMinRelayTxFeeCoin := DefaultMinRelayTxFeeCoin w;
     DefaultBlockPrioritySize := DefaultBlockPrioritySize w;
     remainingArgs := remainingArgs w;
     logRotatorSet := logRotatorSet w;
     preParse := f;
     iniParseFile := iniParseFile w;
     os_Stat := os_Stat w;
     os_MkdirAll := os_MkdirAll w;
     os_Readlink := os_Readlink w;
     os_ExpandEnv := os_ExpandEnv w;
     os_PathSeparator := os_PathSeparator w;
     goosWindows := goosWindows w;
     filepath_Clean := filepath_Clean w;
     filepath_Join := filepath_Join w;
     user_Current := user_Current w;
     user_Lookup := user_Lookup w;
     createDefaultConfigFileResult := createDefaultConfigFileResult w;
     net_LookupHost := net_LookupHost w;
     dcrutil_NewAmount := dcrutil_NewAmount w;
     dcrutil_DecodeAddress := dcrutil_DecodeAddress w;
     IsForNet := IsForNet w;
     parseListeners := parseListeners w;
     ctxCanceledAt := ctxCanceledAt w;
     ctxEventuallyCanceled := ctxEventuallyCanceled w;
     loadBlockDB := loadBlockDB w;
     indexers_Drop := indexers_Drop w;
     newServer := newServer w;
     limits_SetLimits := limits_SetLimits w |}.

(** [with_iniParseFile f w]: the world [w] with another configuration
    file. *)
Definition with_iniParseFile (f : string → config → config * option iniError)
  (w : World) : World :=
  {| activeNetParams := activeNetParams w;
     defaultHomeDir := defaultHomeDir w;
     knownDbTypes := knownDbTypes w;
     runServiceCommand := runServiceCommand w;
     DefaultMinRelayTxFeeCoin := DefaultMinRelayTxFeeCoin w;
     DefaultBlockPrioritySize := DefaultBlockPrioritySize w;
     remainingArgs := remainingArgs w;
     logRotatorSet := logRotatorSet w;
     preParse := preParse w;
     iniParseFile := f;
     os_Stat := os_Stat w;
     os_MkdirAll := os_MkdirAll w;
     os_Readlink := os_Readlink w;
     os_ExpandEnv := os_ExpandEnv w;
     os_PathSeparator := os_PathSeparator w;
     goosWindows := goosWindows w;
     filepath_Clean := filepath_Clean w;
     filepath_Join := filepath_Join w;
     user_Current := user_Current w;
     user_Lookup := user_Lookup w;
     createDefaultConfigFileResult := createDefaultConfigFileResult w;
     net_LookupHost := net_LookupHost w;
     dcrutil_NewAmount := dcrutil_NewAmount w;
     dcrutil_DecodeAddress := dcrutil_DecodeAddress w;
     IsForNet := IsForNet w;
     parseListeners := parseListeners w;
     ctxCanceledAt := ctxCanceledAt w;
     ctxEventuallyCanceled := ctxEventuallyCanceled w;
     loadBlockDB := loadBlockDB w;
     indexers_Drop := indexers_Drop w;
     newServer := newServer w;
     limits_SetLimits := limits_SetLimits w |}.

(** [with_ctxCanceledAt f w]: the world [w] with another shutdown signal. *)
Definition with_ctxCanceledAt (f : checkpoint → bool) (w : World) : World :=
  {| activeNetParams := activeNetParams w;
     defaultHomeDir := defaultHomeDir w;
     knownDbTypes := knownDbTypes w;
     runServiceCommand := runServiceCommand w;
     DefaultMinRelayTxFeeCoin := DefaultMinRelayTxFeeCoin w;
     DefaultBlockPrioritySize := DefaultBlockPrioritySize w;
     remainingArgs := remainingArgs w;
     logRotatorSet := logRotatorSet w;
     preParse := preParse w;
     iniParseFile := iniParseFile w;
     os_Stat := os_Stat w;
     os_MkdirAll := os_MkdirAll w;
     os_Readlink := os_Readlink w;
     os_ExpandEnv := os_ExpandEnv w;
     os_PathSeparator := os_PathSeparator w;
     goosWindows := goosWindows w;
     filepath_Clean := filepath_Clean w;
     filepath_Join := filepath_Join w;
     user_Current := user_Current w;
     user_Lookup := user_Lookup w;
     createDefaultConfigFileResult := createDefaultConfigFileResult w;
     net_LookupHost := net_LookupHost w;
     dcrutil_NewAmount := dcrutil_NewAmount w;
     dcrutil_DecodeAddress := dcrutil_DecodeAddress w;
     IsForNet := IsForNet w;
     parseListeners := parseListeners w;
     ctxCanceledAt := f;
     ctxEventuallyCanceled := ctxEventuallyCanceled w;
     loadBlockDB := loadBlockDB w;
     indexers_Drop := indexers_Drop w;
     newServer := newServer w;
     limits_SetLimits := limits_SetLimits w |}.

(** A command line with a flag the parser does not know. *)
Definition unknownFlagWorld : World :=
  with_preParse (λ c, (c, Some (FlagsError ErrUnknownFlag))) quietWorld.

(** A command line asking for the help message. *)
Definition helpWorld : World :=
  with_preParse (λ c, (c, Some (FlagsError ErrHelp))) quietWorld.

(** [-C /etc/dcrd.conf] on the command line, the file setting
    [banduration=500ms]. *)
Definition shortBanWorld : World :=
  with_preParse (λ c, (set_ConfigFile "/etc/dcrd.conf" c, None))
    (with_iniParseFile (λ _ c, (set_BanDuration 500000000 c, None))
       quietWorld).

(** [-C /etc/dcrd.conf] on the command line, the file naming the same
    listener three times, once with its port. *)
Definition repeatedListenerWorld : World :=
  with_preParse (λ c, (set_ConfigFile "/etc/dcrd.conf" c, None))
    (with_iniParseFile
       (λ _ c, (set_Listeners ["10.0.0.1"; "10.0.0.1:9108"; "10.0.0.1"] c, None))
       quietWorld).

(** A shutdown signal that arrives while the process is starting. *)
Definition earlyShutdownWorld : World :=
  with_ctxCanceledAt (λ _, true) quietWorld.

(** [with_loadBlockDB f w]: the world [w] with another block database. *)
Definition with_loadBlockDB (f : option error) (w : World) : World :=
  {| activeNetParams := activeNetParams w;
     defaultHomeDir := defaultHomeDir w;
     knownDbTypes := knownDbTypes w;
     runServiceCommand := runServiceCommand w;
     DefaultMinRelayTxFeeCoin := DefaultMinRelayTxFeeCoin w;
     DefaultBlockPrioritySize := DefaultBlockPrioritySize w;
     remainingArgs := remainingArgs w;
     logRotatorSet := logRotatorSet w;
     preParse := preParse w;
     iniParseFile := iniParseFile w;
     os_Stat := os_Stat w;
     os_MkdirAll := os_MkdirAll w;
     os_Readlink := os_Readlink w;
     os_ExpandEnv := os_ExpandEnv w;
     os_PathSeparator := os_PathSeparator w;
     goosWindows := goosWindows w;
     filepath_Clean := filepath_Clean w;
     filepath_Join := filepath_Join w;
     user_Current := user_Current w;
     user_Lookup := user_Lookup w;
     createDefaultConfigFileResult := createDefaultConfigFileResult w;
     net_LookupHost := net_LookupHost w;
     dcrutil_NewAmount := dcrutil_NewAmount w;
     dcrutil_DecodeAddress := dcrutil_DecodeAddress w;
     IsForNet := IsForNet w;
     parseListeners := parseListeners w;
     ctxCanceledAt := ctxCanceledAt w;
     ctxEventuallyCanceled := ctxEventuallyCanceled w;
     loadBlockDB := f;
     indexers_Drop := indexers_Drop w;
     newServer := newServer w;
     limits_SetLimits := limits_SetLimits w |}.

(** [with_newServer f w]: the world [w] with another way to create the
    server. *)
Definition with_newServer (f : list string → string → option error) (w : World) : World :=
  {| activeNetParams := activeNetParams w;
     defaultHomeDir := defaultHomeDir w;
     knownDbTypes := knownDbTypes w;
     runServiceCommand := runServiceCommand w;
     DefaultMinRelayTxFeeCoin := DefaultMinRelayTxFeeCoin w;
     DefaultBlockPrioritySize := DefaultBlockPrioritySize w;
     remainingArgs := remainingArgs w;
     logRotatorSet := logRotatorSet w;
     preParse := preParse w;
     iniParseFile := iniParseFile w;
     os_Stat := os_Stat w;
     os_MkdirAll := os_MkdirAll w;
     os_Readlink := os_Readlink w;
     os_ExpandEnv := os_ExpandEnv w;
     os_PathSeparator := os_PathSeparator w;
     goosWindows := goosWindows w;
     filepath_Clean := filepath_Clean w;
     filepath_Join := filepath_Join w;
     user_Current := user_Current w;
     user_Lookup := user_Lookup w;
     createDefaultConfigFileResult := createDefaultConfigFileResult w;
     net_LookupHost := net_LookupHost w;
     dcrutil_NewAmount := dcrutil_NewAmount w;
     dcrutil_DecodeAddress := dcrutil_DecodeAddress w;
     IsForNet := IsForNet w;
     parseListeners := parseListeners w;
     ctxCanceledAt := ctxCanceledAt w;
     ctxEventuallyCanceled := ctxEventuallyCanceled w;
     loadBlockDB := loadBlockDB w;
     indexers_Drop := indexers_Drop w;
     newServer := f;
     limits_SetLimits := limits_SetLimits w |}.

(** [-C /etc/dcrd.conf] on the command line, the file setting
    [droptxindex=1] and [dropaddrindex=1]. *)
Definition dropIndexWorld : World :=
  with_preParse (λ c, (set_ConfigFile "/etc/dcrd.conf" c, None))
    (with_iniParseFile
       (λ _ c, (set_DropAddrIndex true (set_DropTxIndex true c), None))
       quietWorld).

(** A block database that cannot be opened. *)
Definition brokenDbWorld : World :=
  with_loadBlockDB (Some ErrLoadBlockDB) quietWorld.

(** A server that cannot be created, the listen port being taken. *)
Definition portTakenWorld : World :=
  with_newServer (λ _ _, Some ErrNewServer) quietWorld.

(** [--banduration=500ms] on the command line and no [-C]: the pre-parse
    stores the flag in [preCfg]. *)
Definition cliShortBanWorld : World :=
  with_preParse (λ c, (set_BanDuration 500000000 c, None)) quietWorld.

(** [-C /etc/dcrd.conf] on the command line, the file setting [generate=1]
    and two mining addresses. *)
Definition miningWorld : World :=
  with_preParse (λ c, (set_ConfigFile "/etc/dcrd.conf" c, None))
    (with_iniParseFile
       (λ _ c, (set_Generate true
                  (set_MiningAddrs ["DsUZxxoHJSty8DCfwfartwTYbuhmVct7tJu";
                                    "DsmcYVbP1Nmag2H4AS17UTvmWXmGeA7nLDx"] c),
                None))
       quietWorld).

(** [-C /etc/dcrd.conf] on the command line, the file setting [rpcuser]
    and [rpcpass] and no RPC listener; localhost resolves to 127.0.0.1 and
    ::1. *)
Definition rpcWorld : World :=
  with_preParse (λ c, (set_ConfigFile "/etc/dcrd.conf" c, None))
    (with_iniParseFile
       (λ _ c, (set_RPCPass "secret" (set_RPCUser "dcrd" c), None))
       quietWorld).

(** The default configuration with the listener that [loadConfig] adds. *)
Definition listeningConfig : config :=
  set_Listeners [":9108"] (defaultConfig quietWorld).

End Worlds.

Import GoStrings GoNet Wire Proc Config Main Handshake Worlds.

(** * Properties *)

(** ** Package wire *)

Section ServiceFlagString.

Lemma orderedSFStrings_low : Forall lowFlag orderedSFStrings.
Proof.
  unfold orderedSFStrings.
  repeat (apply Forall_cons; split); [left | right; left | right; right | apply Forall_nil];
    reflexivity.
Qed.

Lemma small_cases (r : Z) :
  0 <= r < 8 →
  r = 0 ∨ r = 1 ∨ r = 2 ∨ r = 3 ∨ r = 4 ∨ r = 5 ∨ r = 6 ∨ r = 7.
Proof. lia. Qed.

(** Masking with a flag only looks at the low three bits. *)
Lemma land_low3 (q r flag : Z) :
  0 <= r < 8 → 0 <= flag < 8 → Z.land (8 * q + r) flag = Z.land r flag.
Proof.
  intros Hr Hflag.
  assert (Hmask : Z.land flag 7 = flag).
  { change 7 with (Z.ones 3). rewrite Z.land_ones by lia.
    apply Z.mod_small. change (2 ^ 3) with 8. lia. }
  rewrite <- Hmask at 1.
  rewrite (Z.land_comm flag 7), Z.land_assoc.
  change 7 with (Z.ones 3). rewrite Z.land_ones by lia.
  change (2 ^ 3) with 8.
  replace ((8 * q + r) mod 8) with r; [reflexivity|].
  rewrite Z.add_comm, Z.mul_comm, Z.mod_add by lia.
  symmetry. apply Z.mod_small. lia.
Qed.

Lemma testbit_low3 (q r k : Z) :
  0 <= r < 8 → 0 <= k < 3 → Z.testbit (8 * q + r) k = Z.testbit r k.
Proof.
  intros Hr Hk.
  rewrite <- (Z.mod_pow2_bits_low (8 * q + r) 3 k) by lia.
  change (2 ^ 3) with 8.
  rewrite Z.add_comm, Z.mul_comm, Z.mod_add by lia.
  rewrite Z.mod_small by lia. reflexivity.
Qed.

(** One iteration on [8 * q + r] acts on [r] and leaves [q] alone. *)
Lemma sfStep_low (q r flag : Z) (s : string) :
  0 <= q → 8 * q + r < uint64_modulus → 0 <= r < 8 → lowFlag flag →
  sfStep (s, 8 * q + r) flag
  = (fst (sfStep (s, r) flag), 8 * q + snd (sfStep (s, r) flag))
  ∧ 0 <= snd (sfStep (s, r) flag) <= r.
Proof.
  intros Hq Hmax Hr Hflag. unfold sfStep.
  rewrite land_low3 by (unfold lowFlag in Hflag; lia).
  unfold uint64_modulus in *.
  destruct (Z.land r flag =? flag) eqn:Hset; cbn [fst snd];
    [|split; [reflexivity | lia]].
  assert (Hle : flag <= r).
  { destruct (small_cases r Hr) as [->|[->|[->|[->|[->|[->|[->| ->]]]]]]];
      destruct Hflag as [->|[->| ->]]; vm_compute in Hset;
      try discriminate; lia. }
  assert (0 < flag) by (unfold lowFlag in Hflag; lia).
  rewrite !Z.mod_small by lia.
  split; [f_equal; lia | lia].
Qed.

Lemma sfLoop_low (flags : list Z) (q r : Z) (s : string) :
  0 <= q → 8 * q + r < uint64_modulus → 0 <= r < 8 → Forall lowFlag flags →
  foldl sfStep (s, 8 * q + r) flags
  = (fst (foldl sfStep (s, r) flags), 8 * q + snd (foldl sfStep (s, r) flags)).
Proof.
  intros Hq Hmax Hr Hflags. revert s r Hmax Hr.
  induction Hflags as [|flag flags Hflag _ IH]; intros s r Hmax Hr.
  - reflexivity.
  - cbn [foldl].
    destruct (sfStep_low q r flag s Hq Hmax Hr Hflag) as [-> Hbound].
    destruct (sfStep (s, r) flag) as [s' r'] eqn:Hstep. cbn [fst snd] in *.
    apply IH; lia.
Qed.

End ServiceFlagString.

Section WireProperties.

(** The loop of [String] run on a flag word below 8 consumes it entirely. *)
Lemma sfLoop_small (r : Z) :
  0 <= r < 8 → snd (foldl sfStep ("", r) orderedSFStrings) = 0.
Proof.
  intros Hr.
  destruct (small_cases r Hr) as [->|[->|[->|[->|[->|[->|[->| ->]]]]]]];
    reflexivity.
Qed.

Lemma sfResidue_low (q r : Z) :
  0 <= r < 8 → sfResidue (8 * q + r) = 8 * q.
Proof.
  intros Hr. unfold sfResidue.
  change sfRecognised with (Z.ones 3).
  rewrite Z.ldiff_ones_r by lia.
  rewrite Z.shiftr_div_pow2, Z.shiftl_mul_pow2 by lia.
  change (2 ^ 3) with 8.
  rewrite <- (Z.div_unique (8 * q + r) 8 q r) by lia. lia.
Qed.

Lemma sfSetNames_low (q r : Z) :
  0 <= r < 8 → sfSetNames (8 * q + r) = sfSetNames r.
Proof.
  intros Hr. unfold sfSetNames, orderedSFStrings. cbn [List.filter].
  rewrite !testbit_low3 by (try assumption; vm_compute; split; congruence).
  reflexivity.
Qed.

(** C3. For every 64-bit flag word [f] other than 0, [String] is the names
    of the recognised flags whose bit is set in [f], in the order
    SFNodeNetwork, SFNodeBloom, SFNodeCF, followed when [f] has bits
    outside those three by the residue as "0x" and its hexadecimal digits,
    all joined by "|"; and [String] of 0 is "0x0". *)
Theorem ServiceFlag_String_lists_set_flags (f : ServiceFlag) :
  is_uint64 f →
  ServiceFlag_String 0 = "0x0"
  ∧ (f ≠ 0 →
     ServiceFlag_String f = String.concat "|" (sfSetNames f ++ sfResidueText f)).
Proof.
  intros [Hlo Hhi]. split; [reflexivity|]. intros Hnz.
  set (q := f / 8). set (r := f mod 8).
  assert (Hf : f = 8 * q + r) by (subst q r; apply Z.div_mod; lia).
  assert (Hr : 0 <= r < 8) by (subst r; apply Z.mod_pos_bound; lia).
  assert (Hq : 0 <= q) by (subst q; apply Z.div_pos; lia).
  unfold ServiceFlag_String, sfResidueText.
  destruct (f =? 0) eqn:Hz; [apply Z.eqb_eq in Hz; contradiction|].
  rewrite Hf.
  rewrite sfLoop_low by (try apply orderedSFStrings_low; lia).
  rewrite sfLoop_small by assumption.
  rewrite sfResidue_low, sfSetNames_low by assumption.
  rewrite Z.add_0_r.
  destruct (8 * q =? 0) eqn:Hq0; cbn [negb];
    destruct (small_cases r Hr) as [->|[->|[->|[->|[->|[->|[->| ->]]]]]]];
    reflexivity.
Qed.

(** C3, at given inputs. *)
Lemma ServiceFlag_String_lists_set_flags_witness :
  is_uint64 13
  ∧ ServiceFlag_String 0 = "0x0"
  ∧ (13 ≠ 0 → ServiceFlag_String 13 = "SFNodeNetwork|SFNodeCF|0x8").
Proof.
  split; [unfold is_uint64, uint64_modulus; lia|].
  apply (ServiceFlag_String_lists_set_flags 13).
  unfold is_uint64, uint64_modulus; lia.
Defined.

(** C2. The feature-gate versions increase in the order base, bloom
    filter, header announcement, larger block size, fee filter, committed
    filter, starting from 1, and the latest supported version is the
    committed-filter one. *)
Theorem protocol_versions_strictly_increasing :
  InitialProcotolVersion = 1
  ∧ InitialProcotolVersion < NodeBloomVersion
  ∧ NodeBloomVersion < SendHeadersVersion
  ∧ SendHeadersVersion < MaxBlockSizeVersion
  ∧ MaxBlockSizeVersion < FeeFilterVersion
  ∧ FeeFilterVersion < NodeCFVersion
  ∧ ProtocolVersion = NodeCFVersion
  ∧ Forall is_uint32
      [InitialProcotolVersion; NodeBloomVersion; SendHeadersVersion;
       MaxBlockSizeVersion; FeeFilterVersion; NodeCFVersion; ProtocolVersion].
Proof.
  unfold InitialProcotolVersion, NodeBloomVersion, SendHeadersVersion,
    MaxBlockSizeVersion, FeeFilterVersion, NodeCFVersion, ProtocolVersion.
  repeat split; try lia.
  repeat (apply Forall_cons; split); try apply Forall_nil;
    unfold is_uint32, uint32_modulus; lia.
Qed.

Lemma bnStrings_lookup (n : CurrencyNet) :
  bnStrings !! n = if decide (n = MainNet) then Some "MainNet" else None.
Proof.
  unfold bnStrings. destruct (decide (n = MainNet)) as [->|Hne].
  - apply lookup_insert_eq.
  - rewrite lookup_insert_ne by congruence. apply lookup_empty.
Qed.

(** C5. The main-network magic is the 32-bit value 0xd9b400f9, and for
    every [n], [String] answers "MainNet" exactly when [n] is that magic;
    for every other [n] it answers "Unknown CurrencyNet (n)" with [n] in
    decimal. *)
Theorem CurrencyNet_String_MainNet_iff (n : CurrencyNet) :
  is_uint32 MainNet
  ∧ MainNet = 0xd9b400f9
  ∧ (CurrencyNet_String n = "MainNet" ↔ n = MainNet)
  ∧ (n ≠ MainNet →
     CurrencyNet_String n = "Unknown CurrencyNet (" +:+ FormatUint n 10 +:+ ")").
Proof.
  split; [unfold is_uint32, uint32_modulus, MainNet; lia|].
  split; [reflexivity|].
  unfold CurrencyNet_String. rewrite bnStrings_lookup.
  destruct (decide (n = MainNet)) as [->|Hne].
  - split; [split; reflexivity | congruence].
  - split; [split; [discriminate | contradiction] | reflexivity].
Qed.

(** C5, at the magic itself and at another 32-bit value. *)
Lemma CurrencyNet_String_MainNet_iff_witness :
  CurrencyNet_String 0xd9b400f9 = "MainNet"
  ∧ CurrencyNet_String 0x48e7a065 = "Unknown CurrencyNet (1223139429)".
Proof.
  split.
  - destruct (CurrencyNet_String_MainNet_iff 0xd9b400f9) as (_ & _ & Hiff & _).
    apply Hiff. reflexivity.
  - destruct (CurrencyNet_String_MainNet_iff 0x48e7a065) as (_ & _ & _ & Hne).
    apply Hne. discriminate.
Defined.

End WireProperties.

(** ** [minUint32] and the negotiated protocol version *)

Section MinUint32.

(** For unsigned 32-bit [a] and [b], [minUint32 a b] is [a] when [a < b]
    and [b] otherwise: the minimum of the two, itself a 32-bit value. *)
Lemma minUint32_min (a b : Z) :
  is_uint32 a → is_uint32 b →
  (a < b → minUint32 a b = a)
  ∧ (¬ a < b → minUint32 a b = b)
  ∧ minUint32 a b = Z.min a b
  ∧ is_uint32 (minUint32 a b).
Proof.
  intros Ha Hb. unfold minUint32.
  destruct (Z.ltb_spec a b) as [Hlt|Hge].
  - repeat split; try lia; try apply Ha.
  - repeat split; try lia; try apply Hb.
Qed.

(** C1. For unsigned 32-bit protocol versions, the handshake of the spec
    ends [Established] exactly when the remote version is not below the
    floor, and the version it has then negotiated, [min(local, remote)],
    is what the helper [minUint32] of the sources returns; below the floor
    it ends [Disconnecting] with the protocol-mismatch reason, never
    [Established]; and [minUint32 a b] is [a] when [a < b] and [b]
    otherwise, the minimum of the two, itself a 32-bit value. *)
Theorem handshake_negotiates_min (floor local remote : Z) :
  is_uint32 local → is_uint32 remote →
  (floor <= remote →
   handshake floor local remote = Established (minUint32 local remote))
  ∧ (remote < floor →
     handshake floor local remote = Disconnecting ProtocolMismatch)
  ∧ (∀ negotiated,
       handshake floor local remote = Established negotiated →
       floor <= remote
       ∧ negotiated = minUint32 local remote
       ∧ negotiated = Z.min local remote)
  ∧ (local < remote → minUint32 local remote = local)
  ∧ (¬ local < remote → minUint32 local remote = remote)
  ∧ minUint32 local remote = Z.min local remote
  ∧ is_uint32 (minUint32 local remote).
Proof.
  intros Hlocal Hremote.
  destruct (minUint32_min local remote Hlocal Hremote)
    as (Hlt & Hge & Hmin & Hfits).
  unfold handshake, onOpen, onVersion, onVerAck.
  split; [|split; [|split; [|split; [|split; [|split]]]]]; try assumption.
  - intros Hfloor. destruct (Z.ltb_spec remote floor); [lia|].
    by rewrite Hmin.
  - intros Hfloor. by destruct (Z.ltb_spec remote floor); [|lia].
  - intros negotiated.
    destruct (Z.ltb_spec remote floor); [discriminate|].
    intros [= <-]. split; [assumption|]. by split.
Qed.

(** C1, at a floor of 1, a local version 6 and the remote versions 3 and
    0. *)
Lemma handshake_negotiates_min_witness :
  is_uint32 6 ∧ is_uint32 3 ∧ is_uint32 0
  ∧ handshake 1 6 3 = Established 3
  ∧ handshake 1 6 0 = Disconnecting ProtocolMismatch
  ∧ minUint32 6 3 = 3 ∧ minUint32 3 6 = 3.
Proof.
  assert (H6 : is_uint32 6) by (unfold is_uint32, uint32_modulus; lia).
  assert (H3 : is_uint32 3) by (unfold is_uint32, uint32_modulus; lia).
  assert (H0 : is_uint32 0) by (unfold is_uint32, uint32_modulus; lia).
  split; [exact H6|]. split; [exact H3|]. split; [exact H0|].
  split; [|split; [|split]].
  - destruct (handshake_negotiates_min 1 6 3 H6 H3) as (Hok & _).
    etransitivity; [apply Hok; lia | reflexivity].
  - destruct (handshake_negotiates_min 1 6 0 H6 H0) as (_ & Hlow & _).
    apply Hlow. lia.
  - destruct (handshake_negotiates_min 1 6 3 H6 H3)
      as (_ & _ & _ & _ & Hge & _). apply Hge. lia.
  - destruct (handshake_negotiates_min 1 3 6 H3 H6)
      as (_ & _ & _ & Hlt & _). apply Hlt. lia.
Defined.

End MinUint32.

(** ** [removeDuplicateAddresses] and [normalizeAddresses] *)

Section RemoveDuplicates.

Lemma dedupInv_init : dedupInv [] ([], ∅).
Proof.
  split; [intros x; rewrite elem_of_empty, elem_of_nil; tauto|].
  split; [apply NoDup_nil_2|].
  split; [tauto|].
  intros i j x y Hi. rewrite lookup_nil in Hi. discriminate.
Qed.

Lemma dedupInv_step (pre : list string) (st : list string * gset string)
  (val : string) :
  dedupInv pre st → dedupInv (pre ++ [val]) (dedupStep st val).
Proof.
  destruct st as [result seen]. intros (Hseen & Hnodup & Hmem & Hord).
  unfold dedupStep. destruct (decide (val ∈ seen)) as [Hin|Hnotin].
  - (* already seen: the result is unchanged *)
    split; [exact Hseen|]. split; [exact Hnodup|]. split.
    + intros x. rewrite elem_of_app, list_elem_of_singleton, Hmem.
      split; [tauto|]. intros [Hx| ->]; [assumption|].
      apply Hmem, Hseen, Hin.
    + intros i j x y Hi Hj Hlt.
      destruct (Hord i j x y Hi Hj Hlt) as (p & Hp & Hy).
      exists p. split.
      * by apply lookup_app_l_Some.
      * rewrite take_app_le; [assumption|].
        apply Nat.lt_le_incl. by eapply lookup_lt_Some.
  - (* a new value: it is appended *)
    assert (Hfresh : val ∉ pre) by (rewrite <- Hmem, <- Hseen; assumption).
    split.
    { intros x.
      rewrite elem_of_union, elem_of_singleton, elem_of_app,
        list_elem_of_singleton, Hseen. tauto. }
    split.
    { apply NoDup_app. split; [assumption|]. split.
      - intros x Hx Hx'%list_elem_of_singleton. subst x.
        apply Hnotin. by apply Hseen.
      - apply NoDup_singleton. }
    split.
    { intros x. rewrite !elem_of_app, Hmem. tauto. }
    intros i j x y Hi Hj Hlt.
    destruct (decide (j < length result)%nat) as [Hjlt|Hjge].
    + rewrite lookup_app_l in Hi by lia. rewrite lookup_app_l in Hj by lia.
      destruct (Hord i j x y Hi Hj Hlt) as (p & Hp & Hy).
      exists p. split.
      * by apply lookup_app_l_Some.
      * rewrite take_app_le; [assumption|].
        apply Nat.lt_le_incl. by eapply lookup_lt_Some.
    + assert (Hj' : j = length result).
      { apply lookup_lt_Some in Hj. rewrite length_app in Hj.
        cbn [length] in Hj. lia. }
      subst j. rewrite lookup_app_l in Hi by lia.
      rewrite list_lookup_middle in Hj by reflexivity.
      injection Hj as <-.
      assert (Hx : x ∈ pre) by (apply Hmem; by eapply list_elem_of_lookup_2).
      apply list_elem_of_lookup in Hx as (p & Hp).
      exists p. split.
      * by apply lookup_app_l_Some.
      * rewrite take_app_le
          by (apply Nat.lt_le_incl; by eapply lookup_lt_Some).
        intros Hval. apply Hfresh. by apply (subseteq_take p pre).
Qed.

Lemma dedupInv_loop (addrs : list string) :
  dedupInv addrs (foldl dedupStep ([], ∅) addrs).
Proof.
  induction addrs as [|val addrs IH] using rev_ind.
  - apply dedupInv_init.
  - rewrite foldl_snoc. by apply dedupInv_step.
Qed.

(** The loop of [normalizeAddresses] rewrites every slot exactly once. *)
Lemma normalizeInPlace_map (defaultPort : string) (addrs : list string) :
  normalizeInPlace defaultPort addrs
  = (λ addr, normalizeAddress addr defaultPort) <$> addrs.
Proof.
  unfold normalizeInPlace.
  set (f := λ addr, normalizeAddress addr defaultPort).
  assert (Hgen : ∀ (n : nat), (n ≤ length addrs)%nat →
    foldl (λ (acc : list string) (i : nat),
             match acc !! i with
             | Some addr => <[i := f addr]> acc
             | None => acc
             end) addrs (seq 0 n)
    = (f <$> take n addrs) ++ drop n addrs).
  { induction n as [|n IH]; intros Hn.
    - cbn. by rewrite drop_0.
    - rewrite seq_S, foldl_snoc, IH by lia. cbn [Nat.add].
      destruct (lookup_lt_is_Some_2 addrs n ltac:(lia)) as [a Ha].
      rewrite lookup_app_r by (rewrite length_fmap, length_take; lia).
      rewrite length_fmap, length_take, Nat.min_l, Nat.sub_diag by lia.
      rewrite (drop_S _ _ _ Ha). cbn [lookup list_lookup].
      rewrite insert_app_r_alt by (rewrite length_fmap, length_take; lia).
      rewrite length_fmap, length_take, Nat.min_l, Nat.sub_diag by lia.
      cbn [insert list_insert].
      rewrite (take_S_r _ _ _ Ha), fmap_app, <- app_assoc. reflexivity. }
  rewrite Hgen by lia.
  by rewrite firstn_all, drop_all, app_nil_r.
Qed.

End RemoveDuplicates.

(** ** [loadConfig] *)

Section LoadConfig.

(** The outcome of a sequence is the outcome of its second part when the
    first part returns, and the outcome of its first part otherwise. *)
Lemma result_bind {A B} (f : A → proc B) (m : proc A) :
  result (mbind f m)
  = match result m with
    | Returned a => result (f a)
    | Exited c => Exited c
    | Panicked => Panicked
    | Blocked => Blocked
    end.
Proof.
  destruct m as [t [a|c| |]]; try reflexivity.
  unfold mbind, proc_bind, Proc.bind, result. cbn [snd].
  destruct (f a). reflexivity.
Qed.

(** Symbolic execution of a [proc] under [result]: name a [let], run a
    monadic step, or case on the test at the head. *)
Ltac run_proc :=
  rewrite ?result_bind;
  cbn beta iota delta
    [result snd mret proc_ret Proc.ret emit os_Exit panic failWith].

(** A step that only writes to the trace returns. *)
Ltac solve_returns :=
  solve [ repeat first
            [ reflexivity
            | match goal with
              | |- context [match ?s with _ => _ end] => destruct s
              end ] ].

Ltac exec_step :=
  lazymatch goal with
  | |- ?P (result ?prog) =>
      lazymatch prog with
      | (let x := ?e in @?b x) =>
          let y := fresh x in
          pose (y := e); change (P (result (b y))); cbv beta
      | mbind ?f ?m =>
          first [ let H := fresh in
                  assert (H : result m = Returned tt) by solve_returns;
                  rewrite (result_bind f m), H; clear H; cbv beta iota
                | rewrite (result_bind f m); run_proc ]
      | match ?s with _ => _ end => destruct s eqn:?; cbv beta iota
      end
  end.

(** [parseNetworkInterfaces] writes [ipv4NetInfo] and [ipv6NetInfo] only. *)
Lemma parseNetworkInterfaces_keeps (w : World) (cfg cfg' : config)
  (err : option error) :
  parseNetworkInterfaces w cfg = (cfg', err) →
  peerLimits cfg' = peerLimits cfg
  ∧ Listeners cfg' = Listeners cfg
  ∧ RPCListeners cfg' = RPCListeners cfg
  ∧ AddPeers cfg' = AddPeers cfg
  ∧ ConnectPeers cfg' = ConnectPeers cfg.
Proof.
  unfold parseNetworkInterfaces.
  destruct (parseListeners w (Listeners cfg)) as [[v4Addrs v6Addrs]|].
  - destruct (0 <? Z.of_nat (length v4Addrs));
      destruct (0 <? Z.of_nat (length v6Addrs));
      intros [= <- <-]; repeat split; reflexivity.
  - intros [= <- <-]. repeat split; reflexivity.
Qed.

(** What is left of a run once it is executed: a run that returns an
    error, a run that panics, a run that returns a configuration. *)
Ltac no_exit Hperr :=
  let Hx := fresh in intros [? Hx]; rewrite Hperr in Hx; discriminate Hx.

Ltac ban_checked Hloaded :=
  rewrite Hloaded;
  lazymatch goal with
  | Hban : (BanDuration _ <? time_Second) = false |- _ =>
      apply Z.ltb_ge in Hban; exact Hban
  end.

(** Replace the named intermediate configurations by what they stand for,
    then case on the tests left in the goal. *)
Ltac unfold_configs :=
  repeat match goal with x := _ : config |- _ => subst x end.

Ltac split_ifs :=
  repeat match goal with
         | |- context [if ?c then _ else _] => destruct c
         end.

Ltac panic_leaf Hperr Hloaded :=
  split; [no_exit Hperr|]; split; [ban_checked Hloaded | assumption].

Ltac limits_kept Hloaded :=
  rewrite Hloaded; cbn [fst];
  lazymatch goal with
  | Hrpc : _ = @inl config error ?c0 |- _ =>
      transitivity (peerLimits c0); [reflexivity|];
      revert Hrpc;
      repeat match goal with
             | |- context [match ?s with _ => _ end] => destruct s
             end;
      intros [= <-];
      repeat match goal with H : _ = _ |- _ => clear H end;
      unfold_configs; split_ifs; reflexivity
  end.

Ltac config_leaf Hperr Hloaded :=
  lazymatch goal with
  | Hpn : parseNetworkInterfaces _ _ = (_, None) |- _ =>
      let Hlim := fresh "Hlim" in
      let HL := fresh "HL" in
      let HR := fresh "HR" in
      let HA := fresh "HA" in
      let HC := fresh "HC" in
      destruct (parseNetworkInterfaces_keeps _ _ _ _ Hpn)
        as (Hlim & HL & HR & HA & HC);
      split; [no_exit Hperr|];
      split; [reflexivity|];
      split; [ban_checked Hloaded|];
      split; [etransitivity; [exact Hlim | limits_kept Hloaded]|];
      split; [eexists; etransitivity; [exact HL | reflexivity]|];
      split; [eexists; etransitivity; [exact HR | reflexivity]|];
      split; [eexists; etransitivity; [exact HA | reflexivity]|];
      eexists; etransitivity; [exact HC | reflexivity]
  end.

(** Every run of [loadConfig] ends in one of the ways [loadConfigPost]
    describes. *)
Lemma loadConfig_post (w : World) : loadConfigPost w (result (loadConfig w)).
Proof.
  cbv delta [loadConfig when]. cbv beta.
  do 4 exec_step.
  destruct (preParse w preCfg) as [preCfg' perr] eqn:Hpre.
  assert (Hperr : preParseError w = perr).
  { unfold preParseError. subst preCfg cfg. by rewrite Hpre. }
  assert (Hloaded : loadedConfig w = fst (parseConfigFile w preCfg' cfg)).
  { unfold loadedConfig. subst preCfg cfg. by rewrite Hpre. }
  cbv beta iota.
  destruct perr as [[t|]|].
  - (* a flags error: the process exits *)
    destruct (isErrHelp t) eqn:Hhelp; cbn [negb]; cbv iota; run_proc;
      exists t; rewrite Hhelp; split; (assumption || reflexivity).
  - repeat exec_step; run_proc; cbn beta iota delta [loadConfigPost];
      first [no_exit Hperr | panic_leaf Hperr Hloaded
            | config_leaf Hperr Hloaded].
  - repeat exec_step; run_proc; cbn beta iota delta [loadConfigPost];
      first [no_exit Hperr | panic_leaf Hperr Hloaded
            | config_leaf Hperr Hloaded].
Qed.

(** [loadConfig] performs configuration actions only. *)
Lemma configOnly_bind {A B} (f : A → proc B) (m : proc A) :
  configOnly m → (∀ a, configOnly (f a)) → configOnly (mbind f m).
Proof.
  unfold configOnly, trace. intros Hm Hf.
  destruct m as [t [a|c| |]]; try exact Hm.
  unfold mbind, proc_bind, Proc.bind. specialize (Hf a).
  destruct (f a) as [t' o]. cbn [fst] in *. by apply Forall_app.
Qed.

(** A step of a few prints. *)
Ltac solve_configOnly :=
  repeat match goal with
         | |- context [match ?s with _ => _ end] => destruct s
         end;
  repeat first
    [ apply configOnly_bind; [|intros ?]
    | apply Forall_nil_2
    | apply Forall_cons; split; [exact I|] ].

Ltac trace_step :=
  lazymatch goal with
  | |- configOnly ?prog =>
      lazymatch prog with
      | (let x := ?e in @?b x) =>
          let y := fresh x in
          pose (y := e); change (configOnly (b y)); cbv beta
      | mbind ?f ?m =>
          apply configOnly_bind; [solve [solve_configOnly] | intros ?]
      | match ?s with _ => _ end => destruct s; cbv beta iota
      end
  end.

Lemma loadConfig_configOnly (w : World) : configOnly (loadConfig w).
Proof.
  cbv delta [loadConfig when]. cbv beta.
  repeat trace_step; solve [solve_configOnly].
Qed.

(** Every way a run of [loadConfig] can end. *)
Lemma loadConfig_outcomes (w : World) :
  (∃ code, result (loadConfig w) = Exited code ∧ preParseExits w)
  ∨ (∃ e, result (loadConfig w) = Returned (None, [], Some e)
          ∧ ¬ preParseExits w)
  ∨ (∃ cfg, result (loadConfig w) = Returned (Some cfg, remainingArgs w, None)
            ∧ ¬ preParseExits w
            ∧ time_Second <= BanDuration (loadedConfig w))
  ∨ (result (loadConfig w) = Panicked
     ∧ ¬ preParseExits w
     ∧ time_Second <= BanDuration (loadedConfig w)).
Proof.
  pose proof (loadConfig_post w) as Hpost.
  destruct (result (loadConfig w))
    as [[[[cfg|] [|arg args]] [e|]]|code| |]; cbn in Hpost; try contradiction.
  - right. right. left. exists cfg.
    destruct Hpost as (Hne & <- & Hban & _). auto.
  - right. right. left. exists cfg.
    destruct Hpost as (Hne & <- & Hban & _). auto.
  - right. left. exists e. auto.
  - left. exists code. split; [reflexivity|].
    destruct Hpost as (t & Ht & _). by exists t.
  - right. right. right. destruct Hpost as (Hne & Hban & _). auto.
Qed.

(** Whenever the configuration read, that is the defaults overwritten by
    the file named with [-C], has a ban duration below one second,
    [loadConfig] returns an error and no configuration.  (The
    configuration exists once the command line is pre-parsed without the
    process exiting.) *)
Lemma loadConfig_rejects_short_ban (w : World) :
  ¬ preParseExits w →
  BanDuration (loadedConfig w) < time_Second →
  ∃ t e, loadConfig w = (t, Returned (None, [], Some e)).
Proof.
  intros Hne Hshort.
  destruct (loadConfig_outcomes w)
    as [(code & _ & Hex)|[(e & Hres & _)|[(cfg & _ & _ & Hban)|(_ & _ & Hban)]]];
    try contradiction; try lia.
  exists (trace (loadConfig w)), e.
  destruct (loadConfig w) as [t o]. cbn [result trace fst snd] in *. by subst o.
Qed.

(** A configuration file that sets the ban duration to 500ms is
    rejected. *)
Lemma loadConfig_rejects_short_ban_file :
  ¬ preParseExits shortBanWorld
  ∧ BanDuration (loadedConfig shortBanWorld) < time_Second
  ∧ ∃ t e, loadConfig shortBanWorld = (t, Returned (None, [], Some e)).
Proof.
  assert (Hne : ¬ preParseExits shortBanWorld).
  { intros [t Ht]. vm_compute in Ht. discriminate Ht. }
  assert (Hshort : BanDuration (loadedConfig shortBanWorld) < time_Second).
  { vm_compute. reflexivity. }
  split; [exact Hne|]. split; [exact Hshort|].
  exact (loadConfig_rejects_short_ban shortBanWorld Hne Hshort).
Qed.

(** C6. A ban duration of 500ms given on the command line is not
    rejected: [loadConfig] parses the command line into [preCfg] only,
    reads of it nothing but the name of the configuration file, and
    returns a configuration with the default ban duration of 24 hours and
    a nil error.  Step 4 of its own description, "Parse CLI options and
    overwrite/add any specified options", is missing. *)
Theorem loadConfig_ignores_command_line_ban :
  BanDuration (fst (preParse cliShortBanWorld (defaultConfig cliShortBanWorld)))
  = 500000000
  ∧ 500000000 < time_Second
  ∧ preParseError cliShortBanWorld = None
  ∧ ∃ cfg, loadConfig cliShortBanWorld = ([], Returned (Some cfg, [], None))
           ∧ BanDuration cfg = 24 * time_Hour
           ∧ BanDuration cfg = defaultBanDuration.
Proof.
  split; [reflexivity|]. split; [reflexivity|]. split; [reflexivity|].
  let r := eval vm_compute in (loadConfig cliShortBanWorld) in
  lazymatch r with
  | (_, Returned (Some ?c, _, _)) => exists c
  end.
  split; [vm_compute; reflexivity|]. split; reflexivity.
Qed.

Lemma loadConfig_run (w : World) (t : list event) (o : outcome loadResult) :
  loadConfig w = (t, o) → result (loadConfig w) = o ∧ trace (loadConfig w) = t.
Proof. intros ->. split; reflexivity. Qed.

Lemma loadedConfig_limits (w : World) :
  keepsPeerLimits w → peerLimits (loadedConfig w) = peerLimits (defaultConfig w).
Proof.
  intros Hkeep. unfold loadedConfig, parseConfigFile.
  destruct (negb _); [apply Hkeep | reflexivity].
Qed.

(** C8. When the configuration file overrides none of them, the
    configuration [loadConfig] returns has at most 125 peers in total, at
    most 5 connections from one address, a ban duration of 24 hours and a
    ban threshold of 100.  (Here the command line only selects the
    configuration file: it is parsed into a copy that is not returned.) *)
Theorem loadConfig_default_limits (w : World) (t : list event) (cfg : config)
  (args : list string) :
  keepsPeerLimits w →
  loadConfig w = (t, Returned (Some cfg, args, None)) →
  MaxPeers cfg = 125
  ∧ MaxSameIP cfg = 5
  ∧ BanDuration cfg = 24 * time_Hour
  ∧ BanThreshold cfg = 100.
Proof.
  intros Hkeep [Hres _]%loadConfig_run.
  pose proof (loadConfig_post w) as Hpost. rewrite Hres in Hpost.
  destruct Hpost as (_ & _ & _ & Hlim & _).
  rewrite (loadedConfig_limits w Hkeep) in Hlim.
  unfold peerLimits in Hlim. cbn in Hlim.
  injection Hlim as -> -> -> ->. repeat split; reflexivity.
Qed.

(** C8, for a start without arguments and without configuration file. *)
Lemma loadConfig_default_limits_witness :
  keepsPeerLimits quietWorld
  ∧ ∃ cfg, loadConfig quietWorld = ([], Returned (Some cfg, [], None))
           ∧ MaxPeers cfg = 125 ∧ MaxSameIP cfg = 5
           ∧ BanDuration cfg = 24 * time_Hour ∧ BanThreshold cfg = 100.
Proof.
  assert (Hkeep : keepsPeerLimits quietWorld) by (intros path cfg; reflexivity).
  split; [exact Hkeep|].
  let r := eval vm_compute in (loadConfig quietWorld) in
  lazymatch r with
  | (_, Returned (Some ?c, _, _)) => exists c
  end.
  assert (Hrun : loadConfig quietWorld
                 = ([], Returned (Some _, [], None)))
    by (vm_compute; reflexivity).
  split; [exact Hrun|].
  exact (loadConfig_default_limits quietWorld _ _ _ Hkeep Hrun).
Defined.



End LoadConfig.

(** ** [dcrdMain] and the exits of the process *)

Section Startup.

Lemma bind_returned {A B} (f : A → proc B) (t : list event) (a : A) :
  mbind f (t, Returned a) = (t ++ trace (f a), result (f a)).
Proof.
  unfold mbind, proc_bind, Proc.bind, trace, result. by destruct (f a).
Qed.

Lemma configEvent_not_server (t : list event) :
  Forall configEvent t → (EvNewServer ∉ t) ∧ (EvServerStart ∉ t).
Proof.
  intros Hall. rewrite Forall_forall in Hall.
  split; intros Hin; exact (Hall _ Hin).
Qed.

(** Case on the tests of a program that are still open. *)
Ltac open_tests :=
  repeat match goal with
         | |- context [if ?b then _ else _] =>
             lazymatch b with
             | true => fail
             | false => fail
             | _ => destruct b
             end
         end.

(** A server event is not in the trace of [loadConfig] followed by an
    explicit trace. *)
Ltac no_server_event Hconfig :=
  let H := fresh in
  rewrite elem_of_app; intros [H|H];
  [ exact (Hconfig H)
  | revert H; apply (bool_decide_unpack _); vm_compute; exact I ].

(** C7. [shutdownRequested] answers true exactly for a canceled context;
    and when, after the configuration is loaded, [dcrdMain] finds the
    context canceled at its poll before the block database is loaded, or
    at its poll after the database is loaded, it returns nil and the p2p
    server is neither created nor started. *)
Theorem dcrdMain_shutdown_before_server (w : World) (ctx : Context)
  (t : list event) (cfg : config) (args : list string) :
  (shutdownRequested ctx = true ↔ canceled ctx = true)
  ∧ (loadConfig w = (t, Returned (Some cfg, args, None)) →
     shutdownRequested (ctxAt w BeforeLoadBlockDB) = true
     ∨ (loadBlockDB w = None
        ∧ shutdownRequested (ctxAt w AfterLoadBlockDB) = true) →
     result (dcrdMain w) = Returned None
     ∧ (EvNewServer ∉ trace (dcrdMain w))
     ∧ (EvServerStart ∉ trace (dcrdMain w))).
Proof.
  split.
  { unfold shutdownRequested, Done. destruct (canceled ctx); split; auto. }
  intros Hload Hcancel.
  pose proof (loadConfig_configOnly w) as Hquiet.
  unfold configOnly in Hquiet. rewrite Hload in Hquiet. cbn [trace fst] in Hquiet.
  apply configEvent_not_server in Hquiet as [Hnew Hstart].
  unfold dcrdMain. rewrite Hload, bind_returned. cbv beta iota.
  cbn [trace result fst snd].
  unfold when, deferredDb, deferredBase, when.
  destruct (shutdownRequested (ctxAt w BeforeLoadBlockDB)) eqn:Hfirst.
  - open_tests;
      (split; [reflexivity | split;
         [no_server_event Hnew | no_server_event Hstart]]).
  - destruct Hcancel as [Hcancel|[Hdb Hsecond]]; [discriminate Hcancel|].
    rewrite Hdb, Hsecond.
    open_tests;
      (split; [reflexivity | split;
         [no_server_event Hnew | no_server_event Hstart]]).
Qed.

(** C7, for a shutdown signal that arrives during start-up. *)
Lemma dcrdMain_shutdown_before_server_witness :
  ∃ t cfg args,
    loadConfig earlyShutdownWorld = (t, Returned (Some cfg, args, None))
    ∧ shutdownRequested (ctxAt earlyShutdownWorld BeforeLoadBlockDB) = true
    ∧ result (dcrdMain earlyShutdownWorld) = Returned None
    ∧ (EvNewServer ∉ trace (dcrdMain earlyShutdownWorld))
    ∧ (EvServerStart ∉ trace (dcrdMain earlyShutdownWorld)).
Proof.
  let r := eval vm_compute in (loadConfig earlyShutdownWorld) in
  lazymatch r with
  | (?t, Returned (Some ?c, ?a, _)) => exists t, c, a
  end.
  assert (Hrun : loadConfig earlyShutdownWorld
                 = (_, Returned (Some _, _, None)))
    by (vm_compute; reflexivity).
  assert (Hfirst :
            shutdownRequested (ctxAt earlyShutdownWorld BeforeLoadBlockDB) = true)
    by reflexivity.
  split; [exact Hrun|]. split; [exact Hfirst|].
  exact (proj2 (dcrdMain_shutdown_before_server earlyShutdownWorld
                  (ctxAt earlyShutdownWorld BeforeLoadBlockDB) _ _ _)
           Hrun (or_introl Hfirst)).
Defined.

(** C4 as stated fails: a command line with an unknown flag makes
    [loadConfig] leave the process with status 1 instead of returning. *)
Lemma loadConfig_exits_on_unknown_flag :
  loadConfig unknownFlagWorld = ([EvPrint Stderr "%v\n"], Exited 1)
  ∧ ¬ (∀ w : World, ∃ r : loadResult, result (loadConfig w) = Returned r).
Proof.
  assert (Hrun : loadConfig unknownFlagWorld
                 = ([EvPrint Stderr "%v\n"], Exited 1))
    by (vm_compute; reflexivity).
  split; [exact Hrun|].
  intros Hall. destruct (Hall unknownFlagWorld) as [r Hr].
  rewrite Hrun in Hr. discriminate Hr.
Qed.

(** C4, as it holds.  [loadConfig] leaves the process exactly when the
    pre-parse of the command line reports a flags error, with status 0 for
    the help request and 1 otherwise; whenever it returns, it returns
    either a configuration and no error or an error and no configuration;
    an error it returns is returned by [dcrdMain] in turn, which has then
    done nothing but what [loadConfig] did; and [fatalf] leaves the process
    with status 1. *)
Theorem loadConfig_returns_errors_or_exits (w : World) :
  ((∃ code, result (loadConfig w) = Exited code) ↔ preParseExits w)
  ∧ (∀ code, result (loadConfig w) = Exited code →
       ∃ t, preParseError w = Some (FlagsError t)
            ∧ code = (if isErrHelp t then 0 else 1))
  ∧ (∀ cfg args err, result (loadConfig w) = Returned (cfg, args, err) →
       (cfg = None ↔ err ≠ None))
  ∧ (∀ args e, result (loadConfig w) = Returned (None, args, Some e) →
       result (dcrdMain w) = Returned (Some e)
       ∧ trace (dcrdMain w) = trace (loadConfig w))
  ∧ (∀ str, result (fatalf w str) = Exited 1).
Proof.
  pose proof (loadConfig_post w) as Hpost.
  split; [|split; [|split; [|split]]].
  - split.
    + intros [code Hcode]. rewrite Hcode in Hpost.
      destruct Hpost as (t & Ht & _). by exists t.
    + intros Hexits.
      destruct (result (loadConfig w))
        as [[[[cfg|] [|arg args]] [e|]]|code| |]; cbn in Hpost;
        try contradiction; try (by destruct Hpost); by exists code.
  - intros code Hcode. rewrite Hcode in Hpost. exact Hpost.
  - intros cfg args err Hret. rewrite Hret in Hpost.
    destruct cfg as [cfg|], args as [|arg args], err as [e|]; cbn in Hpost;
      try contradiction; split; congruence.
  - intros args e Hret. unfold dcrdMain.
    destruct (loadConfig w) as [t o]. cbn [result trace fst snd] in *.
    subst o. rewrite bind_returned. cbn [result trace fst snd mret proc_ret Proc.ret].
    split; [reflexivity | apply app_nil_r].
  - intros str. unfold fatalf, when.
    destruct (logRotatorSet w); reflexivity.
Qed.

(** C4 as it holds, for the help request and for a ban duration of
    500ms. *)
Lemma loadConfig_returns_errors_or_exits_witness :
  preParseExits helpWorld
  ∧ (∃ code, result (loadConfig helpWorld) = Exited code)
  ∧ result (loadConfig shortBanWorld)
    = Returned (None, [], Some (ErrBanDuration 500000000))
  ∧ result (dcrdMain shortBanWorld) = Returned (Some (ErrBanDuration 500000000)).
Proof.
  assert (Hexits : preParseExits helpWorld) by (by exists ErrHelp).
  assert (Hret : result (loadConfig shortBanWorld)
                 = Returned (None, [], Some (ErrBanDuration 500000000)))
    by (vm_compute; reflexivity).
  split; [exact Hexits|]. split.
  - exact (proj2 (proj1 (loadConfig_returns_errors_or_exits helpWorld)) Hexits).
  - split; [exact Hret|].
    destruct (loadConfig_returns_errors_or_exits shortBanWorld)
      as (_ & _ & _ & Hmain & _).
    exact (proj1 (Hmain _ _ Hret)).
Defined.

End Startup.

(** ** [normalizeAddress] *)

Section NormalizeAddress.

#[local] Arguments String.append !_ _ / : simpl nomatch.

Lemma len_app (s1 s2 : string) : len (s1 +:+ s2) = len s1 + len s2.
Proof.
  unfold len. induction s1 as [|c s1 IH]; cbn [String.append String.length].
  - lia.
  - lia.
Qed.

Lemma len_nonneg (s : string) : 0 <= len s.
Proof. unfold len. lia. Qed.

Lemma hasByte_app (c : ascii) (s1 s2 : string) :
  hasByte c (s1 +:+ s2) = hasByte c s1 || hasByte c s2.
Proof.
  induction s1 as [|x s1 IH]; cbn [String.append hasByte]; [reflexivity|].
  destruct (Ascii.eqb x c); [reflexivity | exact IH].
Qed.

Lemma IndexByteString_absent (c : ascii) (s : string) :
  hasByte c s = false → IndexByteString s c = -1.
Proof.
  induction s as [|x s IH]; cbn [hasByte IndexByteString]; [reflexivity|].
  destruct (Ascii.eqb x c); [discriminate|].
  intros Hs. rewrite (IH Hs). reflexivity.
Qed.

Lemma IndexByteString_present (c : ascii) (s : string) :
  hasByte c s = true → 0 <= IndexByteString s c.
Proof.
  induction s as [|x s IH]; cbn [hasByte IndexByteString]; [discriminate|].
  destruct (Ascii.eqb x c); [lia|].
  intros Hs. specialize (IH Hs).
  destruct (Z.ltb_spec (IndexByteString s c) 0); lia.
Qed.

Lemma IndexByteString_app (c : ascii) (s1 s2 : string) :
  hasByte c s1 = false →
  IndexByteString (s1 +:+ String c s2) c = len s1.
Proof.
  unfold len.
  induction s1 as [|x s1 IH]; cbn [String.append hasByte IndexByteString String.length].
  - rewrite Ascii.eqb_refl. reflexivity.
  - destruct (Ascii.eqb x c); [discriminate|].
    intros Hs. rewrite (IH Hs).
    destruct (Z.ltb_spec (Z.of_nat (String.length s1)) 0); lia.
Qed.

Lemma last_absent (c : ascii) (s : string) :
  hasByte c s = false → last s c = -1.
Proof.
  induction s as [|x s IH]; cbn [hasByte last]; [reflexivity|].
  destruct (Ascii.eqb x c); [discriminate|].
  intros Hs. rewrite (IH Hs). reflexivity.
Qed.

Lemma last_app (c : ascii) (s1 s2 : string) :
  hasByte c s2 = false → last (s1 +:+ String c s2) c = len s1.
Proof.
  intros Hs2. unfold len.
  induction s1 as [|x s1 IH]; cbn [String.append last String.length].
  - rewrite (last_absent c s2 Hs2), Ascii.eqb_refl. reflexivity.
  - rewrite IH.
    destruct (Z.leb_spec 0 (Z.of_nat (String.length s1))); lia.
Qed.

Lemma dropBytes_app (s1 s2 : string) :
  dropBytes (String.length s1) (s1 +:+ s2) = s2.
Proof. induction s1 as [|x s1 IH]; [by destruct s2 | exact IH]. Qed.

Lemma takeBytes_app (s1 s2 : string) :
  takeBytes (String.length s1) (s1 +:+ s2) = s1.
Proof.
  induction s1 as [|x s1 IH]; [reflexivity|].
  cbn [String.length String.append takeBytes]. by rewrite IH.
Qed.

Lemma sliceFrom_app (s1 s2 : string) : sliceFrom (s1 +:+ s2) (len s1) = s2.
Proof.
  unfold sliceFrom, len. rewrite Nat2Z.id. apply dropBytes_app.
Qed.

Lemma slice_app (s1 s2 : string) : slice (s1 +:+ s2) 0 (len s1) = s1.
Proof.
  unfold slice, len. rewrite Z.sub_0_r, Nat2Z.id.
  cbn [Z.to_nat dropBytes]. apply takeBytes_app.
Qed.

Lemma dropBytes_app_plus (n : nat) (s1 s2 : string) :
  dropBytes (String.length s1 + n) (s1 +:+ s2) = dropBytes n s2.
Proof. induction s1 as [|x s1 IH]; [reflexivity | exact IH]. Qed.

Lemma sliceFrom_app_plus (k : Z) (s1 s2 : string) :
  0 <= k → sliceFrom (s1 +:+ s2) (len s1 + k) = sliceFrom s2 k.
Proof.
  intros Hk. unfold sliceFrom, len.
  replace (Z.to_nat (Z.of_nat (String.length s1) + k))
    with (String.length s1 + Z.to_nat k)%nat by lia.
  apply dropBytes_app_plus.
Qed.

Lemma last_app_present (c : ascii) (s1 s2 : string) :
  0 <= last s2 c → last (s1 +:+ s2) c = len s1 + last s2 c.
Proof.
  intros Hs2. unfold len.
  induction s1 as [|x s1 IH]; cbn [String.append last String.length].
  - lia.
  - rewrite IH.
    destruct (Z.leb_spec 0 (Z.of_nat (String.length s1) + last s2 c)); lia.
Qed.

(** The host of [host:port] does not begin with '[' when it has none. *)
Lemma firstByteIs_plain (host rest : string) :
  hasByte "[" host = false →
  firstByteIs (host +:+ String ":" rest) "[" = false.
Proof.
  destruct host as [|x host]; cbn [String.append firstByteIs hasByte].
  - reflexivity.
  - destruct (Ascii.eqb x "["); [discriminate | reflexivity].
Qed.

(** An address that parses is its own normal form. *)
Lemma normalizeAddress_parsed (addr defaultPort : string) hp :
  SplitHostPort addr = inl hp → normalizeAddress addr defaultPort = addr.
Proof. unfold normalizeAddress. by intros ->. Qed.

(** Joining a host without brackets and a port without colon or bracket
    gives an address that parses. *)
Lemma SplitHostPort_Join (host port : string) :
  hasByte "[" host = false → hasByte "]" host = false →
  hasByte ":" port = false → hasByte "[" port = false →
  hasByte "]" port = false →
  SplitHostPort (JoinHostPort host port) = inl (host, port).
Proof.
  intros Hho Hhc Hpcol Hpo Hpc. unfold JoinHostPort.
  pose proof (len_nonneg host) as Hlen.
  pose proof (len_nonneg port) as Hlenp.
  destruct (hasByte ":" host) eqn:Hcol.
  - (* a host with a colon is put in brackets *)
    apply IndexByteString_present in Hcol as Hidx.
    destruct (Z.leb_spec 0 (IndexByteString host ":")); [|lia].
    set (r := "[" +:+ host +:+ "]:" +:+ port).
    assert (Hr1 : r = String "[" host +:+ String "]" (String ":" port))
      by reflexivity.
    assert (Hlast : last r ":" = len host + 2).
    { rewrite Hr1, last_app_present.
      - cbn [last]. rewrite (last_absent ":" port Hpcol).
        cbn. unfold len. cbn [String.length]. lia.
      - cbn [last]. rewrite (last_absent ":" port Hpcol). cbn. lia. }
    assert (Hend : IndexByteString r "]" = len host + 1).
    { rewrite Hr1, IndexByteString_app.
      - unfold len. cbn [String.length]. lia.
      - cbn [hasByte]. exact Hhc. }
    assert (Hlenr : len r = len host + 3 + len port).
    { rewrite Hr1, len_app. unfold len. cbn [String.length]. lia. }
    assert (Htail1 : sliceFrom r 1 = host +:+ String "]" (String ":" port))
      by reflexivity.
    assert (Htail2 : sliceFrom r (len host + 2) = String ":" port).
    { rewrite Hr1.
      replace (len host + 2) with (len (String "[" host) + 1)
        by (unfold len; cbn [String.length]; lia).
      by rewrite sliceFrom_app_plus. }
    assert (Htail3 : sliceFrom r (len host + 2 + 1) = port).
    { rewrite Hr1.
      replace (len host + 2 + 1) with (len (String "[" host) + 2)
        by (unfold len; cbn [String.length]; lia).
      by rewrite sliceFrom_app_plus. }
    assert (Hhost : slice r 1 (len host + 1) = host).
    { unfold slice. change (dropBytes (Z.to_nat 1) r)
        with (host +:+ String "]" (String ":" port)).
      replace (Z.to_nat (len host + 1 - 1)) with (String.length host)
        by (unfold len; lia).
      apply takeBytes_app. }
    unfold SplitHostPort. fold r. rewrite Hlast, Hend, Hlenr.
    destruct (Z.ltb_spec (len host + 2) 0); [lia|].
    change (firstByteIs r "[") with true. cbv iota.
    destruct (Z.ltb_spec (len host + 1) 0); [lia|].
    destruct (Z.eqb_spec (len host + 1 + 1) (len host + 3 + len port)); [lia|].
    destruct (Z.eqb_spec (len host + 1 + 1) (len host + 2)); [|lia].
    unfold splitTail. rewrite Hhost, Htail1.
    replace (len host + 1 + 1) with (len host + 2) by lia.
    rewrite Htail2, Htail3.
    rewrite (IndexByteString_absent "[" (host +:+ _))
      by (rewrite hasByte_app, Hho; cbn [hasByte orb]; exact Hpo).
    rewrite (IndexByteString_absent "]" (String ":" port))
      by (cbn [hasByte]; exact Hpc).
    reflexivity.
  - rewrite (IndexByteString_absent _ _ Hcol). cbn [Z.leb Z.compare].
    unfold SplitHostPort.
    change (host +:+ ":" +:+ port) with (host +:+ String ":" port).
    rewrite (last_app ":" host port Hpcol).
    destruct (Z.ltb_spec (len host) 0); [lia|].
    rewrite (firstByteIs_plain host port Hho), slice_app,
      (IndexByteString_absent _ _ Hcol).
    cbn [Z.leb Z.compare]. unfold splitTail.
    change (sliceFrom (host +:+ String ":" port) 0)
      with (host +:+ String ":" port).
    rewrite (IndexByteString_absent "[" (host +:+ _))
      by (rewrite hasByte_app, Hho; cbn [hasByte orb]; exact Hpo).
    rewrite (IndexByteString_absent "]" (host +:+ _))
      by (rewrite hasByte_app, Hhc; cbn [hasByte orb]; exact Hpc).
    cbn [Z.leb Z.compare].
    rewrite sliceFrom_app_plus by lia. reflexivity.
Qed.

(** C10, as it holds.  [normalizeAddress] returns unchanged an address
    that parses as host:port; and applying it twice is the same as
    applying it once to every address that parses, and to every address
    without '[' or ']' when the default port has no ':', '[' or ']'. *)
Theorem normalizeAddress_idempotent_plain (addr defaultPort : string) :
  (∃ hp, SplitHostPort addr = inl hp)
  ∨ (hasByte "[" addr = false ∧ hasByte "]" addr = false
     ∧ hasByte ":" defaultPort = false ∧ hasByte "[" defaultPort = false
     ∧ hasByte "]" defaultPort = false) →
  ((∃ hp, SplitHostPort addr = inl hp) →
   normalizeAddress addr defaultPort = addr)
  ∧ normalizeAddress (normalizeAddress addr defaultPort) defaultPort
    = normalizeAddress addr defaultPort.
Proof.
  intros Hcase. split.
  { intros [hp Hhp]. by eapply normalizeAddress_parsed. }
  destruct (SplitHostPort addr) as [hp|e] eqn:Hsplit.
  - rewrite (normalizeAddress_parsed addr defaultPort hp Hsplit).
    by eapply normalizeAddress_parsed.
  - destruct Hcase as [[hp Hhp]|(Hao & Hac & Hpcol & Hpo & Hpc)];
      [discriminate Hhp|].
    unfold normalizeAddress at 2 3. rewrite Hsplit.
    eapply normalizeAddress_parsed.
    by apply SplitHostPort_Join.
Qed.

(** C10 as it holds, for an IPv6 address and the main-network port. *)
Lemma normalizeAddress_idempotent_plain_witness :
  (hasByte "[" "::1" = false ∧ hasByte "]" "::1" = false
   ∧ hasByte ":" "9108" = false ∧ hasByte "[" "9108" = false
   ∧ hasByte "]" "9108" = false)
  ∧ normalizeAddress "::1" "9108" = "[::1]:9108"
  ∧ normalizeAddress (normalizeAddress "::1" "9108") "9108"
    = normalizeAddress "::1" "9108".
Proof.
  assert (Hplain : hasByte "[" "::1" = false ∧ hasByte "]" "::1" = false
                   ∧ hasByte ":" "9108" = false ∧ hasByte "[" "9108" = false
                   ∧ hasByte "]" "9108" = false)
    by (repeat split; reflexivity).
  split; [exact Hplain|]. split; [reflexivity|].
  exact (proj2 (normalizeAddress_idempotent_plain "::1" "9108"
                  (or_intror Hplain))).
Defined.

(** C10 as stated fails: joining "[" and a port gives "[:9108", which
    does not parse, so a second application changes it again. *)
Lemma normalizeAddress_not_idempotent :
  normalizeAddress "[" "9108" = "[:9108"
  ∧ normalizeAddress (normalizeAddress "[" "9108") "9108" = "[[:9108]:9108"
  ∧ normalizeAddress (normalizeAddress "[" "9108") "9108"
    ≠ normalizeAddress "[" "9108".
Proof. repeat split; try reflexivity. vm_compute. discriminate. Qed.

End NormalizeAddress.

(** ** The definitions at given inputs *)

Section Examples.

Example ServiceFlag_String_network : ServiceFlag_String SFNodeNetwork = "SFNodeNetwork".
Proof. reflexivity. Qed.

Example ServiceFlag_String_all :
  ServiceFlag_String 7 = "SFNodeNetwork|SFNodeBloom|SFNodeCF".
Proof. reflexivity. Qed.

Example ServiceFlag_String_unknown : ServiceFlag_String 8 = "0x8".
Proof. reflexivity. Qed.

Example ServiceFlag_String_max :
  ServiceFlag_String (2 ^ 64 - 1)
  = "SFNodeNetwork|SFNodeBloom|SFNodeCF|0xfffffffffffffff8".
Proof. reflexivity. Qed.

Example CurrencyNet_String_unknown :
  CurrencyNet_String 7 = "Unknown CurrencyNet (7)".
Proof. reflexivity. Qed.

Example FormatUint_hex : FormatUint 255 16 = "ff".
Proof. reflexivity. Qed.

Example SplitHostPort_ipv6 : SplitHostPort "[::1]:9108" = inl ("::1", "9108").
Proof. reflexivity. Qed.

Example SplitHostPort_name : SplitHostPort "localhost:80" = inl ("localhost", "80").
Proof. reflexivity. Qed.

Example SplitHostPort_no_port : SplitHostPort "localhost" = inr MissingPort.
Proof. reflexivity. Qed.

Example SplitHostPort_colons : SplitHostPort "::1" = inr TooManyColons.
Proof. reflexivity. Qed.

Example SplitHostPort_open_bracket : SplitHostPort "[:9108" = inr MissingCloseBracket.
Proof. reflexivity. Qed.

Example SplitHostPort_stray_bracket : SplitHostPort "a]:80" = inr UnexpectedCloseBracket.
Proof. reflexivity. Qed.

Example JoinHostPort_ipv6 : JoinHostPort "::1" "9108" = "[::1]:9108".
Proof. reflexivity. Qed.

Example normalizeAddresses_listeners :
  normalizeAddresses ["10.0.0.1"; "10.0.0.1:9108"; "::1"; "10.0.0.1"] "9108"
  = ["10.0.0.1:9108"; "[::1]:9108"].
Proof. vm_compute. reflexivity. Qed.

Example minUint32_block_sizes : minUint32 20000 375000 = 20000.
Proof. reflexivity. Qed.

Example dcrdMain_quiet :
  result (dcrdMain quietWorld) = Returned None
  ∧ EvServerStart ∈ trace (dcrdMain quietWorld).
Proof.
  split; [vm_compute; reflexivity|].
  apply (bool_decide_unpack _). vm_compute. exact I.
Qed.

Example main_exits_on_config_error :
  result (main shortBanWorld) = Exited 1.
Proof. vm_compute. reflexivity. Qed.

End Examples.

(** * Further properties of the code *)

(** ** [removeDuplicateAddresses]: fixed points, length, concatenation *)

Section RemoveDuplicatesMore.

(** One more element: it is appended exactly when it is new. *)
Lemma removeDuplicateAddresses_snoc (addrs : list string) (val : string) :
  removeDuplicateAddresses (addrs ++ [val])
  = if decide (val ∈ addrs) then removeDuplicateAddresses addrs
    else removeDuplicateAddresses addrs ++ [val].
Proof.
  unfold removeDuplicateAddresses. rewrite foldl_snoc.
  pose proof (dedupInv_loop addrs) as Hinv.
  destruct (foldl dedupStep ([], ∅) addrs) as [result seen].
  destruct Hinv as (Hseen & _ & Hmem & _).
  unfold dedupStep.
  destruct (decide (val ∈ seen)) as [Hin|Hnotin];
    destruct (decide (val ∈ addrs)) as [Hin'|Hnotin']; try reflexivity.
  - exfalso. apply Hnotin'. apply Hmem, Hseen, Hin.
  - exfalso. apply Hnotin. apply Hseen, Hmem, Hin'.
Qed.

Lemma removeDuplicateAddresses_NoDup_id (addrs : list string) :
  NoDup addrs → removeDuplicateAddresses addrs = addrs.
Proof.
  induction addrs as [|val addrs IH] using rev_ind; [reflexivity|].
  intros [Hnodup [Hfresh _]]%NoDup_app.
  rewrite removeDuplicateAddresses_snoc, (IH Hnodup).
  destruct (decide (val ∈ addrs)) as [Hin|_]; [|reflexivity].
  exfalso. apply (Hfresh val Hin). by apply list_elem_of_singleton.
Qed.

Lemma removeDuplicateAddresses_NoDup (addrs : list string) :
  NoDup (removeDuplicateAddresses addrs).
Proof.
  unfold removeDuplicateAddresses.
  pose proof (dedupInv_loop addrs) as Hinv.
  destruct (foldl dedupStep ([], ∅) addrs) as [result seen].
  by destruct Hinv as (_ & Hnodup & _).
Qed.

Lemma removeDuplicateAddresses_elem (addrs : list string) (x : string) :
  x ∈ removeDuplicateAddresses addrs ↔ x ∈ addrs.
Proof.
  unfold removeDuplicateAddresses.
  pose proof (dedupInv_loop addrs) as Hinv.
  destruct (foldl dedupStep ([], ∅) addrs) as [result seen].
  destruct Hinv as (_ & _ & Hmem & _). apply Hmem.
Qed.

Lemma removeDuplicateAddresses_length_le (addrs : list string) :
  (length (removeDuplicateAddresses addrs) ≤ length addrs)%nat.
Proof.
  induction addrs as [|val addrs IH] using rev_ind; [reflexivity|].
  rewrite removeDuplicateAddresses_snoc.
  destruct (decide (val ∈ addrs)); rewrite !length_app; cbn [length]; lia.
Qed.

(** X1. A slice without repetition is returned as it is, so removing the
    duplicates twice is the same as removing them once. *)
Theorem removeDuplicateAddresses_idempotent (addrs : list string) :
  (NoDup addrs → removeDuplicateAddresses addrs = addrs)
  ∧ removeDuplicateAddresses (removeDuplicateAddresses addrs)
    = removeDuplicateAddresses addrs.
Proof.
  split; [apply removeDuplicateAddresses_NoDup_id|].
  apply removeDuplicateAddresses_NoDup_id, removeDuplicateAddresses_NoDup.
Qed.

(** X1, for three distinct peers. *)
Lemma removeDuplicateAddresses_idempotent_witness :
  NoDup ["a:1"; "b:2"; "c:3"]
  ∧ removeDuplicateAddresses ["a:1"; "b:2"; "c:3"] = ["a:1"; "b:2"; "c:3"].
Proof.
  assert (Hnodup : NoDup ["a:1"; "b:2"; "c:3"]).
  { apply (bool_decide_unpack _). vm_compute. exact I. }
  split; [exact Hnodup|].
  exact (proj1 (removeDuplicateAddresses_idempotent _) Hnodup).
Defined.

(** X2. The result is never longer than the input, it is empty only for
    an empty input, and it is as long as the input exactly when the input
    has no repetition. *)
Theorem removeDuplicateAddresses_length (addrs : list string) :
  (length (removeDuplicateAddresses addrs) ≤ length addrs)%nat
  ∧ (removeDuplicateAddresses addrs = [] ↔ addrs = [])
  ∧ (length (removeDuplicateAddresses addrs) = length addrs ↔ NoDup addrs).
Proof.
  split; [apply removeDuplicateAddresses_length_le|]. split.
  - split; [|by intros ->].
    intros Hnil. destruct addrs as [|val addrs]; [reflexivity|].
    assert (Hin : val ∈ removeDuplicateAddresses (val :: addrs))
      by (apply removeDuplicateAddresses_elem; left).
    rewrite Hnil in Hin. by apply elem_of_nil in Hin.
  - split; [|by intros ->%removeDuplicateAddresses_NoDup_id].
    induction addrs as [|val addrs IH] using rev_ind; [constructor|].
    rewrite removeDuplicateAddresses_snoc.
    pose proof (removeDuplicateAddresses_length_le addrs) as Hle.
    destruct (decide (val ∈ addrs)) as [Hin|Hnotin];
      rewrite !length_app; cbn [length]; intros Hlen; [lia|].
    apply NoDup_app. split; [apply IH; lia|]. split.
    + intros x Hx ->%list_elem_of_singleton. contradiction.
    + apply NoDup_singleton.
Qed.

(** X2, for an input with and an input without repetition. *)
Lemma removeDuplicateAddresses_length_witness :
  length (removeDuplicateAddresses ["a"; "b"; "a"]) = 2%nat
  ∧ ["a"; "b"; "a"] ≠ []
  ∧ removeDuplicateAddresses ["a"; "b"; "a"] ≠ []
  ∧ ¬ NoDup ["a"; "b"; "a"].
Proof.
  assert (Hne : ["a"; "b"; "a"] ≠ ([] : list string)) by discriminate.
  destruct (removeDuplicateAddresses_length ["a"; "b"; "a"])
    as (_ & Hnil & Hlen).
  split; [reflexivity|]. split; [exact Hne|]. split.
  - intros Hempty. exact (Hne (proj1 Hnil Hempty)).
  - intros Hnodup. apply (proj2 Hlen) in Hnodup. discriminate Hnodup.
Defined.

(** X3. Removing the duplicates of a concatenation: those of the first
    part, followed by those of the second part that the first part does
    not hold. *)
Theorem removeDuplicateAddresses_app (addrs1 addrs2 : list string) :
  removeDuplicateAddresses (addrs1 ++ addrs2)
  = removeDuplicateAddresses addrs1
    ++ filter (λ x, x ∉ addrs1) (removeDuplicateAddresses addrs2).
Proof.
  induction addrs2 as [|val addrs2 IH] using rev_ind.
  - by rewrite !app_nil_r.
  - rewrite app_assoc, !removeDuplicateAddresses_snoc, IH.
    destruct (decide (val ∈ addrs2)) as [Hin2|Hnotin2].
    + rewrite decide_True by (apply elem_of_app; by right). reflexivity.
    + rewrite filter_app, filter_cons, filter_nil.
      destruct (decide (val ∈ addrs1 ++ addrs2)) as [Hin|Hnotin];
        destruct (decide (val ∉ addrs1)) as [Hnotin1|Hin1].
      * apply elem_of_app in Hin as [?|?]; contradiction.
      * by rewrite app_nil_r.
      * by rewrite app_assoc.
      * exfalso. apply Hin1. intros Hin1'. apply Hnotin, elem_of_app. by left.
Qed.

End RemoveDuplicatesMore.

(** ** [normalizeAddress] and [normalizeAddresses]: shapes and fixed points *)

Section NormalizeMore.

#[local] Arguments String.append !_ _ / : simpl nomatch.

Lemma SplitHostPort_no_colon (addr : string) :
  hasByte ":" addr = false → SplitHostPort addr = inr MissingPort.
Proof.
  intros Hcol. unfold SplitHostPort. by rewrite (last_absent _ _ Hcol).
Qed.

Lemma JoinHostPort_shape (host port : string) :
  JoinHostPort host port
  = if hasByte ":" host then "[" +:+ host +:+ "]:" +:+ port
    else host +:+ ":" +:+ port.
Proof.
  unfold JoinHostPort. destruct (hasByte ":" host) eqn:Hcol.
  - pose proof (IndexByteString_present _ _ Hcol).
    destruct (Z.leb_spec 0 (IndexByteString host ":")); [reflexivity | lia].
  - by rewrite (IndexByteString_absent _ _ Hcol).
Qed.

(** What [normalizeAddress] returns parses, for an address that parses or
    has no bracket and a plain port. *)
Lemma normalizeAddress_parses (addr defaultPort : string) :
  parses addr ∨ bracketFree addr → plainPort defaultPort →
  parses (normalizeAddress addr defaultPort).
Proof.
  intros Haddr (Hpcol & Hpo & Hpc). unfold normalizeAddress.
  destruct (SplitHostPort addr) as [hp|e] eqn:Hsplit.
  - by exists hp.
  - destruct Haddr as [[hp Hhp]|[Hao Hac]]; [congruence|].
    exists (addr, defaultPort). by apply SplitHostPort_Join.
Qed.

(** X4. An address without colon, the empty one included, gets ":" and
    the default port appended; an address with a colon is returned as it
    is or, when it does not parse, put in brackets before ":" and the
    port. *)
Theorem normalizeAddress_shapes (addr defaultPort : string) :
  (hasByte ":" addr = false →
   normalizeAddress addr defaultPort = addr +:+ ":" +:+ defaultPort)
  ∧ (hasByte ":" addr = true →
     (parses addr ∧ normalizeAddress addr defaultPort = addr)
     ∨ (¬ parses addr
        ∧ normalizeAddress addr defaultPort
          = "[" +:+ addr +:+ "]:" +:+ defaultPort)).
Proof.
  unfold normalizeAddress, parses. split; intros Hcol.
  - by rewrite (SplitHostPort_no_colon _ Hcol), JoinHostPort_shape, Hcol.
  - destruct (SplitHostPort addr) as [hp|e].
    + left. split; [by exists hp | reflexivity].
    + right. split; [intros [hp Hhp]; discriminate Hhp|].
      by rewrite JoinHostPort_shape, Hcol.
Qed.

(** X4, for a host name, the empty address and an IPv6 address. *)
Lemma normalizeAddress_shapes_witness :
  normalizeAddress "example.org" "9108" = "example.org:9108"
  ∧ normalizeAddress "" "9108" = ":9108"
  ∧ normalizeAddress "::1" "9108" = "[::1]:9108".
Proof.
  split; [|split].
  - apply (proj1 (normalizeAddress_shapes "example.org" "9108")). reflexivity.
  - apply (proj1 (normalizeAddress_shapes "" "9108")). reflexivity.
  - destruct (proj2 (normalizeAddress_shapes "::1" "9108") eq_refl)
      as [[[hp Hhp] _]|[_ Hshape]]; [discriminate Hhp | exact Hshape].
Defined.

(** X5. With a plain default port, every address [normalizeAddresses]
    returns parses as host:port, provided each input address parses or
    has no square bracket. *)
Theorem normalizeAddresses_all_parse (addrs : list string)
  (defaultPort : string) :
  plainPort defaultPort →
  Forall (λ addr, parses addr ∨ bracketFree addr) addrs →
  Forall parses (normalizeAddresses addrs defaultPort).
Proof.
  intros Hport Haddrs. unfold normalizeAddresses.
  rewrite normalizeInPlace_map. apply Forall_forall.
  intros x [a [-> Ha]]%removeDuplicateAddresses_elem%list_elem_of_fmap.
  apply normalizeAddress_parses; [|assumption].
  by apply (proj1 (Forall_forall _ _) Haddrs).
Qed.

(** X5, for the listeners of a configuration file. *)
Lemma normalizeAddresses_all_parse_witness :
  plainPort "9108"
  ∧ Forall (λ addr, parses addr ∨ bracketFree addr)
      ["10.0.0.1"; "[::1]:9108"; "::1"]
  ∧ Forall parses (normalizeAddresses ["10.0.0.1"; "[::1]:9108"; "::1"] "9108").
Proof.
  assert (Hport : plainPort "9108") by (repeat split; reflexivity).
  assert (Haddrs : Forall (λ addr, parses addr ∨ bracketFree addr)
                     ["10.0.0.1"; "[::1]:9108"; "::1"]).
  { repeat apply Forall_cons_2; [| | |apply Forall_nil_2].
    - right. split; reflexivity.
    - left. by exists ("::1", "9108").
    - right. split; reflexivity. }
  split; [exact Hport|]. split; [exact Haddrs|].
  exact (normalizeAddresses_all_parse _ _ Hport Haddrs).
Defined.

(** X6. Under the same conditions, normalizing an already normalized
    list changes nothing. *)
Theorem normalizeAddresses_idempotent (addrs : list string)
  (defaultPort : string) :
  plainPort defaultPort →
  Forall (λ addr, parses addr ∨ bracketFree addr) addrs →
  normalizeAddresses (normalizeAddresses addrs defaultPort) defaultPort
  = normalizeAddresses addrs defaultPort.
Proof.
  intros Hport Haddrs.
  assert (Hfix : Forall (λ x, normalizeAddress x defaultPort = x)
                   (normalizeAddresses addrs defaultPort)).
  { unfold normalizeAddresses. rewrite normalizeInPlace_map.
    apply Forall_forall.
    intros x [a [-> Ha]]%removeDuplicateAddresses_elem%list_elem_of_fmap.
    destruct (normalizeAddress_parses a defaultPort) as [hp Hhp];
      [by apply (proj1 (Forall_forall _ _) Haddrs) | assumption |].
    by eapply normalizeAddress_parsed. }
  unfold normalizeAddresses at 1. rewrite normalizeInPlace_map.
  replace ((λ addr, normalizeAddress addr defaultPort)
             <$> normalizeAddresses addrs defaultPort)
    with (normalizeAddresses addrs defaultPort).
  - apply removeDuplicateAddresses_NoDup_id.
    unfold normalizeAddresses. apply removeDuplicateAddresses_NoDup.
  - symmetry. induction Hfix as [|x l Hx _ IH]; [reflexivity|].
    cbn [fmap list_fmap]. by rewrite Hx, IH.
Qed.

(** X6, for listeners given with and without port. *)
Lemma normalizeAddresses_idempotent_witness :
  normalizeAddresses ["10.0.0.1"; "10.0.0.1:9108"; "::1"] "9108"
  = ["10.0.0.1:9108"; "[::1]:9108"]
  ∧ normalizeAddresses
      (normalizeAddresses ["10.0.0.1"; "10.0.0.1:9108"; "::1"] "9108") "9108"
    = normalizeAddresses ["10.0.0.1"; "10.0.0.1:9108"; "::1"] "9108".
Proof.
  split; [vm_compute; reflexivity|].
  apply normalizeAddresses_idempotent.
  - repeat split; reflexivity.
  - repeat apply Forall_cons_2; try apply Forall_nil_2;
      right; split; reflexivity.
Defined.

End NormalizeMore.

(** ** [loadConfig]: what a returned configuration or error guarantees *)

Section LoadConfigMore.

(** Case on the innermost test of a term. *)
Ltac inner_case e :=
  match e with
  | context [match ?s with _ => _ end] =>
      lazymatch s with
      | context [match _ with _ => _ end] => fail
      | _ => destruct s eqn:?
      end
  end; cbv beta iota.

(** Symbolic execution of a [proc] under [result], with a case analysis
    on the tests inside a [let] and inside the value a [match] looks at. *)
Ltac run_proc :=
  rewrite ?result_bind;
  cbn beta iota delta
    [result snd mret proc_ret Proc.ret emit os_Exit panic failWith].

Ltac solve_returns :=
  solve [ repeat first
            [ reflexivity
            | match goal with
              | |- context [match ?s with _ => _ end] => destruct s
              end ] ].

Ltac name_let :=
  lazymatch goal with
  | |- ?P (result (let x := ?e in @?b x)) =>
      let y := fresh x in
      pose (y := e); change (P (result (b y))); cbv beta
  end.

Ltac exec_step_cases :=
  lazymatch goal with
  | |- ?P (result ?prog) =>
      lazymatch prog with
      | (let x := ?e in @?b x) =>
          first [ inner_case e
                | let y := fresh x in
                  pose (y := e); change (P (result (b y))); cbv beta ]
      | mbind ?f ?m =>
          first [ let H := fresh in
                  assert (H : result m = Returned tt) by solve_returns;
                  rewrite (result_bind f m), H; clear H; cbv beta iota
                | rewrite (result_bind f m); run_proc ]
      | match ?s with _ => _ end =>
          first [ inner_case s | destruct s eqn:?; cbv beta iota ]
      end
  end.

Lemma validDbTypeIn_elem (known : list string) (dbType : string) :
  validDbTypeIn known dbType = true ↔ dbType ∈ known.
Proof.
  induction known as [|k known IH]; cbn [validDbTypeIn].
  - split; [discriminate | by intros ?%elem_of_nil].
  - destruct (String.eqb_spec dbType k) as [->|Hne].
    + split; [left | reflexivity].
    + rewrite IH. split; [by right|].
      intros [?|?]%elem_of_cons; [contradiction | assumption].
Qed.

Lemma minUint32_le_r (a b : Z) : minUint32 a b <= b.
Proof. unfold minUint32. destruct (Z.ltb_spec a b); lia. Qed.

Lemma decodeMiningAddrs_inl (w : World) (strs : list string)
  (acc res : list Address) :
  decodeMiningAddrs w strs acc = inl res →
  ∃ new, res = acc ++ new
         ∧ Forall2 (λ s a, dcrutil_DecodeAddress w s = Some a
                           ∧ IsForNet w a = true) strs new.
Proof.
  revert acc. induction strs as [|s strs IH]; intros acc; cbn [decodeMiningAddrs].
  - intros [= <-]. exists []. by rewrite app_nil_r.
  - destruct (dcrutil_DecodeAddress w s) as [a|] eqn:Hdec; [|discriminate].
    destruct (IsForNet w a) eqn:Hnet; cbn [negb]; [|discriminate].
    intros (new & -> & Hall)%IH. exists (a :: new).
    split; [by rewrite <- app_assoc|]. by constructor.
Qed.

Lemma decodeMiningAddrs_inr (w : World) (strs : list string)
  (acc : list Address) (e : error) :
  decodeMiningAddrs w strs acc = inr e →
  ∃ addr, addr ∈ strs
    ∧ ((e = ErrMiningAddrDecode addr ∧ dcrutil_DecodeAddress w addr = None)
       ∨ (e = ErrMiningAddrWrongNet addr
          ∧ ∃ a, dcrutil_DecodeAddress w addr = Some a
                 ∧ IsForNet w a = false)).
Proof.
  revert acc. induction strs as [|s strs IH]; intros acc; cbn [decodeMiningAddrs].
  - discriminate.
  - destruct (dcrutil_DecodeAddress w s) as [a|] eqn:Hdec.
    + destruct (IsForNet w a) eqn:Hnet; cbn [negb].
      * intros (addr & Hin & Hwhy)%IH. exists addr. split; [by right | exact Hwhy].
      * intros [= <-]. exists s. split; [left|]. right. split; [reflexivity|].
        by exists a.
    + intros [= <-]. exists s. split; [left|]. by left.
Qed.

Lemma checkTLSListeners_None (addrs : list string) :
  checkTLSListeners addrs = None → Forall localTLSHost addrs.
Proof.
  induction addrs as [|addr addrs IH]; cbn [checkTLSListeners].
  - intros _. apply Forall_nil_2.
  - destruct (SplitHostPort addr) as [[host port]|why] eqn:Hsplit; [|discriminate].
    destruct (decide (host ∈ allowedTLSListeners)) as [Hin|]; [|discriminate].
    intros Hrest. apply Forall_cons_2; [|by apply IH].
    by exists host, port.
Qed.

Lemma checkTLSListeners_Some (addrs : list string) (e : error) :
  checkTLSListeners addrs = Some e →
  ∃ addr, addr ∈ addrs
    ∧ ((∃ why, e = ErrRPCListenInvalid addr why ∧ SplitHostPort addr = inr why)
       ∨ (e = ErrNoTLSNonLocal addr
          ∧ ∃ host port, SplitHostPort addr = inl (host, port)
                         ∧ host ∉ allowedTLSListeners)).
Proof.
  induction addrs as [|addr addrs IH]; cbn [checkTLSListeners]; [discriminate|].
  destruct (SplitHostPort addr) as [[host port]|why] eqn:Hsplit.
  - destruct (decide (host ∈ allowedTLSListeners)) as [Hin|Hnotin].
    + intros (a & Ha & Hwhy)%IH. exists a. split; [by right | exact Hwhy].
    + intros [= <-]. exists addr. split; [left|]. right.
      split; [reflexivity|]. by exists host, port.
  - intros [= <-]. exists addr. split; [left|]. left. by exists why.
Qed.

(** [parseNetworkInterfaces] writes the two network infos and nothing
    else, and fails only when [parseListeners] does. *)
Lemma parseNetworkInterfaces_shape (w : World) (cfg cfg' : config)
  (err : option error) :
  parseNetworkInterfaces w cfg = (cfg', err) →
  (∃ info4 info6, cfg' = set_ipv6NetInfo info6 (set_ipv4NetInfo info4 cfg))
  ∧ (∀ e, err = Some e →
       e = ErrParseListeners ∧ parseListeners w (Listeners cfg) = None).
Proof.
  unfold parseNetworkInterfaces.
  destruct (parseListeners w (Listeners cfg)) as [[v4Addrs v6Addrs]|].
  - destruct (0 <? Z.of_nat (length v4Addrs));
      destruct (0 <? Z.of_nat (length v6Addrs));
      intros [= <- <-]; (split; [|discriminate]).
    + lazymatch goal with
      | |- ∃ _ _, set_ipv6NetInfo ?j (set_ipv4NetInfo ?i _) = _ => exists i, j
      end. reflexivity.
    + lazymatch goal with
      | |- ∃ _ _, set_ipv4NetInfo ?i _ = _ => exists i, (ipv6NetInfo cfg)
      end. reflexivity.
    + lazymatch goal with
      | |- ∃ _ _, set_ipv6NetInfo ?j _ = _ => exists (ipv4NetInfo cfg), j
      end. reflexivity.
    + exists (ipv4NetInfo cfg), (ipv6NetInfo cfg). reflexivity.
  - intros [= <- <-]. split.
    + exists (ipv4NetInfo cfg), (ipv6NetInfo cfg). reflexivity.
    + by intros e [= <-].
Qed.

Lemma parseNetworkInterfaces_ok (w : World) (cfg cfg' : config) :
  parseNetworkInterfaces w cfg = (cfg', None) →
  parseListeners w (Listeners cfg) ≠ None.
Proof.
  unfold parseNetworkInterfaces.
  by destruct (parseListeners w (Listeners cfg)) as [[v4Addrs v6Addrs]|].
Qed.

Lemma normalizeAddresses_nonempty (addrs : list string) (defaultPort : string) :
  addrs ≠ [] → normalizeAddresses addrs defaultPort ≠ [].
Proof.
  intros Hne Hnil. destruct addrs as [|addr addrs]; [by apply Hne|].
  assert (Hin : normalizeAddress addr defaultPort
                ∈ normalizeAddresses (addr :: addrs) defaultPort).
  { unfold normalizeAddresses. rewrite normalizeInPlace_map.
    apply removeDuplicateAddresses_elem. left. }
  rewrite Hnil in Hin. by apply elem_of_nil in Hin.
Qed.

Ltac unfold_configs :=
  repeat match goal with x := _ : config |- _ => subst x end;
  repeat match goal with x := _ : Z |- _ => subst x end.

(** Replace the equations on the loops by what the loops establish. *)
Ltac leaf_facts :=
  repeat match goal with
  | H : parseNetworkInterfaces _ _ = (_, ?err) |- _ =>
      try (lazymatch err with
           | None =>
               let Hp := fresh "Hparsed" in
               pose proof (parseNetworkInterfaces_ok _ _ _ H) as Hp
           end);
      apply parseNetworkInterfaces_shape in H;
      let i4 := fresh "info4" in
      let i6 := fresh "info6" in
      let Hl := fresh "Hlisten" in
      destruct H as [(i4 & i6 & ->) Hl]
  | H : decodeMiningAddrs _ _ [] = inl _ |- _ =>
      apply decodeMiningAddrs_inl in H;
      let new := fresh "decoded" in
      let Hm := fresh "Hmining" in
      destruct H as (new & -> & Hm)
  | H : decodeMiningAddrs _ _ [] = inr _ |- _ =>
      apply decodeMiningAddrs_inr in H
  | H : checkTLSListeners _ = None |- _ =>
      apply checkTLSListeners_None in H
  | H : checkTLSListeners _ = Some _ |- _ =>
      apply checkTLSListeners_Some in H
  end.

Lemma length_zero_nil {A} (l : list A) :
  (Z.of_nat (length l) =? 0) = true → l = [].
Proof. destruct l; [reflexivity | discriminate]. Qed.

Lemma length_nonzero {A} (l : list A) :
  (Z.of_nat (length l) =? 0) = false → l ≠ [].
Proof. by intros Hlen ->. Qed.

(** State the tests of a branch on the configuration [c] that was read:
    every later configuration is [c] with some fields set, so each test
    converts. *)
Ltac norm_tests c :=
  try match goal with
      | H : negb (validDbType ?w (DbType _)) = ?b |- _ =>
          change (negb (validDbType w (DbType c)) = b) in H
      end;
  try match goal with
      | H : (BanDuration _ <? time_Second) = ?b |- _ =>
          change ((BanDuration c <? time_Second) = b) in H
      end;
  try match goal with
      | H : (Z.of_nat (length (Listeners _)) =? 0) = ?b |- _ =>
          change ((Z.of_nat (length (Listeners c)) =? 0) = b) in H
      end;
  try match goal with
      | H : (String.eqb (RPCUser _) "" || String.eqb (RPCPass _) "") = ?b |- _ =>
          change ((String.eqb (RPCUser c) "" || String.eqb (RPCPass c) "") = b)
            in H
      end;
  try match goal with
      | H : dcrutil_NewAmount ?w (MinRelayTxFee _) = ?r |- _ =>
          change (dcrutil_NewAmount w (MinRelayTxFee c) = r) in H
      end;
  try match goal with
      | Hs : MaximumBlockSizes _ = ?size0 :: _,
        H : (BlockMaxSize _ <? blockMaxSizeMin) || (_ <? BlockMaxSize _) = ?b
        |- _ =>
          change ((BlockMaxSize c <? blockMaxSizeMin)
                  || (uint32_wrap (uint32_wrap size0 - 1000) <? BlockMaxSize c)
                  = b) in H
      end;
  try match goal with
      | H : (MaxOrphanTxs _ <? 0) = ?b |- _ =>
          change ((MaxOrphanTxs c <? 0) = b) in H
      end;
  try match goal with
      | H : Generate _ && (Z.of_nat (length (MiningAddrs _)) =? 0) = ?b |- _ =>
          change (Generate c && (Z.of_nat (length (MiningAddrs c)) =? 0) = b)
            in H
      end.

(** The tests that read [DisableRPC] after the credentials check. *)
Ltac rpc_tests c :=
  try match goal with
      | H4 : (String.eqb (RPCUser c) "" || String.eqb (RPCPass c) "") = true,
        H : negb (DisableRPC _)
            && (Z.of_nat (length (RPCListeners _)) =? 0) = ?b |- _ =>
          change (negb true && (Z.of_nat (length (RPCListeners c)) =? 0) = b)
            in H
      | H4 : (String.eqb (RPCUser c) "" || String.eqb (RPCPass c) "") = false,
        H : negb (DisableRPC _)
            && (Z.of_nat (length (RPCListeners _)) =? 0) = ?b |- _ =>
          change (negb (DisableRPC c)
                  && (Z.of_nat (length (RPCListeners c)) =? 0) = b) in H
      end;
  try match goal with
      | H4 : (String.eqb (RPCUser c) "" || String.eqb (RPCPass c) "") = true,
        H : negb (DisableRPC _) && DisableTLS _ = ?b |- _ =>
          change (negb true && DisableTLS c = b) in H
      | H4 : (String.eqb (RPCUser c) "" || String.eqb (RPCPass c) "") = false,
        H : negb (DisableRPC _) && DisableTLS _ = ?b |- _ =>
          change (negb (DisableRPC c) && DisableTLS c = b) in H
      end.

(** One conjunct of [checkedConfig] or [keptOptions] at the end of a
    run; [c] is the configuration that was read. *)
Ltac config_goal w c :=
  lazymatch goal with
  | |- Listeners _ ≠ [] =>
      lazymatch goal with
      | H : (Z.of_nat (length (Listeners c)) =? 0) = true |- _ =>
          change (normalizeAddresses
                    [JoinHostPort "" (DefaultPort (activeNetParams w))]
                    (DefaultPort (activeNetParams w)) ≠ []);
          apply normalizeAddresses_nonempty; discriminate
      | H : (Z.of_nat (length (Listeners c)) =? 0) = false |- _ =>
          change (normalizeAddresses (Listeners c)
                    (DefaultPort (activeNetParams w)) ≠ []);
          apply normalizeAddresses_nonempty, length_nonzero, H
      end
  | |- DbType _ ∈ _ =>
      change (DbType c ∈ knownDbTypes w); apply validDbTypeIn_elem;
      lazymatch goal with
      | H : negb (validDbType _ _) = false |- _ =>
          apply negb_false_iff in H; exact H
      end
  | |- ∃ size0 rest, _ =>
      lazymatch goal with
      | Hs : MaximumBlockSizes _ = ?z :: ?l,
        H : (BlockMaxSize c <? _) || _ = false |- _ =>
          exists z, l; split; [exact Hs|];
          change (blockMaxSizeMin <= BlockMaxSize c
                  <= uint32_wrap (uint32_wrap z - 1000));
          apply orb_false_iff in H; rewrite !Z.ltb_ge in H; lia
      end
  | |- BlockPrioritySize _ <= BlockMaxSize _ =>
      exact (minUint32_le_r (BlockPrioritySize c) (BlockMaxSize c))
  | |- BlockMinSize _ <= BlockMaxSize _ =>
      exact (minUint32_le_r (BlockMinSize c) (BlockMaxSize c))
  | |- 0 <= MaxOrphanTxs _ =>
      change (0 <= MaxOrphanTxs c);
      lazymatch goal with
      | H : (MaxOrphanTxs c <? 0) = false |- _ => apply Z.ltb_ge in H; exact H
      end
  | |- _ ∨ _ → DisableRPC _ = true =>
      lazymatch goal with
      | H : (String.eqb (RPCUser c) "" || String.eqb (RPCPass c) "") = true
        |- _ => intros _; reflexivity
      | H : (String.eqb (RPCUser c) "" || String.eqb (RPCPass c) "") = false
        |- _ =>
          apply orb_false_iff in H;
          let Hu := fresh in
          let Hp := fresh in
          let Hx := fresh in
          destruct H as [Hu%String.eqb_neq Hp%String.eqb_neq];
          intros [Hx|Hx]; exfalso; [exact (Hu Hx) | exact (Hp Hx)]
      end
  | |- DisableRPC _ = false → DisableTLS _ = true → Forall _ _ =>
      lazymatch goal with
      | H : Forall localTLSHost _ |- _ => intros _ _; exact H
      | H : negb ?d && DisableTLS c = false |- _ =>
          let Hd := fresh in
          let Ht := fresh in
          intros Hd Ht; exfalso;
          change (d = false) in Hd; change (DisableTLS c = true) in Ht;
          first [ discriminate Hd
                | rewrite Hd, Ht in H; cbv in H; discriminate H ]
      end
  | |- Forall2 _ _ _ =>
      lazymatch goal with H : Forall2 _ _ _ |- _ => exact H end
  | |- Generate _ = true → MiningAddrs _ ≠ [] =>
      lazymatch goal with
      | H : Generate c && _ = false |- _ =>
          let Hg := fresh in
          let Hnil := fresh in
          intros Hg Hnil;
          change (Generate c = true) in Hg; change (MiningAddrs c = []) in Hnil;
          rewrite Hg, Hnil in H; cbv in H; discriminate H
      end
  | |- dcrutil_NewAmount _ _ = Some _ =>
      lazymatch goal with H : dcrutil_NewAmount _ _ = Some _ |- _ => exact H end
  | |- DisableRPC _ = _ || _ || _ =>
      lazymatch goal with
      | H : (String.eqb (RPCUser c) "" || String.eqb (RPCPass c) "") = true
        |- _ => rewrite <- orb_assoc, H, orb_true_r; reflexivity
      | H : (String.eqb (RPCUser c) "" || String.eqb (RPCPass c) "") = false
        |- _ => rewrite <- orb_assoc, H, orb_false_r; reflexivity
      end
  | |- Listeners _ = normalizeAddresses _ _ =>
      lazymatch goal with
      | H : (Z.of_nat (length (Listeners c)) =? 0) = _ |- _ =>
          rewrite H; reflexivity
      end
  | |- if _ then _ else _ =>
      lazymatch goal with
      | H : negb ?d && (Z.of_nat (length (RPCListeners c)) =? 0) = _ |- _ =>
          lazymatch goal with
          | |- context [DisableRPC ?x] => change (DisableRPC x) with d
          end;
          rewrite H;
          first [ reflexivity
                | eexists; split; [eassumption | reflexivity] ]
      end
  | |- configFileError _ ≠ _ =>
      lazymatch goal with
      | H : configFileError _ = _ |- _ => rewrite H; discriminate
      end
  | |- os_MkdirAll _ _ = None => assumption
  | |- parseListeners _ _ ≠ None =>
      lazymatch goal with
      | H : (Z.of_nat (length (Listeners c)) =? 0) = _,
        Hp : parseListeners _ _ ≠ None |- _ => rewrite H; exact Hp
      end
  | |- _ = _ => reflexivity
  end.

(** The two errors of the loop over the RPC listeners. *)
Ltac tls_error c :=
  lazymatch goal with
  | H : negb true && _ = true |- _ => cbv in H; discriminate H
  | H4 : (String.eqb (RPCUser c) "" || String.eqb (RPCPass c) "") = false,
    H5 : negb (DisableRPC c) && (Z.of_nat (length (RPCListeners c)) =? 0) = _,
    H7 : negb (DisableRPC c) && DisableTLS c = true,
    Hin : _ ∈ RPCListeners _ |- _ =>
      rewrite <- !orb_assoc, H4, orb_false_r, H5;
      apply andb_true_iff in H7;
      split; [exact (proj1 H7)|]; split; [exact (proj2 H7)|];
      split;
      [ try lazymatch goal with
            | Hl : net_LookupHost _ _ = Some _ |- _ => rewrite Hl
            end;
        eexists; split; [reflexivity | exact Hin]
      | assumption ]
  end.

(** An error leaf, after the loops' facts were opened. *)
Ltac error_goal w c e :=
  lazymatch e with
  | ErrIniParse => assumption
  | ErrCreateHomeDir _ =>
      lazymatch goal with
      | H : os_MkdirAll _ _ = Some _ |- _ => rewrite H; discriminate
      end
  | ErrInvalidDbType _ =>
      split; [reflexivity|];
      change (DbType c ∉ knownDbTypes w);
      let Hin := fresh in
      intros Hin%validDbTypeIn_elem;
      lazymatch goal with
      | H : negb (validDbType _ _) = true |- _ =>
          unfold validDbType in H; rewrite Hin in H; discriminate H
      end
  | ErrBanDuration _ =>
      split; [reflexivity|];
      change (BanDuration c < time_Second); apply Z.ltb_lt; assumption
  | ErrLookupHost =>
      lazymatch goal with
      | H : negb true && _ = true |- _ => cbv in H; discriminate H
      | H4 : (String.eqb (RPCUser c) "" || String.eqb (RPCPass c) "") = false,
        H : negb (DisableRPC c) && _ = true |- _ =>
          apply orb_false_iff in H4;
          let Hu := fresh in
          let Hp := fresh in
          let Hd := fresh in
          let Hl := fresh in
          destruct H4 as [Hu%String.eqb_neq Hp%String.eqb_neq];
          apply andb_true_iff in H;
          destruct H as [Hd%negb_true_iff Hl%length_zero_nil];
          repeat apply conj; assumption
      end
  | ErrMinRelayTxFee => assumption
  | ErrBlockMaxSize _ _ _ =>
      lazymatch goal with
      | Hs : MaximumBlockSizes _ = ?z :: ?l,
        H : (BlockMaxSize c <? _) || _ = true |- _ =>
          split; [reflexivity|];
          split; [exists z, l; split; [exact Hs | reflexivity]|];
          split; [reflexivity|];
          change (BlockMaxSize c < blockMaxSizeMin
                  ∨ uint32_wrap (uint32_wrap z - 1000) < BlockMaxSize c);
          apply orb_true_iff in H; rewrite !Z.ltb_lt in H; exact H
      end
  | ErrMaxOrphanTx _ =>
      split; [reflexivity|];
      change (MaxOrphanTxs c < 0); apply Z.ltb_lt; assumption
  | ErrMiningAddrDecode _ =>
      lazymatch goal with
      | H : _ ∈ MiningAddrs _ |- _ => split; [exact H | assumption]
      end
  | ErrMiningAddrWrongNet _ =>
      lazymatch goal with
      | H : _ ∈ MiningAddrs _ |- _ => split; [exact H | assumption]
      end
  | ErrGenerateNoMiningAddr =>
      lazymatch goal with
      | H : Generate c && _ = true |- _ =>
          apply andb_true_iff in H;
          let Hg := fresh in
          let Hl := fresh in
          destruct H as [Hg Hl%length_zero_nil]; split; assumption
      end
  | ErrRPCListenInvalid _ _ => tls_error c
  | ErrNoTLSNonLocal _ => tls_error c
  | ErrParseListeners =>
      lazymatch goal with
      | H : (Z.of_nat (length (Listeners c)) =? 0) = _,
        Hp : parseListeners _ _ = None |- _ => rewrite H; exact Hp
      end
  end.

(** Open what the loops report about an error. *)
Ltac error_facts :=
  repeat match goal with
  | H : ∃ addr, addr ∈ _ ∧ ((_ = ErrMiningAddrDecode addr ∧ _) ∨ _) |- _ =>
      let addr := fresh "addr" in
      let Hin := fresh "Hin" in
      let Hwhy := fresh "Hwhy" in
      destruct H as (addr & Hin & [[-> Hwhy] | [-> Hwhy]])
  | H : ∃ addr, addr ∈ _ ∧ ((∃ why, _) ∨ _) |- _ =>
      let addr := fresh "addr" in
      let why := fresh "why" in
      let Hin := fresh "Hin" in
      let Hwhy := fresh "Hwhy" in
      destruct H as (addr & Hin & [(why & -> & Hwhy) | [-> Hwhy]])
  | H : ∀ e', Some ?e = Some e' → _ |- _ =>
      let Hp := fresh "Hparse" in
      destruct (H e eq_refl) as [-> Hp]; clear H
  | H : ∀ e', None = Some e' → _ |- _ => clear H
  end.

Lemma loadConfig_returns (w : World) :
  loadConfigReturns w (result (loadConfig w)).
Proof.
  cbv delta [loadConfig when]. cbv beta.
  do 4 name_let.
  destruct (preParse w preCfg) as [preCfg' perr] eqn:Hpre.
  assert (Hloaded : loadedConfig w = fst (parseConfigFile w preCfg' cfg)).
  { unfold loadedConfig. subst preCfg cfg. by rewrite Hpre. }
  assert (Hferr : configFileError w = snd (parseConfigFile w preCfg' cfg)).
  { unfold configFileError. subst preCfg cfg. by rewrite Hpre. }
  cbv beta iota.
  assert (Hrest : ∀ rest : proc loadResult,
            (perr = None ∨ perr = Some OtherParseError →
             loadConfigReturns w (result rest)) →
            loadConfigReturns w
              (result
                 (match perr with
                  | Some (FlagsError t) =>
                      if negb (isErrHelp t)
                      then emit (EvPrint Stderr "%v\n");; os_Exit 1
                      else emit (EvPrint Stdout "%v\n");; os_Exit 0
                  | Some OtherParseError => mret tt
                  | None => mret tt
                  end;; rest))).
  { intros rest Hcont. rewrite result_bind.
    destruct perr as [[t|]|]; [|apply Hcont; auto..].
    destruct (isErrHelp t); exact I. }
  apply Hrest. intros _. clear Hrest Hpre perr.
  repeat exec_step_cases.
  all: run_proc.
  all: cbn beta iota delta [loadConfigReturns].
  all: try exact I.
  all: cbn [fst snd] in Hloaded, Hferr.
  all: leaf_facts.
  all: lazymatch goal with
       | Hl : loadedConfig _ = ?c |- _ => norm_tests c; rpc_tests c
       end.
  all: error_facts.
  all: lazymatch goal with
       | Hl : loadedConfig _ = ?c |- errorJustified _ ?e =>
           cbv beta iota zeta
             delta [errorJustified rpcEnabled effectiveRPCListeners
                    effectiveListeners];
           rewrite ?Hl;
           error_goal w c e
       | Hl : loadedConfig _ = ?c |- (checkedConfig _ ?x ∧ _) ∧ _ =>
           set (final := x);
           cbv beta iota zeta
             delta [checkedConfig keptOptions rpcListenersSet onlyAssigned
                    callsSucceeded effectiveListeners];
           rewrite ?Hl;
           repeat apply conj; config_goal w c
       end.
Qed.

End LoadConfigMore.

Section LoadConfigGuarantees.

Lemma loadConfig_returned (w : World) (t : list event) (cfg : config)
  (args : list string) :
  loadConfig w = (t, Returned (Some cfg, args, None)) →
  checkedConfig w cfg ∧ keptOptions w cfg.
Proof.
  intros Hrun. pose proof (loadConfig_returns w) as Hret.
  rewrite Hrun in Hret. exact (proj1 Hret).
Qed.

Lemma loadConfig_assigned (w : World) (t : list event) (cfg : config)
  (args : list string) :
  loadConfig w = (t, Returned (Some cfg, args, None)) →
  rpcListenersSet w cfg ∧ onlyAssigned cfg (loadedConfig w).
Proof.
  intros Hrun. pose proof (loadConfig_returns w) as Hret.
  rewrite Hrun in Hret. exact (proj1 (proj2 Hret)).
Qed.

Lemma loadConfig_calls (w : World) (t : list event) (cfg : config)
  (args : list string) :
  loadConfig w = (t, Returned (Some cfg, args, None)) → callsSucceeded w.
Proof.
  intros Hrun. pose proof (loadConfig_returns w) as Hret.
  rewrite Hrun in Hret. exact (proj2 (proj2 Hret)).
Qed.

Lemma normalizeAddresses_NoDup (addrs : list string) (defaultPort : string) :
  NoDup (normalizeAddresses addrs defaultPort).
Proof. apply removeDuplicateAddresses_NoDup. Qed.

Lemma normalizeAddresses_elem (addrs : list string) (defaultPort x : string) :
  x ∈ normalizeAddresses addrs defaultPort
  ↔ ∃ addr, addr ∈ addrs ∧ x = normalizeAddress addr defaultPort.
Proof.
  unfold normalizeAddresses.
  rewrite normalizeInPlace_map, removeDuplicateAddresses_elem, list_elem_of_fmap.
  split; intros (addr & H1 & H2); exists addr; by split.
Qed.

Lemma normalizeAddresses_default (port : string) :
  plainPort port →
  normalizeAddresses [JoinHostPort "" port] port = [JoinHostPort "" port].
Proof.
  intros (Hcol & Hopen & Hclose). unfold normalizeAddresses.
  rewrite normalizeInPlace_map. cbn [fmap list_fmap].
  rewrite (normalizeAddress_parsed _ _ ("", port))
    by (by apply SplitHostPort_Join).
  apply removeDuplicateAddresses_NoDup_id, NoDup_singleton.
Qed.

(** X7. A configuration [loadConfig] returns has at least one listener;
    no listener, added peer or peer to connect to is repeated; every
    listener is a listener of the configuration read, normalized with the
    default port of the network, and each of those is there; without a
    listener in the configuration read and with a plain default port, the
    only listener is [net.JoinHostPort("", port)]. *)
Theorem loadConfig_listeners (w : World) (t : list event) (cfg : config)
  (args : list string) :
  loadConfig w = (t, Returned (Some cfg, args, None)) →
  let port := DefaultPort (activeNetParams w) in
  Listeners cfg ≠ []
  ∧ NoDup (Listeners cfg) ∧ NoDup (AddPeers cfg) ∧ NoDup (ConnectPeers cfg)
  ∧ (Listeners (loadedConfig w) ≠ [] →
     ∀ x, x ∈ Listeners cfg
          ↔ ∃ addr, addr ∈ Listeners (loadedConfig w)
                    ∧ x = normalizeAddress addr port)
  ∧ (Listeners (loadedConfig w) = [] → plainPort port →
     Listeners cfg = [JoinHostPort "" port]).
Proof.
  intros Hrun port. destruct (loadConfig_returned _ _ _ _ Hrun) as [Hck Hkept].
  destruct Hck as (Hne & _).
  destruct Hkept as (_ & _ & _ & _ & _ & _ & _ & _ & _ & _ & _ & _ & _ & _ & _
                     & _ & _ & _ & Hadd & Hcon & Hlis).
  fold port in Hadd, Hcon, Hlis.
  split; [exact Hne|].
  split; [rewrite Hlis; apply normalizeAddresses_NoDup|].
  split; [rewrite Hadd; apply normalizeAddresses_NoDup|].
  split; [rewrite Hcon; apply normalizeAddresses_NoDup|].
  split.
  - intros Hsome x. rewrite Hlis.
    destruct (Listeners (loadedConfig w)) as [|l0 ls] eqn:Hl; [done|].
    change (Z.of_nat (length (l0 :: ls)) =? 0) with false.
    apply normalizeAddresses_elem.
  - intros Hnone Hport. rewrite Hlis, Hnone.
    change (Z.of_nat (length (@nil string)) =? 0) with true.
    by apply normalizeAddresses_default.
Qed.

(** X7, for a start without configuration file and for a file naming one
    listener three times. *)
Lemma loadConfig_listeners_witness :
  (∃ t cfg args,
     loadConfig quietWorld = (t, Returned (Some cfg, args, None))
     ∧ Listeners cfg = [":9108"])
  ∧ (∃ t cfg args,
       loadConfig repeatedListenerWorld = (t, Returned (Some cfg, args, None))
       ∧ NoDup (Listeners cfg) ∧ "10.0.0.1:9108" ∈ Listeners cfg).
Proof.
  split.
  - let r := eval vm_compute in (loadConfig quietWorld) in
    lazymatch r with
    | (?t, Returned (Some ?c, ?a, _)) => exists t, c, a
    end.
    assert (Hrun : loadConfig quietWorld = (_, Returned (Some _, _, None)))
      by (vm_compute; reflexivity).
    split; [exact Hrun|].
    destruct (loadConfig_listeners _ _ _ _ Hrun) as (_ & _ & _ & _ & _ & Hdef).
    apply Hdef; [vm_compute; reflexivity | repeat split; reflexivity].
  - let r := eval vm_compute in (loadConfig repeatedListenerWorld) in
    lazymatch r with
    | (?t, Returned (Some ?c, ?a, _)) => exists t, c, a
    end.
    assert (Hrun : loadConfig repeatedListenerWorld
                   = (_, Returned (Some _, _, None)))
      by (vm_compute; reflexivity).
    split; [exact Hrun|].
    destruct (loadConfig_listeners _ _ _ _ Hrun)
      as (_ & Hnodup & _ & _ & Hall & _).
    split; [exact Hnodup|].
    apply Hall; [vm_compute; discriminate|].
    exists "10.0.0.1". split; [vm_compute; left | vm_compute; reflexivity].
Defined.

(** X8. In a configuration [loadConfig] returns the maximum block size is
    the one read and lies between [blockMaxSizeMin] and the first maximum
    block size of the network less 1000; the minimum block size and the
    priority size are the ones read, capped at the maximum block size; and
    the orphan limit is the one read and is not negative. *)
Theorem loadConfig_block_limits (w : World) (t : list event) (cfg : config)
  (args : list string) :
  loadConfig w = (t, Returned (Some cfg, args, None)) →
  let loaded := loadedConfig w in
  (∃ size0 rest,
     MaximumBlockSizes (activeNetParams w) = size0 :: rest
     ∧ blockMaxSizeMin <= BlockMaxSize cfg
                       <= uint32_wrap (uint32_wrap size0 - 1000))
  ∧ BlockMaxSize cfg = BlockMaxSize loaded
  ∧ BlockMinSize cfg = Z.min (BlockMinSize loaded) (BlockMaxSize cfg)
  ∧ BlockPrioritySize cfg = Z.min (BlockPrioritySize loaded) (BlockMaxSize cfg)
  ∧ MaxOrphanTxs cfg = MaxOrphanTxs loaded
  ∧ 0 <= MaxOrphanTxs cfg.
Proof.
  intros Hrun loaded. destruct (loadConfig_returned _ _ _ _ Hrun) as [Hck Hkept].
  destruct Hck as (_ & _ & Hmax & _ & _ & Horphan & _).
  destruct Hkept as (_ & _ & _ & _ & _ & _ & Hkmax & Hkorphan & _ & _ & _ & _
                     & _ & Hprio & Hmin & _).
  fold loaded in Hkmax, Hkorphan, Hprio, Hmin.
  assert (Hmin' : ∀ a b, minUint32 a b = Z.min a b).
  { intros a b. unfold minUint32. destruct (Z.ltb_spec a b); lia. }
  split; [exact Hmax|]. split; [exact Hkmax|].
  split; [by rewrite Hmin, Hmin', Hkmax|].
  split; [by rewrite Hprio, Hmin', Hkmax|].
  split; [exact Hkorphan | exact Horphan].
Qed.

(** X8, for the defaults on the main network. *)
Lemma loadConfig_block_limits_witness :
  ∃ t cfg args,
    loadConfig quietWorld = (t, Returned (Some cfg, args, None))
    ∧ blockMaxSizeMin <= BlockMaxSize cfg <= 392216
    ∧ BlockPrioritySize cfg <= BlockMaxSize cfg.
Proof.
  let r := eval vm_compute in (loadConfig quietWorld) in
  lazymatch r with
  | (?t, Returned (Some ?c, ?a, _)) => exists t, c, a
  end.
  assert (Hrun : loadConfig quietWorld = (_, Returned (Some _, _, None)))
    by (vm_compute; reflexivity).
  split; [exact Hrun|].
  destruct (loadConfig_block_limits _ _ _ _ Hrun)
    as ((size0 & rest & Hsizes & Hmax) & _ & _ & Hprio & _).
  injection Hsizes as <- _. split; [exact Hmax|].
  rewrite Hprio. apply Z.le_min_r.
Defined.

(** X9. In a configuration [loadConfig] returns the RPC server is disabled
    exactly when the configuration read disables it or lacks a user name or
    a password; and when the RPC server is enabled with TLS disabled, every
    RPC listener splits into host and port with a host among the
    [allowedTLSListeners]. *)
Theorem loadConfig_rpc_guard (w : World) (t : list event) (cfg : config)
  (args : list string) :
  loadConfig w = (t, Returned (Some cfg, args, None)) →
  let loaded := loadedConfig w in
  (DisableRPC cfg = true
   ↔ DisableRPC loaded = true ∨ RPCUser loaded = "" ∨ RPCPass loaded = "")
  ∧ RPCUser cfg = RPCUser loaded ∧ RPCPass cfg = RPCPass loaded
  ∧ DisableTLS cfg = DisableTLS loaded
  ∧ (DisableRPC cfg = false → DisableTLS cfg = true →
     ∀ addr, addr ∈ RPCListeners cfg →
       ∃ host port, SplitHostPort addr = inl (host, port)
                    ∧ host ∈ allowedTLSListeners).
Proof.
  intros Hrun loaded. destruct (loadConfig_returned _ _ _ _ Hrun) as [Hck Hkept].
  destruct Hck as (_ & _ & _ & _ & _ & _ & _ & Htls & _).
  destruct Hkept as (_ & _ & Huser & Hpass & Hktls & _ & _ & _ & _ & _ & _ & _
                     & _ & _ & _ & Hrpc & _).
  fold loaded in Huser, Hpass, Hktls, Hrpc.
  split; [|split; [exact Huser | split; [exact Hpass | split; [exact Hktls|]]]].
  - rewrite Hrpc, !orb_true_iff, !String.eqb_eq. tauto.
  - intros Hon Hoff addr Hin.
    exact (proj1 (Forall_forall localTLSHost _) (Htls Hon Hoff) addr Hin).
Qed.

(** X9, for a start without RPC credentials. *)
Lemma loadConfig_rpc_guard_witness :
  ∃ t cfg args,
    loadConfig quietWorld = (t, Returned (Some cfg, args, None))
    ∧ DisableRPC cfg = true.
Proof.
  let r := eval vm_compute in (loadConfig quietWorld) in
  lazymatch r with
  | (?t, Returned (Some ?c, ?a, _)) => exists t, c, a
  end.
  assert (Hrun : loadConfig quietWorld = (_, Returned (Some _, _, None)))
    by (vm_compute; reflexivity).
  split; [exact Hrun|].
  apply (proj1 (loadConfig_rpc_guard _ _ _ _ Hrun)).
  right. left. vm_compute. reflexivity.
Defined.

(** X10. In a configuration [loadConfig] returns the decoded mining
    addresses are, one for one and in order, the decodings of the mining
    addresses read, each of them for the active network; and with
    [Generate] set there is at least one. *)
Theorem loadConfig_mining_addrs (w : World) (t : list event) (cfg : config)
  (args : list string) :
  loadConfig w = (t, Returned (Some cfg, args, None)) →
  MiningAddrs cfg = MiningAddrs (loadedConfig w)
  ∧ length (miningAddrs cfg) = length (MiningAddrs cfg)
  ∧ (∀ (i : nat) s, MiningAddrs cfg !! i = Some s →
       ∃ a, miningAddrs cfg !! i = Some a
            ∧ dcrutil_DecodeAddress w s = Some a ∧ IsForNet w a = true)
  ∧ (Generate cfg = true → miningAddrs cfg ≠ []).
Proof.
  intros Hrun. destruct (loadConfig_returned _ _ _ _ Hrun) as [Hck Hkept].
  destruct Hck as (_ & _ & _ & _ & _ & _ & _ & _ & Hdec & Hgen & _).
  destruct Hkept as (_ & _ & _ & _ & _ & _ & _ & _ & _ & _ & Hmining & _).
  split; [exact Hmining|].
  split; [symmetry; exact (Forall2_length _ _ _ Hdec)|].
  split.
  - intros i s Hs.
    destruct (Forall2_lookup_l _ _ _ _ _ Hdec Hs) as (a & Ha & Hok).
    by exists a.
  - intros Hg Hnil. apply (Hgen Hg).
    apply Forall2_length in Hdec. rewrite Hnil in Hdec.
    by destruct (MiningAddrs cfg).
Qed.

(** X10, for a configuration file with [generate] set and two mining
    addresses. *)
Lemma loadConfig_mining_addrs_witness :
  ∃ t cfg args,
    loadConfig miningWorld = (t, Returned (Some cfg, args, None))
    ∧ Generate cfg = true
    ∧ MiningAddrs cfg = ["DsUZxxoHJSty8DCfwfartwTYbuhmVct7tJu";
                         "DsmcYVbP1Nmag2H4AS17UTvmWXmGeA7nLDx"]
    ∧ length (miningAddrs cfg) = 2%nat
    ∧ (∃ a, miningAddrs cfg !! 1%nat = Some a
            ∧ dcrutil_DecodeAddress miningWorld
                "DsmcYVbP1Nmag2H4AS17UTvmWXmGeA7nLDx" = Some a
            ∧ IsForNet miningWorld a = true)
    ∧ miningAddrs cfg ≠ [].
Proof.
  let r := eval vm_compute in (loadConfig miningWorld) in
  lazymatch r with
  | (?t, Returned (Some ?c, ?a, _)) => exists t, c, a
  end.
  assert (Hrun : loadConfig miningWorld = (_, Returned (Some _, _, None)))
    by (vm_compute; reflexivity).
  split; [exact Hrun|].
  destruct (loadConfig_mining_addrs _ _ _ _ Hrun)
    as (Hread & Hlen & Heach & Hgen).
  lazymatch type of Hrun with
  | _ = (_, Returned (Some ?c, _, _)) =>
      assert (Hset : Generate c = true) by reflexivity;
      assert (Haddrs : MiningAddrs c
                       = ["DsUZxxoHJSty8DCfwfartwTYbuhmVct7tJu";
                          "DsmcYVbP1Nmag2H4AS17UTvmWXmGeA7nLDx"])
        by (etransitivity; [exact Hread | vm_compute; reflexivity])
  end.
  split; [exact Hset|].
  split; [exact Haddrs|].
  split; [by rewrite Hlen, Haddrs|].
  split; [|exact (Hgen Hset)].
  apply (Heach 1%nat). by rewrite Haddrs.
Defined.

(** X11. With the configuration [loadConfig] returned as the package
    variable, [dcrdDial] dials an address that does not contain ".onion:"
    with [net.Dial] and [dcrdLookup] resolves a host that does not end in
    ".onion" with [net.LookupIP]; for the other addresses and hosts they
    call the onion functions of the configuration read, and panic when
    those are nil. *)
Theorem dcrdDial_after_loadConfig {Conn IPs : Type}
  (netDial : string → string → Conn) (netLookupIP : string → IPs)
  (w : World) (t : list event) (cfg : config) (args : list string)
  (network addr host : string) :
  loadConfig w = (t, Returned (Some cfg, args, None)) →
  dcrdDial netDial (Some cfg) network addr
  = (if Contains addr ".onion:"
     then match oniondial (loadedConfig w) with
          | dialNil => Panicked
          | net_Dial => Returned (netDial network addr)
          end
     else Returned (netDial network addr))
  ∧ dcrdLookup netLookupIP (Some cfg) host
    = (if HasSuffix host ".onion"
       then match onionlookup (loadedConfig w) with
            | lookupNil => Panicked
            | net_LookupIP => Returned (netLookupIP host)
            end
       else Returned (netLookupIP host)).
Proof.
  intros Hrun. destruct (loadConfig_returned _ _ _ _ Hrun) as [Hck Hkept].
  destruct Hck as (_ & _ & _ & _ & _ & _ & _ & _ & _ & _ & Hdial & Hlookup & _).
  destruct Hkept as (_ & _ & _ & _ & _ & _ & _ & _ & _ & _ & _ & Hod & Hol & _).
  unfold dcrdDial, dcrdLookup. rewrite Hdial, Hlookup, Hod, Hol.
  split.
  - by destruct (Contains addr ".onion:").
  - by destruct (HasSuffix host ".onion").
Qed.

(** X11, for a peer on the clear net and a hidden service. *)
Lemma dcrdDial_after_loadConfig_witness :
  ∃ t cfg args,
    loadConfig quietWorld = (t, Returned (Some cfg, args, None))
    ∧ dcrdDial (λ network addr, network +:+ "!" +:+ addr) (Some cfg)
        "tcp" "10.0.0.1:9108" = Returned "tcp!10.0.0.1:9108"
    ∧ dcrdLookup (λ host, [host]) (Some cfg) "abcdefgh.onion" = Panicked.
Proof.
  let r := eval vm_compute in (loadConfig quietWorld) in
  lazymatch r with
  | (?t, Returned (Some ?c, ?a, _)) => exists t, c, a
  end.
  assert (Hrun : loadConfig quietWorld = (_, Returned (Some _, _, None)))
    by (vm_compute; reflexivity).
  split; [exact Hrun|].
  split.
  - exact (proj1 (dcrdDial_after_loadConfig
                    (λ network addr, network +:+ "!" +:+ addr) (λ host, [host])
                    _ _ _ _ "tcp" "10.0.0.1:9108" "abcdefgh.onion" Hrun)).
  - exact (proj2 (dcrdDial_after_loadConfig
                    (λ network addr, network +:+ "!" +:+ addr) (λ host, [host])
                    _ _ _ _ "tcp" "10.0.0.1:9108" "abcdefgh.onion" Hrun)).
Defined.

(** X12. An error [loadConfig] returns reports a failure that happened:
    [errorJustified] says for each error which call failed or which option
    of the configuration read is out of range; and [loadConfig] returns
    none of the errors of the later start-up steps. *)
Theorem loadConfig_error_justified (w : World) (args : list string)
  (e : error) :
  result (loadConfig w) = Returned (None, args, Some e) →
  errorJustified w e
  ∧ (e ∉ [ErrCreateDefaultConfigFile; ErrServiceCommand; ErrLoadBlockDB;
          ErrNewServer; ErrSetLimits])
  ∧ (∀ index, e ≠ ErrDropIndex index).
Proof.
  intros Hrun. pose proof (loadConfig_returns w) as Hret.
  rewrite Hrun in Hret. cbn [loadConfigReturns] in Hret.
  split; [exact Hret|]. split.
  - intros Hin. repeat (apply elem_of_cons in Hin as [->|Hin]); try exact Hret.
    by apply elem_of_nil in Hin.
  - intros index ->. exact Hret.
Qed.

(** X12, for a ban duration of 500ms. *)
Lemma loadConfig_error_justified_witness :
  result (loadConfig shortBanWorld)
  = Returned (None, [], Some (ErrBanDuration 500000000))
  ∧ BanDuration (loadedConfig shortBanWorld) = 500000000
  ∧ 500000000 < time_Second.
Proof.
  assert (Hrun : result (loadConfig shortBanWorld)
                 = Returned (None, [], Some (ErrBanDuration 500000000)))
    by (vm_compute; reflexivity).
  split; [exact Hrun|].
  destruct (proj1 (loadConfig_error_justified _ _ _ Hrun)) as [Heq Hlt].
  split; [symmetry; exact Heq | exact Hlt].
Defined.

Lemma localhostRPCListeners_map (w : World) (addrs : list string) :
  localhostRPCListeners w addrs
  = (λ addr, JoinHostPort addr (rpcPort (activeNetParams w))) <$> addrs.
Proof.
  unfold localhostRPCListeners.
  set (f := λ addr, JoinHostPort addr (rpcPort (activeNetParams w))).
  assert (Hloop : ∀ acc, foldl (λ acc addr, acc ++ [f addr]) acc addrs
                         = acc ++ (f <$> addrs)).
  { induction addrs as [|a addrs IH]; intros acc.
    - cbn. by rewrite app_nil_r.
    - cbn [foldl fmap list_fmap]. rewrite IH. by rewrite <- app_assoc. }
  exact (Hloop []).
Qed.

(** X19. [loadConfig] assigns fifteen fields of the configuration it read
    and nothing else: the configuration it returns is the configuration
    read with these fields set, so that every other option, such as the
    database type, the peer limits, the proxy or the index flags, comes
    back as read; [AcceptNonStd] is the setting of the network and
    [DataDir] the cleaned data directory joined with the network name. *)
Theorem loadConfig_assigns (w : World) (t : list event) (cfg : config)
  (args : list string) :
  loadConfig w = (t, Returned (Some cfg, args, None)) →
  let loaded := loadedConfig w in
  onlyAssigned cfg loaded
  ∧ AcceptNonStd cfg = AcceptNonStdTxs (activeNetParams w)
  ∧ DataDir cfg
    = filepath_Join w [cleanAndExpandPath w (DataDir loaded);
                       Name (activeNetParams w)]
  ∧ (DbType cfg, Proxy cfg, MaxPeers cfg, DropTxIndex cfg, LogDir cfg)
    = (DbType loaded, Proxy loaded, MaxPeers loaded, DropTxIndex loaded,
       LogDir loaded).
Proof.
  intros Hrun loaded.
  destruct (loadConfig_assigned _ _ _ _ Hrun) as [_ Hframe].
  destruct (loadConfig_returned _ _ _ _ Hrun) as [_ Hkept].
  destruct Hkept as (_ & _ & _ & _ & _ & _ & _ & _ & _ & _ & _ & _ & _ & _ & _
                     & _ & Hstd & Hdir & _).
  fold loaded in Hframe, Hdir.
  split; [exact Hframe|]. split; [exact Hstd|]. split; [exact Hdir|].
  rewrite Hframe. reflexivity.
Qed.

(** X19, for a configuration file asking to drop two indexes. *)
Lemma loadConfig_assigns_witness :
  ∃ t cfg args,
    loadConfig dropIndexWorld = (t, Returned (Some cfg, args, None))
    ∧ DropTxIndex cfg = true ∧ DataDir cfg = "/home/dcrd/.dcrd/data/mainnet".
Proof.
  let r := eval vm_compute in (loadConfig dropIndexWorld) in
  lazymatch r with
  | (?t, Returned (Some ?c, ?a, _)) => exists t, c, a
  end.
  assert (Hrun : loadConfig dropIndexWorld = (_, Returned (Some _, _, None)))
    by (vm_compute; reflexivity).
  split; [exact Hrun|].
  destruct (loadConfig_assigns _ _ _ _ Hrun) as (_ & _ & Hdir & Hkept).
  split.
  - etransitivity; [exact (f_equal (λ x, x.1.2) Hkept) | reflexivity].
  - rewrite Hdir. vm_compute. reflexivity.
Defined.

(** X20. The RPC listeners of a configuration [loadConfig] returns are not
    repeated; they are the RPC listeners read, normalized with the RPC
    port of the network, unless the RPC server is enabled and none was
    read: then they are the addresses of "localhost", each joined with the
    RPC port, normalized. *)
Theorem loadConfig_rpc_listeners (w : World) (t : list event) (cfg : config)
  (args : list string) :
  loadConfig w = (t, Returned (Some cfg, args, None)) →
  let loaded := loadedConfig w in
  let port := rpcPort (activeNetParams w) in
  NoDup (RPCListeners cfg)
  ∧ (DisableRPC cfg = false → RPCListeners loaded = [] →
     ∃ addrs, net_LookupHost w "localhost" = Some addrs
              ∧ RPCListeners cfg
                = normalizeAddresses
                    ((λ addr, JoinHostPort addr port) <$> addrs) port)
  ∧ (DisableRPC cfg = true ∨ RPCListeners loaded ≠ [] →
     RPCListeners cfg = normalizeAddresses (RPCListeners loaded) port).
Proof.
  intros Hrun loaded port.
  destruct (loadConfig_assigned _ _ _ _ Hrun) as [Hrpc _].
  unfold rpcListenersSet in Hrpc. fold loaded port in Hrpc.
  split; [|split].
  - destruct (negb (DisableRPC cfg)
              && (Z.of_nat (length (RPCListeners loaded)) =? 0)).
    + destruct Hrpc as (addrs & _ & ->). apply normalizeAddresses_NoDup.
    + rewrite Hrpc. apply normalizeAddresses_NoDup.
  - intros Hon Hnone. rewrite Hon, Hnone in Hrpc.
    destruct Hrpc as (addrs & Hlookup & ->).
    exists addrs. split; [exact Hlookup|].
    by rewrite localhostRPCListeners_map.
  - intros [Hoff|Hsome].
    + by rewrite Hoff in Hrpc.
    + destruct (RPCListeners loaded) as [|l ls]; [done|].
      by rewrite andb_false_r in Hrpc.
Qed.

(** X20, for a configuration file with RPC credentials and no RPC
    listener on a machine where localhost has two addresses. *)
Lemma loadConfig_rpc_listeners_witness :
  ∃ t cfg args,
    loadConfig rpcWorld = (t, Returned (Some cfg, args, None))
    ∧ DisableRPC cfg = false
    ∧ RPCListeners (loadedConfig rpcWorld) = []
    ∧ RPCListeners cfg = ["127.0.0.1:9109"; "[::1]:9109"]
    ∧ NoDup (RPCListeners cfg).
Proof.
  let r := eval vm_compute in (loadConfig rpcWorld) in
  lazymatch r with
  | (?t, Returned (Some ?c, ?a, _)) => exists t, c, a
  end.
  assert (Hrun : loadConfig rpcWorld = (_, Returned (Some _, _, None)))
    by (vm_compute; reflexivity).
  split; [exact Hrun|].
  lazymatch type of Hrun with
  | _ = (_, Returned (Some ?c, _, _)) =>
      assert (Hon : DisableRPC c = false) by reflexivity
  end.
  assert (Hnone : RPCListeners (loadedConfig rpcWorld) = [])
    by (vm_compute; reflexivity).
  split; [exact Hon|]. split; [exact Hnone|].
  destruct (loadConfig_rpc_listeners _ _ _ _ Hrun) as (Hnodup & Hlocal & _).
  split; [|exact Hnodup].
  destruct (Hlocal Hon Hnone) as (addrs & Hlookup & Hlisteners).
  rewrite Hlisteners.
  assert (addrs = ["127.0.0.1"; "::1"]) as ->
    by (vm_compute in Hlookup; congruence).
  vm_compute. reflexivity.
Defined.

Lemma rpcEnabled_returned (w : World) (t : list event) (cfg : config)
  (args : list string) :
  loadConfig w = (t, Returned (Some cfg, args, None)) →
  rpcEnabled w = negb (DisableRPC cfg)
  ∧ effectiveRPCListeners w = Some (RPCListeners cfg).
Proof.
  intros Hrun. destruct (loadConfig_returned _ _ _ _ Hrun) as [_ Hkept].
  destruct (loadConfig_assigned _ _ _ _ Hrun) as [Hrpc _].
  destruct Hkept as (_ & _ & _ & _ & _ & _ & _ & _ & _ & _ & _ & _ & _ & _ & _
                     & Hoff & _).
  assert (Hen : rpcEnabled w = negb (DisableRPC cfg))
    by (unfold rpcEnabled; by rewrite Hoff).
  split; [exact Hen|].
  unfold effectiveRPCListeners, rpcListenersSet in *. rewrite Hen.
  destruct (negb (DisableRPC cfg)
            && (Z.of_nat (length (RPCListeners (loadedConfig w))) =? 0)).
  - destruct Hrpc as (addrs & -> & ->). reflexivity.
  - by rewrite Hrpc.
Qed.

(** X27. [loadConfig] returns a configuration exactly when the command
    line does not make it exit and every check passes: the configuration
    file has no syntax error, the home directory can be created, the
    database type is known, the ban duration is at least a second, the
    lookup of localhost succeeds if the RPC server needs it, no RPC
    listener is remote when TLS is disabled, the relay fee converts, the
    maximum block size is in range, the orphan limit is not negative, every
    mining address decodes for the network, there is one if [Generate] is
    set, and the listeners parse. *)
Theorem loadConfig_succeeds_iff (w : World) :
  (∃ cfg args, result (loadConfig w) = Returned (Some cfg, args, None))
  ↔ loadable w.
Proof.
  split.
  - intros (cfg & args & Hres).
    destruct (loadConfig w) as [t o] eqn:Hrun. cbn [result snd] in Hres.
    subst o.
    destruct (loadConfig_returned _ _ _ _ Hrun) as [Hck Hkept].
    destruct (rpcEnabled_returned _ _ _ _ Hrun) as [Hen Hrpc].
    pose proof (loadConfig_calls _ _ _ _ Hrun) as Hcalls.
    pose proof (loadConfig_post w) as Hpost. rewrite Hrun in Hpost.
    cbn [result snd loadConfigPost] in Hpost.
    destruct Hpost as (Hnoexit & _ & Hban & _).
    destruct Hck as (_ & Hdb & Hmax & _ & _ & Horphan & _ & Htls & Hdec & Hgen
                     & _ & _ & Hfee).
    destruct Hkept as (_ & Hkdb & _ & _ & Hktls & _ & Hkmax & Hkorphan & Hkfee
                       & Hkgen & Hkmining & _).
    unfold loadable.
    rewrite <- Hkdb, <- Hktls, <- Hkmax, <- Hkorphan, <- Hkfee, <- Hkgen,
      <- Hkmining.
    split; [exact Hnoexit|]. split; [exact Hcalls|]. split; [exact Hdb|].
    split; [exact Hban|]. split.
    { exists (RPCListeners cfg). split; [exact Hrpc|].
      rewrite Hen. intros Hon%negb_true_iff Hoff. by apply Htls. }
    split; [by rewrite Hfee|]. split; [exact Hmax|].
    split; [exact Horphan|]. split; [|exact Hgen].
    clear -Hdec. induction Hdec as [|s a l k Hsa _ IH]; constructor; eauto.
  - intros (Hnoexit & (Hini & Hdir & Hlisten) & Hdb & Hban & Hrpc & Hfee
            & Hmax & Horphan & Hdec & Hgen).
    pose proof (loadConfig_post w) as Hpost.
    pose proof (loadConfig_returns w) as Hret.
    destruct (result (loadConfig w)) as [[[[cfg|] args] [e|]]|code| |];
      cbn [loadConfigPost loadConfigReturns] in Hpost, Hret.
    + destruct args; contradiction.
    + by exists cfg, args.
    + exfalso. unfold errorJustified in Hret.
      destruct Hrpc as (rpcListeners & Hsome & Htls).
      destruct Hmax as (size0 & rest & Hsizes & Hrange).
      destruct e; try contradiction.
      * destruct Hret as [-> Hnot]. by apply Hnot.
      * destruct Hret as [-> Hshort]. lia.
      * destruct Hret as (Hnone & Huser & Hpass & Hon & Hnil).
        unfold effectiveRPCListeners, rpcEnabled in Hsome.
        apply String.eqb_neq in Huser, Hpass.
        rewrite Hon, Huser, Hpass, Hnil, Hnone in Hsome. discriminate Hsome.
      * destruct Hret as (-> & (size0' & rest' & Hsizes' & ->) & -> & Hout).
        rewrite Hsizes in Hsizes'. injection Hsizes' as <- _. lia.
      * destruct Hret as [-> Hneg]. lia.
      * destruct Hret as [Hin Hnone].
        destruct (proj1 (Forall_forall _ _) Hdec _ Hin) as (a & Ha & _).
        congruence.
      * destruct Hret as [Hin (a & Ha & Hwrong)].
        destruct (proj1 (Forall_forall _ _) Hdec _ Hin) as (a' & Ha' & Hok).
        congruence.
      * destruct Hret as [Hg Hnil]. by apply (Hgen Hg).
      * destruct Hret as (Hon & Hoff & (ls & Hls & Hin) & Hbad).
        assert (ls = rpcListeners) as -> by congruence.
        destruct (proj1 (Forall_forall _ _) (Htls Hon Hoff) _ Hin)
          as (host & port & Hok & _).
        congruence.
      * destruct Hret as (Hon & Hoff & (ls & Hls & Hin) & host & port & Hok
                          & Hremote).
        assert (ls = rpcListeners) as -> by congruence.
        destruct (proj1 (Forall_forall _ _) (Htls Hon Hoff) _ Hin)
          as (host' & port' & Hok' & Hlocal).
        assert (host' = host) as -> by congruence. by apply Hremote.
    + destruct args; contradiction.
    + exfalso. apply Hnoexit. destruct Hpost as (et & Het & _). by exists et.
    + exfalso. destruct Hpost as (_ & _ & Hnil).
      destruct Hmax as (size0 & rest & Hsizes & _). congruence.
    + contradiction.
Qed.

(** X27, for a start without arguments on a machine where every call
    succeeds. *)
Lemma loadConfig_succeeds_iff_witness :
  loadable quietWorld
  ∧ ∃ cfg args,
      result (loadConfig quietWorld) = Returned (Some cfg, args, None).
Proof.
  assert (Hok : ∃ cfg args,
            result (loadConfig quietWorld) = Returned (Some cfg, args, None)).
  { let r := eval vm_compute in (result (loadConfig quietWorld)) in
    lazymatch r with
    | Returned (Some ?c, ?a, _) => exists c, a
    end.
    vm_compute. reflexivity. }
  split; [|exact Hok].
  exact (proj1 (loadConfig_succeeds_iff quietWorld) Hok).
Defined.

Lemma trace_bind {A B} (f : A → proc B) (m : proc A) :
  trace (mbind f m)
  = trace m ++ match result m with
               | Returned a => trace (f a)
               | _ => []
               end.
Proof.
  destruct m as [t [a|c| |]]; cbn [trace result fst snd];
    try (by rewrite app_nil_r).
  by rewrite bind_returned.
Qed.

(** A step of a program that prints nothing: name a [let], split a
    test, pass a step that returns at once. *)
Ltac silent_step :=
  lazymatch goal with
  | |- trace ?prog = [] =>
      lazymatch prog with
      | (let x := ?e in @?b x) =>
          let y := fresh x in
          pose (y := e); change (trace (b y) = []); cbv beta
      | mbind ?f (mret tt) =>
          rewrite (trace_bind f (mret tt));
          cbn [trace result fst snd mret proc_ret Proc.ret app]
      | match ?s with _ => _ end => destruct s; cbv beta iota
      | _ => reflexivity
      end
  end.

(** The rest of the program prints nothing. *)
Ltac silent_rest :=
  cbn [trace result fst snd mret proc_ret Proc.ret emit]; cbv beta iota;
  lazymatch goal with
  | |- ?pre ++ ?rest = _ =>
      let H := fresh in
      assert (H : rest = []) by (repeat silent_step);
      rewrite H; reflexivity
  end.

Lemma loadConfig_trace (w : World) :
  trace (loadConfig w) = loadConfigOutput w.
Proof.
  unfold loadConfigOutput, preParseError, configFileError.
  cbv delta [loadConfig when]. cbv beta.
  do 4 lazymatch goal with
       | |- trace (let x := ?e in @?b x) = ?r =>
           change (trace (b e) = r); cbv beta
       end.
  destruct (preParse w (defaultConfig w)) as [preCfg perr] eqn:Hpre.
  cbv beta iota. cbn [fst snd].
  rewrite trace_bind.
  destruct perr as [[t|]|];
    [ destruct (isErrHelp t); reflexivity | |];
    cbn [trace result fst snd mret proc_ret Proc.ret app];
    (rewrite trace_bind;
     replace (match runServiceCommand w with
              | Some _ => _
              | None => _
              end) with (mret tt : proc unit)
       by (by destruct (runServiceCommand w));
     cbn [trace result fst snd mret proc_ret Proc.ret app];
     rewrite trace_bind; unfold parseConfigFile;
     destruct (String.eqb (ConfigFile preCfg) (defaultConfigFile w));
     cbn [negb andb];
     [ destruct (fileExists w (ConfigFile preCfg)); cbn [negb];
       [|destruct (createDefaultConfigFile w (ConfigFile preCfg))];
       silent_rest
     | cbn [trace result fst snd mret proc_ret Proc.ret app];
       destruct (iniParseFile w (ConfigFile preCfg) (defaultConfig w))
         as [cfg [[|]|]];
       cbn [fst snd]; cbv beta iota;
       first [ reflexivity | rewrite trace_bind; silent_rest ] ]).
Qed.

(** X28. [loadConfig] prints or logs at most one line and runs no service
    command: the error of the command line when the pre-parse rejects it;
    otherwise, for the default configuration file, the failure to create
    it when it does not exist and, for another file, the syntax error or
    the warning that the file cannot be read.  Every later failure is
    returned without a line printed. *)
Theorem loadConfig_output (w : World) :
  trace (loadConfig w) = loadConfigOutput w
  ∧ (length (trace (loadConfig w)) <= 1)%nat
  ∧ (∀ command, EvRunServiceCommand command ∉ trace (loadConfig w)).
Proof.
  pose proof (loadConfig_trace w) as Hout.
  split; [exact Hout|]. rewrite Hout. unfold loadConfigOutput.
  split.
  - destruct (preParseError w) as [[t|]|]; cbn [length]; try lia;
      repeat match goal with
             | |- context [match ?s with _ => _ end] => destruct s
             end; cbn [length]; lia.
  - intros command.
    destruct (preParseError w) as [[t|]|];
      repeat match goal with
             | |- context [match ?s with _ => _ end] => destruct s
             end;
      let H := fresh in
      intros H;
      repeat (apply elem_of_cons in H as [H|H]; [discriminate H|]);
      by apply elem_of_nil in H.
Qed.

End LoadConfigGuarantees.

(** ** [dcrdMain]: the order of start-up and shutdown *)

Section StartupMore.

Lemma resources_config (t : list event) :
  Forall configEvent t → resources t = [].
Proof.
  induction 1 as [|e t He _ IH]; [reflexivity|].
  unfold resources in *. cbn [List.filter]. rewrite IH.
  by destruct e.
Qed.

Lemma resources_app (t1 t2 : list event) :
  resources (t1 ++ t2) = resources t1 ++ resources t2.
Proof. apply List.filter_app. Qed.

Lemma bind_assoc {A B C} (m : proc A) (k1 : A → proc B) (k2 : B → proc C) :
  mbind k2 (mbind k1 m) = mbind (λ a, mbind k2 (k1 a)) m.
Proof.
  destruct m as [t [a| | |]]; unfold mbind, proc_bind, Proc.bind;
    try reflexivity.
  destruct (k1 a) as [t1 [b| | |]]; try reflexivity.
  destruct (k2 b) as [t2 o]. by rewrite app_assoc.
Qed.

(** A step that returns and touches neither database nor server. *)
Lemma run_quiet {B} (m : proc unit) (k : unit → proc B)
  (r : list event * outcome B) :
  result m = Returned tt → resources (trace m) = [] →
  resourceRun (k tt) = r → resourceRun (mbind k m) = r.
Proof.
  destruct m as [t o]. cbn [result trace fst snd]. intros -> Hquiet <-.
  unfold resourceRun. rewrite bind_returned. cbn [trace result fst snd].
  by rewrite resources_app, Hquiet.
Qed.

Lemma run_emit {B} (e : event) (k : unit → proc B) (l : list event)
  (o : outcome B) :
  resourceEvent e = true → resourceRun (k tt) = (l, o) →
  resourceRun (mbind k (emit e)) = (e :: l, o).
Proof.
  intros He [= <- <-]. unfold resourceRun, emit.
  rewrite bind_returned. cbn [trace result fst snd].
  rewrite resources_app. unfold resources at 1. cbn [List.filter].
  by rewrite He.
Qed.

(** [dcrdMain] after a configuration was returned: the trace of
    [loadConfig] has no resource event. *)
Lemma run_loadConfig (w : World) (t : list event) (cfg : config)
  (args : list string)
  (k : option config * list string * option error → proc (option error)) :
  loadConfig w = (t, Returned (Some cfg, args, None)) →
  resourceRun (mbind k (loadConfig w)) = resourceRun (k (Some cfg, args, None)).
Proof.
  intros Hload.
  pose proof (loadConfig_configOnly w) as Hquiet.
  unfold configOnly in Hquiet. rewrite Hload in Hquiet. cbn [trace fst] in Hquiet.
  unfold resourceRun. rewrite Hload, bind_returned. cbn [trace result fst snd].
  by rewrite resources_app, (resources_config _ Hquiet).
Qed.

(** One step of a run: the head of the program is a bind to regroup, an
    event, a test that is known or is split, or a deferred block. *)
Ltac run_step :=
  lazymatch goal with
  | |- resourceRun (mbind _ (mbind _ _)) = _ => rewrite bind_assoc
  | |- resourceRun (mbind _ (emit _)) = _ =>
      first [ apply run_emit; [reflexivity|]
            | apply run_quiet; [reflexivity | reflexivity|] ]
  | |- resourceRun (mbind _ (when ?b _)) = _ =>
      apply run_quiet; [by destruct b | by destruct b|]
  | |- resourceRun (mbind _ (if ?b then _ else _)) = _ =>
      apply run_quiet; [by destruct b | by destruct b|]
  | |- resourceRun (mbind _ (deferredServer _)) = _ => unfold deferredServer
  | |- resourceRun (mbind _ (SampleConfig.deferredServer _)) = _ =>
      unfold SampleConfig.deferredServer
  | |- resourceRun (mbind _ (deferredDb _)) = _ => unfold deferredDb
  | |- resourceRun (mbind _ (deferredBase _)) = _ => unfold deferredBase
  | |- resourceRun (dropIndex _ _) = _ => unfold dropIndex
  | |- resourceRun (match ?s with _ => _ end) = _ =>
      first [ lazymatch goal with H : s = _ |- _ => rewrite H end
            | destruct s ]
  | |- resourceRun (mret _) = _ => reflexivity
  | |- resourceRun block = _ => reflexivity
  end; cbv beta iota.

Ltac run_main := repeat run_step.

(** The runs of [dcrdMain] after [loadConfig] returned a configuration. *)
Lemma dcrdMain_runs (w : World) (t : list event) (cfg : config)
  (args : list string) :
  loadConfig w = (t, Returned (Some cfg, args, None)) →
  dcrdMainRun w cfg (resourceRun (dcrdMain w)).
Proof.
  intros Hload. unfold dcrdMain.
  lazymatch goal with
  | |- context [mbind ?k (loadConfig w)] =>
      rewrite (run_loadConfig w t cfg args k Hload)
  end.
  cbv beta iota. unfold dcrdMainRun, databaseLoaded, droppedIndex.
  destruct (shutdownRequested (ctxAt w BeforeLoadBlockDB)) eqn:Hbefore.
  { left. split; [reflexivity|]. run_main. }
  right.
  destruct (loadBlockDB w) as [e|] eqn:Hdb.
  { left. split; [reflexivity|]. exists e. split; [reflexivity|]. run_main. }
  right.
  destruct (shutdownRequested (ctxAt w AfterLoadBlockDB)) eqn:Hafter.
  { left. repeat (split; [reflexivity|]). run_main. }
  right.
  destruct (DropAddrIndex cfg) eqn:Hdrop1.
  { left. split; [done|]. eexists. split; [reflexivity|]. run_main. }
  destruct (DropTxIndex cfg) eqn:Hdrop2.
  { left. split; [done|]. eexists. split; [reflexivity|]. run_main. }
  destruct (DropExistsAddrIndex cfg) eqn:Hdrop3.
  { left. split; [done|]. eexists. split; [reflexivity|]. run_main. }
  destruct (DropCFIndex cfg) eqn:Hdrop4.
  { left. split; [done|]. eexists. split; [reflexivity|]. run_main. }
  right.
  destruct (newServer w (Listeners cfg) (DataDir cfg)) as [e|] eqn:Hserver.
  { left. split; [done|]. split; [reflexivity|]. exists e.
    split; [reflexivity|]. run_main. }
  right.
  destruct (shutdownRequested (ctxAt w AfterServerStart)) eqn:Hstart.
  { left. split; [done|]. split; [reflexivity|]. split; [reflexivity|].
    split; [by left|]. run_main. }
  destruct (ctxEventuallyCanceled w) eqn:Hlater.
  { left. split; [done|]. split; [reflexivity|]. split; [reflexivity|].
    split; [by right|]. run_main. }
  right. split; [done|]. repeat (split; [reflexivity|]). run_main.
Qed.

(** Open a run of [dcrdMainRun]. *)
Ltac open_run H :=
  unfold dcrdMainRun, databaseLoaded, resourceRun in H;
  destruct H as [H|[H|[H|[H|[H|[H|H]]]]]];
  repeat match type of H with
         | _ ∧ _ => let H1 := fresh "Hc" in destruct H as [H1 H]
         | ∃ _, _ => let x := fresh "x" in destruct H as [x H]
         end;
  let Hr := fresh "Hr" in
  let Ho := fresh "Ho" in
  injection H as Hr Ho;
  repeat match goal with
         | Hc : _ ∧ _ |- _ =>
             let H1 := fresh "Hc" in
             let H2 := fresh "Hc" in
             destruct Hc as [H1 H2]
         end.

(** Membership in an explicit list of events. *)
Ltac in_list H :=
  repeat (apply elem_of_cons in H as [H|H]; [try discriminate H|]);
  try (by apply elem_of_nil in H).

Ltac not_in_list := let H := fresh in intros H; in_list H.

Ltac is_in_list := rewrite ?elem_of_cons; auto 10.

(** X13. Once [loadConfig] returned a configuration, [dcrdMain] closes the
    block database exactly when it loaded it and does not block for ever:
    the load comes first and once, the close comes last and once, and
    everything done to the server or an index lies between. *)
Theorem dcrdMain_closes_database (w : World) (t : list event) (cfg : config)
  (args : list string) :
  loadConfig w = (t, Returned (Some cfg, args, None)) →
  let r := resources (trace (dcrdMain w)) in
  (EvDbClose ∈ r →
   loadBlockDB w = None
   ∧ ∃ between, r = EvLoadBlockDB :: between ++ [EvDbClose]
                ∧ (EvLoadBlockDB ∉ between) ∧ (EvDbClose ∉ between))
  ∧ (EvLoadBlockDB ∈ r → loadBlockDB w = None →
     result (dcrdMain w) ≠ Blocked → EvDbClose ∈ r)
  ∧ (EvLoadBlockDB ∉ r → r = []).
Proof.
  intros Hload r. pose proof (dcrdMain_runs w t cfg args Hload) as Hrun.
  open_run Hrun; subst r; rewrite Hr; rewrite ?Ho.
  - split; [not_in_list|]. split; [not_in_list | done].
  - split; [not_in_list|].
    split; [intros _ Hnone; congruence | intros Hn; destruct Hn; left].
  - split; [|split; [intros; is_in_list | intros Hn; destruct Hn; left]].
    intros _. split; [assumption|]. exists [].
    split; [reflexivity|]. split; not_in_list.
  - split; [|split; [intros; is_in_list | intros Hn; destruct Hn; left]].
    intros _. split; [assumption|]. exists [EvDropIndex x].
    split; [reflexivity|]. split; not_in_list.
  - split; [|split; [intros; is_in_list | intros Hn; destruct Hn; left]].
    intros _. split; [assumption|]. exists [EvNewServer].
    split; [reflexivity|]. split; not_in_list.
  - split; [|split; [intros; is_in_list | intros Hn; destruct Hn; left]].
    intros _. split; [assumption|].
    exists [EvNewServer; EvServerStart; EvServerStop; EvServerWaitForShutdown].
    split; [reflexivity|]. split; not_in_list.
  - split; [not_in_list|].
    split; [intros _ _ Hnb; by destruct Hnb | intros Hn; destruct Hn; left].
Qed.

(** X13, for an undisturbed start that is told to stop later. *)
Lemma dcrdMain_closes_database_witness :
  ∃ t cfg args,
    loadConfig quietWorld = (t, Returned (Some cfg, args, None))
    ∧ resources (trace (dcrdMain quietWorld))
      = [EvLoadBlockDB; EvNewServer; EvServerStart; EvServerStop;
         EvServerWaitForShutdown; EvDbClose]
    ∧ loadBlockDB quietWorld = None.
Proof.
  let r := eval vm_compute in (loadConfig quietWorld) in
  lazymatch r with
  | (?t, Returned (Some ?c, ?a, _)) => exists t, c, a
  end.
  assert (Hrun : loadConfig quietWorld = (_, Returned (Some _, _, None)))
    by (vm_compute; reflexivity).
  split; [exact Hrun|]. split; [vm_compute; reflexivity|].
  apply (proj1 (dcrdMain_closes_database _ _ _ _ Hrun)).
  apply (bool_decide_unpack _). vm_compute. exact I.
Defined.

(** X14. Once [loadConfig] returned a configuration, a server [dcrdMain]
    started is stopped and waited for, in this order and before the
    database is closed, unless the shutdown context is never canceled: then
    [dcrdMain] blocks for ever with the server running.  Blocking for ever
    happens in no other way, and a server is started only after it was
    created. *)
Theorem dcrdMain_stops_server (w : World) (t : list event) (cfg : config)
  (args : list string) :
  loadConfig w = (t, Returned (Some cfg, args, None)) →
  let r := resources (trace (dcrdMain w)) in
  (EvServerStart ∈ r →
   newServer w (Listeners cfg) (DataDir cfg) = None
   ∧ ((result (dcrdMain w) = Returned None
       ∧ r = [EvLoadBlockDB; EvNewServer; EvServerStart; EvServerStop;
              EvServerWaitForShutdown; EvDbClose])
      ∨ (result (dcrdMain w) = Blocked
         ∧ r = [EvLoadBlockDB; EvNewServer; EvServerStart])))
  ∧ (result (dcrdMain w) = Blocked ↔
     EvServerStart ∈ r
     ∧ shutdownRequested (ctxAt w AfterServerStart) = false
     ∧ ctxEventuallyCanceled w = false)
  ∧ (EvServerStop ∈ r ∨ EvServerWaitForShutdown ∈ r → EvServerStart ∈ r).
Proof.
  intros Hload r. pose proof (dcrdMain_runs w t cfg args Hload) as Hrun.
  open_run Hrun; subst r; rewrite Hr; rewrite ?Ho.
  1-5: (split; [not_in_list|];
        split; [split; [discriminate | intros (Hin & _); in_list Hin]|];
        intros [Hin|Hin]; in_list Hin).
  - split; [intros _; split; [assumption | left; split; reflexivity]|].
    split; [|intros _; is_in_list].
    split; [discriminate|]. intros (_ & Hnow & Hlater).
    match goal with Hd : _ ∨ _ |- _ => destruct Hd; congruence end.
  - split; [intros _; split; [assumption | right; split; reflexivity]|].
    split; [|intros [Hin|Hin]; in_list Hin].
    split; [|reflexivity]. intros _.
    split; [is_in_list | split; assumption].
Qed.

(** X14, for an undisturbed start that is told to stop later. *)
Lemma dcrdMain_stops_server_witness :
  ∃ t cfg args,
    loadConfig quietWorld = (t, Returned (Some cfg, args, None))
    ∧ resources (trace (dcrdMain quietWorld))
      = [EvLoadBlockDB; EvNewServer; EvServerStart; EvServerStop;
         EvServerWaitForShutdown; EvDbClose]
    ∧ result (dcrdMain quietWorld) = Returned None.
Proof.
  let r := eval vm_compute in (loadConfig quietWorld) in
  lazymatch r with
  | (?t, Returned (Some ?c, ?a, _)) => exists t, c, a
  end.
  assert (Hrun : loadConfig quietWorld = (_, Returned (Some _, _, None)))
    by (vm_compute; reflexivity).
  split; [exact Hrun|].
  assert (Hstart : EvServerStart ∈ resources (trace (dcrdMain quietWorld)))
    by (apply (bool_decide_unpack _); vm_compute; exact I).
  destruct (proj1 (dcrdMain_stops_server _ _ _ _ Hrun) Hstart)
    as [_ [[Hret Hr]|[Hblocked _]]].
  - split; [exact Hr | exact Hret].
  - exfalso. revert Hblocked. vm_compute. discriminate.
Defined.

(** X15. With the database loaded and a "drop index" flag set, [dcrdMain]
    drops one index, the first of address, transaction, exists-address and
    committed-filter index whose flag is set, closes the database and
    returns what [indexers.Drop...] returned; no server is created. *)
Theorem dcrdMain_drops_index (w : World) (t : list event) (cfg : config)
  (args : list string) (index : string) :
  loadConfig w = (t, Returned (Some cfg, args, None)) →
  databaseLoaded w →
  droppedIndex cfg = Some index →
  resources (trace (dcrdMain w))
  = [EvLoadBlockDB; EvDropIndex index; EvDbClose]
  ∧ result (dcrdMain w) = Returned (indexers_Drop w index)
  ∧ (DropAddrIndex cfg = true → index = "DropAddrIndex")
  ∧ (index = "DropCfIndex" →
     DropAddrIndex cfg = false ∧ DropTxIndex cfg = false
     ∧ DropExistsAddrIndex cfg = false ∧ DropCFIndex cfg = true).
Proof.
  intros Hload (Hbefore & Hdb & Hafter) Hdrop.
  pose proof (dcrdMain_runs w t cfg args Hload) as Hrun.
  open_run Hrun; try congruence.
  assert (x = index) as -> by congruence.
  split; [exact Hr|]. split; [exact Ho|].
  unfold droppedIndex in Hdrop. split.
  - intros Haddr. rewrite Haddr in Hdrop. congruence.
  - intros ->.
    destruct (DropAddrIndex cfg); [discriminate Hdrop|].
    destruct (DropTxIndex cfg); [discriminate Hdrop|].
    destruct (DropExistsAddrIndex cfg); [discriminate Hdrop|].
    destruct (DropCFIndex cfg); [done | discriminate Hdrop].
Qed.

(** X15, for a configuration file asking to drop two indexes. *)
Lemma dcrdMain_drops_index_witness :
  ∃ t cfg args,
    loadConfig dropIndexWorld = (t, Returned (Some cfg, args, None))
    ∧ droppedIndex cfg = Some "DropAddrIndex"
    ∧ resources (trace (dcrdMain dropIndexWorld))
      = [EvLoadBlockDB; EvDropIndex "DropAddrIndex"; EvDbClose]
    ∧ result (dcrdMain dropIndexWorld) = Returned None.
Proof.
  let r := eval vm_compute in (loadConfig dropIndexWorld) in
  lazymatch r with
  | (?t, Returned (Some ?c, ?a, _)) => exists t, c, a
  end.
  assert (Hrun : loadConfig dropIndexWorld = (_, Returned (Some _, _, None)))
    by (vm_compute; reflexivity).
  assert (Hloaded : databaseLoaded dropIndexWorld)
    by (repeat split; reflexivity).
  lazymatch type of Hrun with
  | _ = (_, Returned (Some ?c, _, _)) =>
      assert (Hdrop : droppedIndex c = Some "DropAddrIndex") by reflexivity
  end.
  split; [exact Hrun|]. split; [exact Hdrop|].
  destruct (dcrdMain_drops_index _ _ _ _ _ Hrun Hloaded Hdrop)
    as (Hr & Ho & _).
  split; [exact Hr | exact Ho].
Defined.

(** X16. When the block database cannot be loaded, [dcrdMain] returns that
    error having closed nothing and created no server; when the server
    cannot be created, it closes the database and returns that error, and
    the server is never started. *)
Theorem dcrdMain_start_failures (w : World) (t : list event) (cfg : config)
  (args : list string) (e : error) :
  loadConfig w = (t, Returned (Some cfg, args, None)) →
  shutdownRequested (ctxAt w BeforeLoadBlockDB) = false →
  (loadBlockDB w = Some e →
   resources (trace (dcrdMain w)) = [EvLoadBlockDB]
   ∧ result (dcrdMain w) = Returned (Some e))
  ∧ (databaseLoaded w → droppedIndex cfg = None →
     newServer w (Listeners cfg) (DataDir cfg) = Some e →
     resources (trace (dcrdMain w)) = [EvLoadBlockDB; EvNewServer; EvDbClose]
     ∧ result (dcrdMain w) = Returned (Some e)).
Proof.
  intros Hload Hbefore.
  pose proof (dcrdMain_runs w t cfg args Hload) as Hrun.
  split.
  - intros Hdb. open_run Hrun; try congruence.
    assert (x = e) as -> by congruence. by split.
  - intros (_ & Hdb & Hafter) Hdrop Hserver. open_run Hrun; try congruence.
    assert (x = e) as -> by congruence. by split.
Qed.

(** X16, for a database that cannot be opened and for a listen port that
    is taken. *)
Lemma dcrdMain_start_failures_witness :
  (∃ t cfg args,
     loadConfig brokenDbWorld = (t, Returned (Some cfg, args, None))
     ∧ resources (trace (dcrdMain brokenDbWorld)) = [EvLoadBlockDB]
     ∧ result (dcrdMain brokenDbWorld) = Returned (Some ErrLoadBlockDB))
  ∧ (∃ t cfg args,
       loadConfig portTakenWorld = (t, Returned (Some cfg, args, None))
       ∧ resources (trace (dcrdMain portTakenWorld))
         = [EvLoadBlockDB; EvNewServer; EvDbClose]
       ∧ result (dcrdMain portTakenWorld) = Returned (Some ErrNewServer)).
Proof.
  split.
  - let r := eval vm_compute in (loadConfig brokenDbWorld) in
    lazymatch r with
    | (?t, Returned (Some ?c, ?a, _)) => exists t, c, a
    end.
    assert (Hrun : loadConfig brokenDbWorld = (_, Returned (Some _, _, None)))
      by (vm_compute; reflexivity).
    split; [exact Hrun|].
    exact (proj1 (dcrdMain_start_failures _ _ _ _ ErrLoadBlockDB Hrun eq_refl)
             eq_refl).
  - let r := eval vm_compute in (loadConfig portTakenWorld) in
    lazymatch r with
    | (?t, Returned (Some ?c, ?a, _)) => exists t, c, a
    end.
    assert (Hrun : loadConfig portTakenWorld = (_, Returned (Some _, _, None)))
      by (vm_compute; reflexivity).
    split; [exact Hrun|].
    apply (proj2 (dcrdMain_start_failures _ _ _ _ ErrNewServer Hrun eq_refl));
      [repeat split; reflexivity | reflexivity | reflexivity].
Defined.

Lemma bind_exited {A B} (f : A → proc B) (t : list event) (code : Z) :
  mbind f (t, Exited code) = (t, Exited code).
Proof. reflexivity. Qed.

Lemma bind_panicked {A B} (f : A → proc B) (t : list event) :
  mbind f (t, Panicked) = (t, Panicked).
Proof. reflexivity. Qed.

Lemma resources_elem (e : event) (t : list event) :
  e ∈ resources t → e ∈ t.
Proof.
  unfold resources. rewrite !list_elem_of_In, List.filter_In. tauto.
Qed.

(** How [dcrdMain] ends, from how [loadConfig] ends. *)
Lemma dcrdMain_result (w : World) :
  match result (loadConfig w) with
  | Exited code => result (dcrdMain w) = Exited code
  | Panicked => result (dcrdMain w) = Panicked
  | Blocked => False
  | Returned (Some cfg, _, None) =>
      dcrdMainRun w cfg (resourceRun (dcrdMain w))
  | Returned (_, _, Some e) => result (dcrdMain w) = Returned (Some e)
  | Returned (None, _, None) => False
  end.
Proof.
  pose proof (loadConfig_outcomes w) as Hout.
  destruct (loadConfig w) as [t o] eqn:Hload. cbn [result snd] in *.
  destruct Hout as [(code & -> & _)|[(e & -> & _)|[(cfg & -> & _)|(-> & _)]]].
  - unfold dcrdMain. by rewrite Hload.
  - unfold dcrdMain. rewrite Hload, bind_returned. reflexivity.
  - exact (dcrdMain_runs w t cfg _ Hload).
  - unfold dcrdMain. by rewrite Hload.
Qed.

(** X17. [dcrdMain] leaves the process or panics only where [loadConfig]
    does; it blocks for ever only with the server started and a shutdown
    context that is never canceled; and an error it returns is the error
    of [loadConfig], of loading the database, of dropping an index or of
    creating the server. *)
Theorem dcrdMain_ends (w : World) :
  (∀ code, result (dcrdMain w) = Exited code ↔
           result (loadConfig w) = Exited code)
  ∧ (result (dcrdMain w) = Panicked ↔ result (loadConfig w) = Panicked)
  ∧ (result (dcrdMain w) = Blocked →
     ctxEventuallyCanceled w = false ∧ EvServerStart ∈ trace (dcrdMain w))
  ∧ (∀ e, result (dcrdMain w) = Returned (Some e) →
       (∃ cfg args, result (loadConfig w) = Returned (cfg, args, Some e))
       ∨ loadBlockDB w = Some e
       ∨ (∃ index, indexers_Drop w index = Some e)
       ∨ (∃ listeners dataDir, newServer w listeners dataDir = Some e)).
Proof.
  pose proof (dcrdMain_result w) as Hres.
  destruct (result (loadConfig w)) as [[[[cfg|] args] [e|]]|code| |] eqn:Hload;
    try contradiction.
  1, 3-5: (rewrite Hres;
    repeat split; try discriminate; try congruence;
    intros e' [= <-]; left; eauto).
  open_run Hres; rewrite Ho;
    (split; [split; discriminate|]); (split; [split; discriminate|]);
    (split; [try discriminate|]).
  - intros e [=].
  - intros e [= <-]. right. by left.
  - intros e [=].
  - intros e [= Hdrop]. right. right. left. by exists x.
  - intros e [= <-]. right. right. right. eauto.
  - intros e [=].
  - intros _. split; [assumption|].
    apply resources_elem. rewrite Hr. is_in_list.
  - intros e [=].
Qed.

Lemma dcrdMain_exits (w : World) (code : Z) :
  result (dcrdMain w) = Exited code →
  ∃ t, preParseError w = Some (FlagsError t)
       ∧ code = (if isErrHelp t then 0 else 1).
Proof.
  intros Hexit. pose proof (dcrdMain_result w) as Hres.
  pose proof (loadConfig_post w) as Hpost.
  destruct (result (loadConfig w)) as [[[[cfg|] args] [e|]]|code'| |];
    try contradiction; try congruence.
  - open_run Hres; congruence.
  - assert (code' = code) as -> by congruence. exact Hpost.
Qed.

(** X18. [main] leaves the process with status 1 when the limits cannot be
    set, having done nothing but print the reason, and when [dcrdMain]
    returns an error; it returns normally exactly when the limits are set
    and [dcrdMain] returns nil; and whenever the process exits, the status
    is 1, or it is 0 and the command line asked for the help message. *)
Theorem main_exit_status (w : World) :
  (limits_SetLimits w ≠ None →
   main w = ([EvPrint Stderr "failed to set limits: %v\n"], Exited 1))
  ∧ (limits_SetLimits w = None →
     ∀ e, result (dcrdMain w) = Returned (Some e) →
          result (main w) = Exited 1 ∧ trace (main w) = trace (dcrdMain w))
  ∧ (result (main w) = Returned tt ↔
     limits_SetLimits w = None ∧ result (dcrdMain w) = Returned None)
  ∧ (∀ code, result (main w) = Exited code →
       code = 1
       ∨ (code = 0 ∧ ∃ t, preParseError w = Some (FlagsError t)
                          ∧ isErrHelp t = true)).
Proof.
  pose proof (dcrdMain_exits w) as Hexits.
  unfold main. destruct (limits_SetLimits w) as [e0|].
  - split; [reflexivity|]. split; [discriminate|].
    split; [split; [discriminate | intros [[=] _]]|].
    intros code [= <-]. by left.
  - destruct (dcrdMain w) as [t [[e|]|code| |]] eqn:Hmain;
      cbn [result trace fst snd] in *.
    + rewrite bind_returned. cbn [result trace fst snd os_Exit].
      split; [by intros []|]. split.
      { intros _ e' _. split; [reflexivity | apply app_nil_r]. }
      split; [split; [discriminate | intros [_ [=]]]|].
      intros code [= <-]. by left.
    + rewrite bind_returned. cbn [result trace fst snd mret proc_ret Proc.ret].
      split; [by intros []|]. split; [intros _ e' [=]|].
      split; [done | intros code [=]].
    + rewrite bind_exited. cbn [result trace fst snd].
      split; [by intros []|]. split; [intros _ e' [=]|].
      split; [split; [discriminate | intros [_ [=]]]|].
      intros code' [= <-]. destruct (Hexits code eq_refl) as (et & Hpre & ->).
      destruct (isErrHelp et) eqn:Hhelp; [right | by left].
      split; [reflexivity|]. by exists et.
    + rewrite bind_panicked. cbn [result trace fst snd].
      split; [by intros []|]. split; [intros _ e' [=]|].
      split; [split; [discriminate | intros [_ [=]]] | intros code [=]].
    + split; [by intros []|]. split; [intros _ e' [=]|].
      split; [split; [discriminate | intros [_ [=]]] | intros code [=]].
Qed.

(** X18, for a ban duration of 500ms in the configuration file. *)
Lemma main_exit_status_witness :
  limits_SetLimits shortBanWorld = None
  ∧ result (dcrdMain shortBanWorld)
    = Returned (Some (ErrBanDuration 500000000))
  ∧ result (main shortBanWorld) = Exited 1.
Proof.
  assert (Hlimits : limits_SetLimits shortBanWorld = None) by reflexivity.
  assert (Hmain : result (dcrdMain shortBanWorld)
                  = Returned (Some (ErrBanDuration 500000000)))
    by (vm_compute; reflexivity).
  split; [exact Hlimits|]. split; [exact Hmain|].
  destruct (main_exit_status shortBanWorld) as (_ & Herr & _).
  exact (proj1 (Herr Hlimits _ Hmain)).
Defined.

(** The table of runs as a function of the answers of the world. *)
Lemma dcrdMainRun_lifecycle (w : World) (cfg : config)
  (run : list event * outcome (option error)) :
  dcrdMainRun w cfg run → run = lifecycle w cfg (droppedIndex cfg).
Proof.
  intros Hrun. unfold lifecycle.
  unfold dcrdMainRun, databaseLoaded in Hrun.
  destruct Hrun as [H|[H|[H|[H|[H|[H|H]]]]]];
    repeat match type of H with
           | _ ∧ _ => let H1 := fresh "Hc" in destruct H as [H1 H]
           | ∃ _, _ => let x := fresh "x" in destruct H as [x H]
           end;
    repeat match goal with
           | Hc : _ ∧ _ |- _ =>
               let H1 := fresh "Hc" in
               let H2 := fresh "Hc" in
               destruct Hc as [H1 H2]
           end;
    subst run;
    repeat match goal with
           | Hc : ?x = _ |- context [?x] => rewrite Hc
           end;
    try reflexivity.
  - match goal with Hd : _ ∨ _ |- _ => destruct Hd as [Hd|Hd]; rewrite Hd end;
      [reflexivity | by rewrite orb_true_r].
Qed.

Lemma SampleConfig_lifecycle (w : World) (t : list event) (cfg : config)
  (args : list string) :
  loadConfig w = (t, Returned (Some cfg, args, None)) →
  resourceRun (SampleConfig.dcrdMain w) = lifecycle w cfg None.
Proof.
  intros Hload. unfold SampleConfig.dcrdMain.
  lazymatch goal with
  | |- context [mbind ?k (loadConfig w)] =>
      rewrite (run_loadConfig w t cfg args k Hload)
  end.
  cbv beta iota. unfold lifecycle.
  destruct (shutdownRequested (ctxAt w BeforeLoadBlockDB)) eqn:Hbefore;
    [run_main|].
  destruct (loadBlockDB w) as [e|] eqn:Hdb; [run_main|].
  destruct (shutdownRequested (ctxAt w AfterLoadBlockDB)) eqn:Hafter;
    [run_main|].
  destruct (newServer w (Listeners cfg) (DataDir cfg)) as [e|] eqn:Hserver;
    [run_main|].
  destruct (shutdownRequested (ctxAt w AfterServerStart)) eqn:Hstart;
    [run_main|].
  destruct (ctxEventuallyCanceled w) eqn:Hlater; run_main.
Qed.

(** X26. The two versions of [dcrdMain] in the sources do the same to the
    block database and the server, in the same order, and end in the same
    way, for every configuration without a "drop index" flag and whenever
    the start-up ends before the flags are looked at.  With such a flag
    and the database loaded they differ: the shorter version never drops
    an index and goes on to create the server, the longer one creates no
    server. *)
Theorem dcrdMain_versions_agree (w : World) (t : list event) (cfg : config)
  (args : list string) :
  loadConfig w = (t, Returned (Some cfg, args, None)) →
  (droppedIndex cfg = None ∨ ¬ databaseLoaded w →
   resources (trace (SampleConfig.dcrdMain w)) = resources (trace (dcrdMain w))
   ∧ result (SampleConfig.dcrdMain w) = result (dcrdMain w))
  ∧ (databaseLoaded w → droppedIndex cfg ≠ None →
     (EvNewServer ∈ resources (trace (SampleConfig.dcrdMain w)))
     ∧ (EvNewServer ∉ resources (trace (dcrdMain w))))
  ∧ (∀ index, EvDropIndex index ∉ resources (trace (SampleConfig.dcrdMain w))).
Proof.
  intros Hload.
  pose proof (dcrdMainRun_lifecycle _ _ _ (dcrdMain_runs w t cfg args Hload))
    as Hfull.
  pose proof (SampleConfig_lifecycle w t cfg args Hload) as Hshort.
  change (resources (trace (dcrdMain w))) with (resourceRun (dcrdMain w)).1.
  change (result (dcrdMain w)) with (resourceRun (dcrdMain w)).2.
  change (resources (trace (SampleConfig.dcrdMain w)))
    with (resourceRun (SampleConfig.dcrdMain w)).1.
  change (result (SampleConfig.dcrdMain w))
    with (resourceRun (SampleConfig.dcrdMain w)).2.
  rewrite Hfull, Hshort. clear Hfull Hshort.
  unfold lifecycle, databaseLoaded.
  split; [|split].
  - intros [->|Hnot]; [done|].
    destruct (shutdownRequested (ctxAt w BeforeLoadBlockDB)); [done|].
    destruct (loadBlockDB w); [done|].
    destruct (shutdownRequested (ctxAt w AfterLoadBlockDB)); [done|].
    by destruct Hnot.
  - intros (-> & -> & ->) Hdrop.
    destruct (droppedIndex cfg) as [index|]; [|done]. cbn [fst snd].
    split; [|not_in_list].
    destruct (newServer w (Listeners cfg) (DataDir cfg));
      [|destruct (_ || _)]; cbn [fst]; is_in_list.
  - intros index.
    destruct (shutdownRequested (ctxAt w BeforeLoadBlockDB)); [not_in_list|].
    destruct (loadBlockDB w); [not_in_list|].
    destruct (shutdownRequested (ctxAt w AfterLoadBlockDB)); [not_in_list|].
    destruct (newServer w (Listeners cfg) (DataDir cfg));
      [|destruct (_ || _)]; cbn [fst]; not_in_list.
Qed.

(** X26, for an undisturbed start and for a configuration file asking to
    drop two indexes. *)
Lemma dcrdMain_versions_agree_witness :
  (∃ t cfg args,
     loadConfig quietWorld = (t, Returned (Some cfg, args, None))
     ∧ result (SampleConfig.dcrdMain quietWorld) = result (dcrdMain quietWorld))
  ∧ (∃ t cfg args,
       loadConfig dropIndexWorld = (t, Returned (Some cfg, args, None))
       ∧ EvNewServer ∈ resources (trace (SampleConfig.dcrdMain dropIndexWorld))).
Proof.
  split.
  - let r := eval vm_compute in (loadConfig quietWorld) in
    lazymatch r with
    | (?t, Returned (Some ?c, ?a, _)) => exists t, c, a
    end.
    assert (Hrun : loadConfig quietWorld = (_, Returned (Some _, _, None)))
      by (vm_compute; reflexivity).
    split; [exact Hrun|].
    apply (proj1 (dcrdMain_versions_agree _ _ _ _ Hrun)).
    left. reflexivity.
  - let r := eval vm_compute in (loadConfig dropIndexWorld) in
    lazymatch r with
    | (?t, Returned (Some ?c, ?a, _)) => exists t, c, a
    end.
    assert (Hrun : loadConfig dropIndexWorld = (_, Returned (Some _, _, None)))
      by (vm_compute; reflexivity).
    split; [exact Hrun|].
    apply (proj1 (proj2 (dcrdMain_versions_agree _ _ _ _ Hrun))).
    + repeat split; reflexivity.
    + discriminate.
Defined.

Lemma ends_bind {A B} (w : World) (m : proc A) (k : A → proc B) (a : A) :
  result m = Returned a → endsWithShutdown w (k a) →
  endsWithShutdown w (mbind k m).
Proof.
  destruct m as [t o]. cbn [result snd]. intros -> [Hblocked|Hends].
  - left. by rewrite bind_returned.
  - right. rewrite bind_returned. cbn [trace fst]. by apply suffix_app_r.
Qed.

Lemma ends_base {B} (w : World) (r : B) :
  endsWithShutdown w (mbind (λ _, mret r) (deferredBase w)).
Proof.
  right. unfold deferredBase, when. by destruct (logRotatorSet w).
Qed.

Ltac ends_step :=
  lazymatch goal with
  | |- endsWithShutdown _ (mbind _ (mbind _ _)) => rewrite bind_assoc
  | |- endsWithShutdown _ (mbind _ (deferredBase _)) => apply ends_base
  | |- endsWithShutdown _ (mbind _ (deferredServer _)) => unfold deferredServer
  | |- endsWithShutdown _ (mbind _ (deferredDb _)) => unfold deferredDb
  | |- endsWithShutdown _ (dropIndex _ _) => unfold dropIndex
  | |- endsWithShutdown _ (mbind _ (when ?b _)) =>
      eapply ends_bind; [by destruct b|]
  | |- endsWithShutdown _ (mbind _ (if ?b then _ else _)) =>
      eapply ends_bind; [by destruct b|]
  | |- endsWithShutdown _ (mbind _ _) => eapply ends_bind; [reflexivity|]
  | |- endsWithShutdown _ (match ?s with _ => _ end) => destruct s
  | |- endsWithShutdown _ block => left; reflexivity
  end; cbv beta iota.

(** X29. Once [loadConfig] returned a configuration, every run of
    [dcrdMain] that does not block for ever ends, whatever happened in
    between and whether it returns an error or nil, by logging
    "Shutdown complete" and then closing the log rotator, if there is
    one; when [loadConfig] returned an error instead, neither happens. *)
Theorem dcrdMain_shutdown_complete (w : World) :
  (∀ t cfg args,
     loadConfig w = (t, Returned (Some cfg, args, None)) →
     result (dcrdMain w) = Blocked
     ∨ ∃ before,
         trace (dcrdMain w)
         = before ++ EvLog "DCRD" LvlInfo "Shutdown complete"
                     :: (if logRotatorSet w then [EvLogRotatorClose] else []))
  ∧ (∀ args e,
       result (loadConfig w) = Returned (None, args, Some e) →
       (EvLog "DCRD" LvlInfo "Shutdown complete" ∉ trace (dcrdMain w))
       ∧ (EvLogRotatorClose ∉ trace (dcrdMain w))).
Proof.
  split.
  - intros t cfg args Hload.
    assert (Hends : endsWithShutdown w (dcrdMain w)).
    { unfold dcrdMain. eapply ends_bind; [by rewrite Hload|].
      cbv beta iota. repeat ends_step. }
    destruct Hends as [Hblocked|[before Hends]]; [by left|].
    right. exists before. rewrite Hends. f_equal.
    unfold deferredBase, when. by destruct (logRotatorSet w).
  - intros args e Hres.
    pose proof (loadConfig_trace w) as Hout.
    assert (Htrace : trace (dcrdMain w) = trace (loadConfig w)).
    { unfold dcrdMain. destruct (loadConfig w) as [t o].
      cbn [result snd] in Hres. subst o. rewrite bind_returned.
      cbn [trace fst]. apply app_nil_r. }
    rewrite Htrace, Hout. unfold loadConfigOutput.
    destruct (preParseError w) as [[et|]|];
      repeat match goal with
             | |- context [match ?s with _ => _ end] => destruct s
             end;
      split; not_in_list.
Qed.

(** X29, for an undisturbed start that is told to stop later. *)
Lemma dcrdMain_shutdown_complete_witness :
  ∃ before,
    trace (dcrdMain quietWorld)
    = before ++ [EvLog "DCRD" LvlInfo "Shutdown complete"; EvLogRotatorClose].
Proof.
  assert (Hrun : ∃ t cfg args,
            loadConfig quietWorld = (t, Returned (Some cfg, args, None))).
  { let r := eval vm_compute in (loadConfig quietWorld) in
    lazymatch r with
    | (?t, Returned (Some ?c, ?a, _)) => exists t, c, a
    end.
    vm_compute. reflexivity. }
  destruct Hrun as (t & cfg & args & Hrun).
  destruct (proj1 (dcrdMain_shutdown_complete quietWorld) t cfg args Hrun)
    as [Hblocked|Hends].
  - exfalso. revert Hblocked. vm_compute. discriminate.
  - exact Hends.
Defined.

End StartupMore.

(** ** [shutdownListener] and [setLogLevel] *)

Section SignalsAndLogging.

Lemma cancel_not_logged (inputs : list shutdownInput) :
  ListenerCancel ∉ map alreadyShuttingDown inputs.
Proof.
  induction inputs as [|i inputs IH]; cbn [map]; [apply not_elem_of_nil|].
  apply not_elem_of_cons. split; [by destruct i | exact IH].
Qed.

(** X24. The context [shutdownListener] returns is canceled exactly when
    its goroutine has received a signal or a shutdown request, so that
    [shutdownRequested] then answers true, and it stays canceled whatever
    is received later; the goroutine calls [cancel] once, right after the
    line logged for the first input, and logs one line for each input. *)
Theorem shutdownListener_cancels (inputs later : list shutdownInput) :
  (shutdownRequested (shutdownListener inputs) = true ↔ inputs ≠ [])
  ∧ (shutdownRequested (shutdownListener inputs) = true →
     shutdownRequested (shutdownListener (inputs ++ later)) = true)
  ∧ (∃ more, shutdownListenerActions (inputs ++ later)
             = shutdownListenerActions inputs ++ more)
  ∧ (inputs ≠ [] →
     ∃ first logs, shutdownListenerActions inputs
                   = ListenerLog first :: ListenerCancel :: logs
                   ∧ (ListenerCancel ∉ logs)
                   ∧ S (length logs) = length inputs).
Proof.
  assert (Hreq : ∀ l, shutdownRequested (shutdownListener l) = true ↔ l ≠ []).
  { intros [|i l]; [split; [discriminate | done]|].
    split; [done|]. intros _.
    unfold shutdownRequested, Done, shutdownListener. cbn [canceled].
    rewrite bool_decide_eq_true_2; [reflexivity|].
    cbn [shutdownListenerActions]. right. left. }
  split; [apply Hreq|]. split; [|split].
  - rewrite !Hreq. intros Hne Happ. by destruct inputs.
  - destruct inputs as [|i inputs].
    + by exists (shutdownListenerActions later).
    + cbn [app shutdownListenerActions]. rewrite map_app.
      by exists (map alreadyShuttingDown later).
  - destruct inputs as [|i inputs]; [done|]. intros _.
    cbn [shutdownListenerActions].
    exists (match i with
            | Signal _ => "Received signal (%s).  Shutting down..."
            | ShutdownRequest => "Shutdown requested.  Shutting down..."
            end), (map alreadyShuttingDown inputs).
    split; [by destruct i|]. split; [apply cancel_not_logged|].
    cbn [length]. by rewrite length_map.
Qed.

(** X25. [setLogLevel] ignores a subsystem that is not in
    [subsystemLoggers]; for a known subsystem it sets the level of its
    logger to what [slog.LevelFromString] answers, whether or not the
    string is valid, and changes the level of no other logger; the last
    of two calls for one subsystem wins; and calls for subsystems with
    different loggers commute. *)
Theorem setLogLevel_sets `{Countable Logger} {Level : Type}
  (subsystemLoggers : gmap string Logger)
  (LevelFromString : string → Level * bool)
  (subsystemID logLevel : string) (levels : gmap Logger Level) :
  let set := setLogLevel subsystemLoggers LevelFromString in
  (subsystemLoggers !! subsystemID = None →
   set subsystemID logLevel levels = levels)
  ∧ (∀ logger, subsystemLoggers !! subsystemID = Some logger →
       set subsystemID logLevel levels !! logger
       = Some (LevelFromString logLevel).1
       ∧ ∀ other, other ≠ logger →
           set subsystemID logLevel levels !! other = levels !! other)
  ∧ (∀ earlier,
       set subsystemID logLevel (set subsystemID earlier levels)
       = set subsystemID logLevel levels)
  ∧ (∀ subsystemID' logLevel',
       subsystemLoggers !! subsystemID ≠ subsystemLoggers !! subsystemID' →
       set subsystemID logLevel (set subsystemID' logLevel' levels)
       = set subsystemID' logLevel' (set subsystemID logLevel levels)).
Proof.
  intros set. subst set. unfold setLogLevel.
  split; [by intros ->|]. split; [|split].
  - intros logger ->. destruct (LevelFromString logLevel) as [level ok].
    split; [apply lookup_insert_eq|].
    intros other Hother. by apply lookup_insert_ne.
  - intros earlier. destruct (subsystemLoggers !! subsystemID); [|done].
    destruct (LevelFromString logLevel), (LevelFromString earlier).
    apply insert_insert_eq.
  - intros id' level' Hdiff.
    destruct (subsystemLoggers !! subsystemID) as [l1|],
      (subsystemLoggers !! id') as [l2|]; try done.
    destruct (LevelFromString logLevel), (LevelFromString level').
    apply insert_insert_ne. congruence.
Qed.

End SignalsAndLogging.

(** ** [cleanAndExpandPath], [validDbType] and [parseNetworkInterfaces] *)

Section PathsMore.

#[local] Arguments String.append !_ _ / : simpl nomatch.

Lemma IndexAny_ge (s chars : string) : -1 <= IndexAny s chars.
Proof.
  induction s as [|x s IH]; cbn [IndexAny]; [lia|].
  destruct (hasByte x chars); [lia|].
  destruct (Z.ltb_spec (IndexAny s chars) 0); lia.
Qed.

Lemma IndexAny_app (user rest chars : string) (c : ascii) :
  IndexAny user chars = -1 → hasByte c chars = true →
  IndexAny (user +:+ String c rest) chars = len user.
Proof.
  intros Huser Hc. induction user as [|x user IH].
  - cbn. by rewrite Hc.
  - cbn [IndexAny String.append] in *.
    destruct (hasByte x chars); [discriminate Huser|].
    pose proof (IndexAny_ge user chars) as Hge.
    destruct (Z.ltb_spec (IndexAny user chars) 0) as [Hneg|Hpos]; [|lia].
    rewrite IH by lia.
    pose proof (len_nonneg user) as Hlen.
    destruct (Z.ltb_spec (len user) 0); [lia|].
    unfold len. cbn [String.length]. lia.
Qed.

Lemma HasPrefix_tilde (s : string) : HasPrefix ("~" +:+ s) "~" = true.
Proof. unfold HasPrefix. cbn. by destruct s. Qed.

(** X21. [cleanAndExpandPath] on a non-empty path, after the environment
    variables are expanded: a path that does not begin with "~" is only
    cleaned; "~user" followed by a path separator becomes the home
    directory of that user (of the current user for an empty name) joined
    with the rest, separator included; "~name" without any separator is
    the home directory of the current user joined with [name]; and a home
    directory that is unknown or empty counts as ".". *)
Theorem cleanAndExpandPath_tilde (w : World) (path : string) :
  path ≠ "" →
  let expanded := os_ExpandEnv w path in
  (HasPrefix expanded "~" = false →
   cleanAndExpandPath w path = filepath_Clean w expanded)
  ∧ (∀ user c rest,
       expanded = "~" +:+ user +:+ String c rest →
       IndexAny user (pathSeparators w) = -1 →
       hasByte c (pathSeparators w) = true →
       cleanAndExpandPath w path
       = filepath_Join w
           [homeDirOf (if String.eqb user "" then user_Current w
                       else user_Lookup w user);
            String c rest])
  ∧ (∀ name,
       expanded = "~" +:+ name →
       IndexAny name (pathSeparators w) = -1 →
       cleanAndExpandPath w path
       = filepath_Join w [homeDirOf (user_Current w); name]).
Proof.
  intros Hpath expanded. apply String.eqb_neq in Hpath.
  unfold cleanAndExpandPath. rewrite Hpath. cbv zeta.
  fold expanded. fold (pathSeparators w).
  split; [|split].
  - by intros ->.
  - intros user c rest -> Huser Hc.
    rewrite HasPrefix_tilde.
    change (sliceFrom ("~" +:+ user +:+ String c rest) 1)
      with (user +:+ String c rest).
    cbn [negb]. rewrite (IndexAny_app _ _ _ _ Huser Hc).
    pose proof (len_nonneg user) as Hlen.
    destruct (Z.eqb_spec (len user) (-1)) as [Hbad|_]; [lia|]. cbn [negb].
    rewrite slice_app, sliceFrom_app. unfold homeDirOf.
    by destruct (String.eqb user ""), (user_Current w), (user_Lookup w user).
  - intros name -> Hname.
    rewrite HasPrefix_tilde.
    change (sliceFrom ("~" +:+ name) 1) with name.
    cbn [negb]. rewrite Hname. cbn. unfold homeDirOf.
    by destruct (user_Current w).
Qed.

(** X21, for a path in the home directory of the current user. *)
Lemma cleanAndExpandPath_tilde_witness :
  cleanAndExpandPath quietWorld "~/data"
  = filepath_Join quietWorld ["/home/dcrd"; "/data"].
Proof.
  assert (Hpath : "~/data" ≠ "") by discriminate.
  destruct (cleanAndExpandPath_tilde quietWorld "~/data" Hpath)
    as (_ & Huser & _).
  exact (Huser "" "/"%char "data" eq_refl eq_refl eq_refl).
Defined.

(** X22. [validDbType] answers true exactly for the members of
    [knownDbTypes]; in particular it accepts no type when no driver is
    registered. *)
Theorem validDbType_known (w : World) (dbType : string) :
  (validDbType w dbType = true ↔ dbType ∈ knownDbTypes w)
  ∧ (knownDbTypes w = [] → validDbType w dbType = false).
Proof.
  split; [apply validDbTypeIn_elem|].
  unfold validDbType. by intros ->.
Qed.

(** X23. [parseNetworkInterfaces] is idempotent: a second call on the
    configuration it left answers the same and changes nothing more; it
    never touches the listeners, the proxy or [DisableListen], which it
    reads; and when it fails, the configuration is the one it was given. *)
Theorem parseNetworkInterfaces_idempotent (w : World) (cfg cfg' : config)
  (err : option error) :
  parseNetworkInterfaces w cfg = (cfg', err) →
  parseNetworkInterfaces w cfg' = (cfg', err)
  ∧ (Listeners cfg', Proxy cfg', DisableListen cfg')
    = (Listeners cfg, Proxy cfg, DisableListen cfg)
  ∧ (err ≠ None → cfg' = cfg).
Proof.
  unfold parseNetworkInterfaces.
  destruct (parseListeners w (Listeners cfg)) as [[v4Addrs v6Addrs]|] eqn:Hparse.
  - destruct (0 <? Z.of_nat (length v4Addrs)) eqn:Hv4,
      (0 <? Z.of_nat (length v6Addrs)) eqn:Hv6;
      intros [= <- <-];
      (split; [|split; [reflexivity | by intros []]]);
      lazymatch goal with
      | |- context [parseListeners w (Listeners ?c)] =>
          change (Listeners c) with (Listeners cfg)
      end;
      rewrite Hparse, Hv4, Hv6; reflexivity.
  - intros [= <- <-]. rewrite Hparse. by split.
Qed.

(** X23, for the default listener, which [parseListeners] here counts for
    both address families. *)
Lemma parseNetworkInterfaces_idempotent_witness :
  ∃ cfg',
    parseNetworkInterfaces quietWorld listeningConfig = (cfg', None)
    ∧ nrReachable (ipv4NetInfo cfg') = true
    ∧ nrReachable (ipv4NetInfo listeningConfig) = false
    ∧ parseNetworkInterfaces quietWorld cfg' = (cfg', None).
Proof.
  let r := eval vm_compute in
             (parseNetworkInterfaces quietWorld listeningConfig) in
  lazymatch r with
  | (?c, _) => exists c
  end.
  assert (Hrun : parseNetworkInterfaces quietWorld listeningConfig = (_, None))
    by (vm_compute; reflexivity).
  split; [exact Hrun|]. split; [reflexivity|]. split; [reflexivity|].
  exact (proj1 (parseNetworkInterfaces_idempotent _ _ _ _ Hrun)).
Defined.

End PathsMore.

